(** * Pulse smoke tests: the orchestration and reporting engine

    A shallow embedding of the TypeScript sources

    - [services/pulse-api.ts]      (class [PulseAPIService]),
    - [services/supabase.ts]       (class [SupabaseService]),
    - [services/notifications.ts]  (class [NotificationService]),
    - [smoke-tests/index.ts]       (class [SmokeTestRunner], entry block),
    - [config/index.ts]            (the schema of the environment),

    followed by the properties of the design document that concern them.

    Conventions of the embedding.

    - An [async] method is a computation in the monad [M]: it reads and
      extends the state of the process and either returns or throws.  What
      a method did before it threw stays done, as in JavaScript.
    - The outside world (the search API behind axios, the Supabase client,
      the two webhooks, the clock) is an oracle [Env].  Every awaited
      network exchange is appended to the trace; the oracle is asked with
      the number of exchanges made so far, so the same request may be
      answered differently each time it is sent.
    - [Date.now()] is the oracle's clock read at the current number of
      exchanges: time passes across awaited I/O only, synchronous code
      runs in no time.
    - [logger] calls return nothing and are taken never to throw; the one
      the embedding records is the report logged at the end of a run. *)

From Stdlib Require Import ZArith List String Ascii Bool Lia.
From Stdlib Require Import Floats DecimalString.
Import ListNotations.

Local Open Scope string_scope.
Local Open Scope Z_scope.

(* ================================================================== *)
(** * JavaScript values and built-ins used by the sources             *)
(* ================================================================== *)

Module JS.

(** Truthiness of an optional string: [undefined], [null] and [''] are
    falsy. *)
Definition truthy (o : option string) : bool :=
  match o with
  | Some s => negb (s =? "")%string
  | None => false
  end.

(** [a || b] on optional strings. *)
Definition or (a b : option string) : option string :=
  if truthy a then a else b.

(** [a || 'literal']. *)
Definition or_default (a : option string) (b : string) : string :=
  match a with
  | Some s => if (s =? "")%string then b else s
  | None => b
  end.

(** [a || undefined]. *)
Definition or_undefined (a : option string) : option string :=
  or a None.

(** [String(n)] for an integral number. *)
Definition string_of_Z (z : Z) : string :=
  NilZero.string_of_int (Z.to_int z).

(** [String.prototype.includes]. *)
Fixpoint includes (hay needle : string) : bool :=
  String.prefix needle hay
  || match hay with
     | EmptyString => false
     | String _ rest => includes rest needle
     end.

(** The line feed of a template literal. *)
Definition LF : string := String (ascii_of_nat 10) EmptyString.

(** Decimal digits of a non-negative integer, left-padded with zeros to
    at least [width] characters ([padStart(width, '0')]). *)
Fixpoint zeros (n : nat) : string :=
  match n with
  | O => ""
  | S k => "0" ++ zeros k
  end.

Definition padStart0 (width : nat) (z : Z) : string :=
  let d := string_of_Z z in
  zeros (width - String.length d) ++ d.

(** ** [Date.prototype.toISOString]

    The instant is the number of milliseconds since the epoch.  Days are
    turned into a proleptic Gregorian date; years outside 0..9999 use
    the expanded form with a sign and six digits. *)
Definition civil_from_days (days : Z) : Z * Z * Z :=
  let z := days + 719468 in
  let era := z / 146097 in
  let doe := z - era * 146097 in
  let yoe := (doe - doe / 1460 + doe / 36524 - doe / 146096) / 365 in
  let doy := doe - (365 * yoe + yoe / 4 - yoe / 100) in
  let mp := (5 * doy + 2) / 153 in
  let d := doy - (153 * mp + 2) / 5 + 1 in
  let m := if mp <? 10 then mp + 3 else mp - 9 in
  let y := yoe + era * 400 in
  (if m <=? 2 then y + 1 else y, m, d).

Definition year_string (y : Z) : string :=
  if (0 <=? y) && (y <=? 9999) then padStart0 4 y
  else if y <? 0 then "-" ++ padStart0 6 (- y)
  else "+" ++ padStart0 6 y.

Definition toISOString (ms : Z) : string :=
  let days := ms / 86400000 in
  let rest := ms mod 86400000 in
  let '(y, m, d) := civil_from_days days in
  year_string y ++ "-" ++ padStart0 2 m ++ "-" ++ padStart0 2 d
  ++ "T" ++ padStart0 2 (rest / 3600000)
  ++ ":" ++ padStart0 2 (rest / 60000 mod 60)
  ++ ":" ++ padStart0 2 (rest / 1000 mod 60)
  ++ "." ++ padStart0 3 (rest mod 1000) ++ "Z".

(** ** Numbers

    Counts are integers; the success rate is computed in binary64, as
    the engine does.  [number z] is the double of a count [z], exact for
    [0 <= z < 2^53]. *)
Definition number (z : Z) : float := PrimFloat.of_uint63 (Uint63.of_Z z).

(** [Number.prototype.toFixed(2)].  The value is rounded to the nearest
    hundredth on its exact binary expansion, ties going up; a value that
    is not finite prints as its name.  (From 1e21 on the engine switches
    to exponent notation; the digits are printed plainly here, a range
    no quotient of two counts times 100 reaches.) *)
Definition hundredths (m : positive) (e : Z) : Z :=
  if 0 <=? e then Z.pos m * 100 * 2 ^ e
  else (2 * (Z.pos m * 100) + 2 ^ (- e)) / (2 * 2 ^ (- e)).

Definition fixed2 (n : Z) : string :=
  padStart0 1 (n / 100) ++ "." ++ padStart0 2 (n mod 100).

Definition toFixed2 (x : float) : string :=
  match Prim2SF x with
  | S754_nan => "NaN"
  | S754_infinity s => if s then "-Infinity" else "Infinity"
  | S754_zero _ => "0.00"
  | S754_finite s m e =>
      (if s then "-" else "") ++ fixed2 (hundredths m e)
  end.

End JS.

(* ================================================================== *)
(** * Thrown values                                                   *)
(* ================================================================== *)

(** What [catch (error)] can bind.  An axios failure carries the server's
    reply when there was one; of that reply the sources read
    [error.response?.data?.error] only. *)
Module AxiosError.
Record response_t := mkResponse {
  status : Z;
  data_error : option string
}.
Record t := mk {
  message : string;
  stack : string;
  response : option response_t
}.
End AxiosError.

Inductive Thrown :=
| ThrownAxios (e : AxiosError.t)
    (** an [AxiosError]: an [Error], and [axios.isAxiosError] holds *)
| ThrownError (message : string) (stack : string)
    (** any other [Error] instance, a [TypeError] for one *)
| ThrownValue (message : option string)
    (** a value that is no [Error], such as the plain error object the
        Supabase client hands back and the service rethrows *).

Module Caught.
Definition isAxiosError (error : Thrown) : bool :=
  match error with ThrownAxios _ => true | _ => false end.

(** [error?.message] *)
Definition message (error : Thrown) : option string :=
  match error with
  | ThrownAxios e => Some (AxiosError.message e)
  | ThrownError m _ => Some m
  | ThrownValue m => m
  end.

(** [error?.stack] *)
Definition stack (error : Thrown) : option string :=
  match error with
  | ThrownAxios e => Some (AxiosError.stack e)
  | ThrownError _ s => Some s
  | ThrownValue _ => None
  end.

(** [error.response?.data?.error] *)
Definition response_data_error (error : Thrown) : option string :=
  match error with
  | ThrownAxios e =>
      match AxiosError.response e with
      | Some r => AxiosError.data_error r
      | None => None
      end
  | _ => None
  end.

(** [error instanceof Error ? error.message : 'Unknown error'] *)
Definition message_or_unknown (error : Thrown) : string :=
  match error with
  | ThrownAxios e => AxiosError.message e
  | ThrownError m _ => m
  | ThrownValue _ => "Unknown error"
  end.
End Caught.

(* ================================================================== *)
(** * Data model                                                      *)
(* ================================================================== *)

(** A result item is opaque to the harness: only the length of a result
    list is ever looked at. *)
Definition Item := string.

Module SearchRequest.
Record t := mk {
  query : string;
  area : option string;
  region : option string;
  country : option string;
  timeline : option string;
  category : option string;
  enableFallbacks : option bool;
  maxFallbacks : option Z;
  deviceId : option string;
  buttonClickCount : option string
}.
End SearchRequest.

Module Timing.
Record t := mk {
  primary_ms : option Z;
  fallback_ms : option Z;
  total_ms : Z
}.
End Timing.

Module Meta.
Record t := mk {
  cache_hit : option bool;
  original_count : option Z;
  flyer_count : option Z;
  total_items : option Z;
  session_filtered : option bool
}.
End Meta.

Module SearchResponse.
Record t := mk {
  success : bool;
  data : list Item;
  source : string;
  strategy : string;
  originalStrategy : option string;
  fallbackUsed : option string;
  fallbackChain : option (list string);
  timing : option Timing.t;
  meta : option Meta.t;
  timestamp : string;
  error : option string
}.
End SearchResponse.

(** A row of the [query_cache] table.  [response] is [any] in the source:
    it may be null and its [data] may be missing.  [expire_at] is kept as
    the instant [new Date(entry.expire_at)] denotes, [None] standing for
    an invalid date. *)
Module QueryCacheEntry.
Record response_t := mkResponse {
  data : option (list Item)
}.
Record t := mk {
  id : string;
  prompt : string;
  area : string;
  region : option string;
  country : option string;
  timeline : option string;
  button_click_count : option string;
  response : option response_t;
  model : string;
  provider : string;
  timestamp : string;
  created_at : string;
  expire_at : option Z
}.
End QueryCacheEntry.

(** The [details] payloads the probes attach ([details?: any]). *)
Inductive Details :=
| DetailsNull
| DetailsEntry (id prompt : string)
| DetailsQueryCache (itemCount : Z) (timing : option Timing.t)
    (source : string) (cacheHit : option bool) (testedQuery : string)
| DetailsRagVector (itemCount : Z) (timing : option Timing.t)
    (source : string)
| DetailsStrategy (itemCount : Z) (timing : option Timing.t)
| DetailsPerformance (expectedMs actualMs : Z) (withinExpected : bool).

Module TestResult.
Record t := mk {
  testName : string;
  success : bool;
  duration : Z;
  error : option string;
  details : option Details
}.
End TestResult.

Module Report.
Record t := mk {
  timestamp : string;
  totalTests : Z;
  passedTests : Z;
  failedTests : Z;
  hasFailures : bool;
  successRate : string;
  totalDuration : string;
  results : list TestResult.t;
  failures : list TestResult.t
}.
End Report.

(** The part of [config] the modelled code reads. *)
Module Config.
Record t := mk {
  TEST_AREA : string;
  TEST_REGION : string;
  TEST_COUNTRY : string;
  TEST_TIMELINE : string;
  SLACK_WEBHOOK_URL : option string;
  DISCORD_WEBHOOK_URL : option string;
  ENABLE_SLACK_NOTIFICATIONS : bool;
  ENABLE_DISCORD_NOTIFICATIONS : bool
}.
End Config.

(* ================================================================== *)
(** * The outside world                                               *)
(* ================================================================== *)

(** What comes back on the wire for one HTTP request. *)
Inductive Exchange (Body : Type) :=
| Replied (status : Z) (body : Body)
    (** the server answered, with any status *)
| NoReply (message : string)
    (** transport failure (DNS, TCP, timeout of the request): axios
        rejects with an [AxiosError] that has no [response] *)
| Broken (error : Thrown)
    (** the client failed with something that is no [AxiosError] *).
Arguments Replied {Body}.
Arguments NoReply {Body}.
Arguments Broken {Body}.

(** A select on [query_cache], as the service builds it. *)
Module SupabaseQuery.
Record t := mk {
  from : string;
  ilike_prompt : option string;
  gte_expire_at : string;
  eq : list (string * string);
  order_descending : string;
  limit : Z
}.
End SupabaseQuery.

(** The client answers [{ data, error }]; the [error] object is kept as
    the value a [throw error] raises. *)
Inductive SupabaseOutcome :=
| SupabaseResult (data : option (list QueryCacheEntry.t))
    (error : option Thrown)
| SupabaseThrows (error : Thrown).

(** Values found in the [details] object of a notification, and the
    webhook bodies built from them.  [JSON.stringify] of [undefined] is
    [undefined]; of any other value it is that value's JSON text, which
    is kept here as the value it is the text of. *)
Module Failure.
Record t := mk {
  test : string;
  error : option string;
  duration : string
}.
End Failure.

Inductive JsValue :=
| JsUndefined
| JsString (s : string)
| JsFailures (l : list Failure.t).

Inductive JsonText := JsonOf (v : JsValue).

Definition JSON_stringify (v : JsValue) : option JsonText :=
  match v with
  | JsUndefined => None
  | _ => Some (JsonOf v)
  end.

Module Slack.
Record field := mkField {
  title : string;
  value : option JsonText;
  short : bool
}.
Record body := mk {
  text : string;
  attachments : option (list field)   (** one attachment, colour danger *)
}.
End Slack.

Module Discord.
(** [value] is the first 1024 characters of the JSON text. *)
Record field := mkField {
  name : string;
  value_substring_0_1024 : JsonText;
  inline : bool
}.
Record body := mk {
  content : string;
  embeds : option (list field)        (** one embed, colour 0xff0000 *)
}.
End Discord.

Inductive WebhookBody :=
| SlackBody (b : Slack.body)
| DiscordBody (b : Discord.body).

(** The awaited exchanges of a run, in the order they were started. *)
Inductive Event :=
| HttpGet (url : string) (timeout : Z)
| HttpPost (url : string) (body : SearchRequest.t)
| Select (q : SupabaseQuery.t)
| WebhookPost (url : string) (body : WebhookBody).

Module Env.
Record t := mk {
  config : Config.t;
  (** [Date.now()] once [n] exchanges were made *)
  clock : nat -> Z;
  (** the stack text of an [Error] created at that point *)
  stack : nat -> string;
  (** the answers to the [n]-th exchange *)
  get : nat -> string -> Z -> Exchange unit;
  post : nat -> string -> SearchRequest.t -> Exchange SearchResponse.t;
  select : nat -> SupabaseQuery.t -> SupabaseOutcome;
  (** whether the webhook accepted the post ([false]: axios rejects) *)
  webhook : nat -> string -> WebhookBody -> bool
}.
End Env.

(* ================================================================== *)
(** * The monad of async methods                                      *)
(* ================================================================== *)

Module State.
Record t := mk {
  results : list TestResult.t;    (** [this.results] of the runner *)
  trace : list Event;             (** exchanges made so far *)
  logged : list Report.t          (** reports given to [logger.info] *)
}.
Definition initial : t := mk [] [] [].
End State.

Inductive Completion (A : Type) :=
| Returned (a : A)
| Threw (error : Thrown).
Arguments Returned {A}.
Arguments Threw {A}.

Definition M (A : Type) : Type := State.t -> Completion A * State.t.

Definition ret {A} (a : A) : M A := fun s => (Returned a, s).

Definition bind {A B} (m : M A) (k : A -> M B) : M B :=
  fun s =>
    match m s with
    | (Returned a, s') => k a s'
    | (Threw e, s') => (Threw e, s')
    end.

Definition throw {A} (error : Thrown) : M A := fun s => (Threw error, s).

(** [try { body } catch (error) { handler }] *)
Definition try_catch {A} (body : M A) (handler : Thrown -> M A) : M A :=
  fun s =>
    match body s with
    | (Returned a, s') => (Returned a, s')
    | (Threw e, s') => handler e s'
    end.

Declare Scope js_scope.
Delimit Scope js_scope with js.
Notation "x <- m ;; k" := (bind m (fun x => k))
  (at level 61, m at next level, right associativity) : js_scope.
Notation "m ;; k" := (bind m (fun _ => k))
  (at level 61, right associativity) : js_scope.
Local Open Scope js_scope.

(** [for (const x of xs) { body }] *)
Fixpoint for_of {A} (xs : list A) (body : A -> M unit) : M unit :=
  match xs with
  | [] => ret tt
  | x :: rest => body x ;; for_of rest body
  end.

(** [await Promise.all([a, b])] of two async operations: both are
    started, in this order, whatever becomes of the other one, and the
    exchanges they make are traced in the order they were started; the
    first rejection, if any, is what the [await] throws. *)
Definition Promise_all2 (a b : M unit) : M unit :=
  fun s =>
    let (ra, s1) := a s in
    let (rb, s2) := b s1 in
    match ra, rb with
    | Threw e, _ => (Threw e, s2)
    | Returned _, Threw e => (Threw e, s2)
    | Returned _, Returned _ => (Returned tt, s2)
    end.


(* ================================================================== *)
(** * The program                                                     *)
(* ================================================================== *)

Module AxiosResponse.
Record t (D : Type) := mk { status : Z; data : D }.
Arguments mk {D}.
Arguments status {D}.
Arguments data {D}.
End AxiosResponse.

(** The [options] of [getRecentCacheEntry]. *)
Module Options.
Record t := mk {
  area : option string;
  region : option string;
  country : option string;
  timeline : option string;
  buttonClickCount : option string
}.
End Options.

Section Program.

Variable env : Env.t.

Let config : Config.t := Env.config env.

(** ** Primitives *)

Definition exchanges (s : State.t) : nat := List.length (State.trace s).

Definition Date_now : M Z :=
  fun s => (Returned (Env.clock env (exchanges s)), s).

Definition Error_stack : M string :=
  fun s => (Returned (Env.stack env (exchanges s)), s).

Definition traced (e : Event) (s : State.t) : State.t :=
  State.mk (State.results s) (State.trace s ++ [e]) (State.logged s).

(** [this.results.push(r)] *)
Definition results_push (r : TestResult.t) : M unit :=
  fun s =>
    (Returned tt,
     State.mk (State.results s ++ [r]) (State.trace s) (State.logged s)).

(** [logger.info('Test Report:', report)] *)
Definition logger_info_report (report : Report.t) : M unit :=
  fun s =>
    (Returned tt,
     State.mk (State.results s) (State.trace s) (State.logged s ++ [report])).

(** ** axios

    The library's part of a request: with the default [validateStatus] a
    reply resolves the promise when its status is in 200..299, and rejects
    it with an [AxiosError] that carries the reply otherwise; a transport
    failure rejects with an [AxiosError] without reply. *)
Definition validateStatus (status : Z) : bool :=
  (200 <=? status) && (status <? 300).

Definition settle {D} (data_error : D -> option string) (stack : string)
    (x : Exchange D) : Completion (AxiosResponse.t D) :=
  match x with
  | Replied status body =>
      if validateStatus status then Returned (AxiosResponse.mk status body)
      else Threw (ThrownAxios (AxiosError.mk
             ("Request failed with status code " ++ JS.string_of_Z status)
             stack
             (Some (AxiosError.mkResponse status (data_error body)))))
  | NoReply message => Threw (ThrownAxios (AxiosError.mk message stack None))
  | Broken error => Threw error
  end.

(** [this.client.get(url, { timeout })] *)
Definition client_get (url : string) (timeout : Z)
  : M (AxiosResponse.t unit) :=
  fun s =>
    (settle (fun _ => None) (Env.stack env (exchanges s))
       (Env.get env (exchanges s) url timeout),
     traced (HttpGet url timeout) s).

(** [this.client.post<SearchResponse>(url, request)] *)
Definition client_post (url : string) (request : SearchRequest.t)
  : M (AxiosResponse.t SearchResponse.t) :=
  fun s =>
    (settle SearchResponse.error (Env.stack env (exchanges s))
       (Env.post env (exchanges s) url request),
     traced (HttpPost url request) s).

(** [axios.post(webhookUrl, body)] of the notification service *)
Definition axios_post_webhook (url : string) (body : WebhookBody) : M unit :=
  fun s =>
    (if Env.webhook env (exchanges s) url body then Returned tt
     else Threw (ThrownAxios (AxiosError.mk "Request failed"
                                (Env.stack env (exchanges s)) None)),
     traced (WebhookPost url body) s).

(** ** class PulseAPIService *)

Definition searchWithStrategy (strategy : string) (request : SearchRequest.t)
  : M SearchResponse.t :=
  try_catch
    (startTime <- Date_now ;;
     response <- client_post ("/api/search/" ++ strategy) request ;;
     ret (AxiosResponse.data response))
    (fun error =>
       if Caught.isAxiosError error then
         stamp <- Date_now ;;
         t1 <- Date_now ;;
         t2 <- Date_now ;;
         ret {| SearchResponse.success := false;
                SearchResponse.data := [];
                SearchResponse.source := strategy;
                SearchResponse.strategy := strategy;
                SearchResponse.originalStrategy := None;
                SearchResponse.fallbackUsed := None;
                SearchResponse.fallbackChain := None;
                SearchResponse.timing := Some (Timing.mk None None (t1 - t2));
                SearchResponse.meta := None;
                SearchResponse.timestamp := JS.toISOString stamp;
                SearchResponse.error :=
                  JS.or (Caught.response_data_error error)
                        (Caught.message error) |}
       else throw error).

Definition testRagVector (request : SearchRequest.t) : M SearchResponse.t :=
  searchWithStrategy "rag_vector" request.

Definition testQueryCache (request : SearchRequest.t) : M SearchResponse.t :=
  searchWithStrategy "query_cache" request.

Definition testRagCache (request : SearchRequest.t) : M SearchResponse.t :=
  searchWithStrategy "rag_cache" request.

Definition testRagHybrid (request : SearchRequest.t) : M SearchResponse.t :=
  searchWithStrategy "rag_hybrid" request.

Definition testWebSearchLLM (request : SearchRequest.t) : M SearchResponse.t :=
  searchWithStrategy "web_search_llm" request.

Definition testCombined (request : SearchRequest.t) : M SearchResponse.t :=
  searchWithStrategy "combined" request.

Definition healthCheck : M bool :=
  try_catch
    (response <- client_get "/health" 5000 ;;
     ret (AxiosResponse.status response =? 200))
    (fun error => ret false).

(** ** class SupabaseService *)

Definition client_select (q : SupabaseQuery.t)
  : M (option (list QueryCacheEntry.t) * option Thrown) :=
  fun s =>
    (match Env.select env (exchanges s) q with
     | SupabaseResult data error => Returned (data, error)
     | SupabaseThrows e => Threw e
     end,
     traced (Select q) s).

(** [if (options?.f) query = query.eq(column, options.f)] *)
Definition eq_filter (column : string) (options : option Options.t)
    (f : Options.t -> option string) : list (string * string) :=
  match options with
  | Some o =>
      match f o with
      | Some v => if JS.truthy (Some v) then [(column, v)] else []
      | None => []
      end
  | None => []
  end.

Definition getRecentCacheEntry (options : option Options.t)
  : M (option QueryCacheEntry.t) :=
  try_catch
    (now <- Date_now ;;
     answer <- client_select
       {| SupabaseQuery.from := "query_cache";
          SupabaseQuery.ilike_prompt := None;
          SupabaseQuery.gte_expire_at := JS.toISOString now;
          SupabaseQuery.eq :=
            eq_filter "area" options Options.area
            ++ eq_filter "region" options Options.region
            ++ eq_filter "country" options Options.country
            ++ eq_filter "timeline" options Options.timeline
            ++ eq_filter "button_click_count" options
                 Options.buttonClickCount;
          SupabaseQuery.order_descending := "created_at";
          SupabaseQuery.limit := 1 |} ;;
     match answer with
     | (_, Some error) => throw error
     | (None, None) => ret None
     | (Some [], None) => ret None
     | (Some (first :: _), None) => ret (Some first)
     end)
    (fun error => throw error).

Definition getCacheEntriesByPrompt (prompt : string) (limit : Z)
  : M (list QueryCacheEntry.t) :=
  try_catch
    (now <- Date_now ;;
     answer <- client_select
       {| SupabaseQuery.from := "query_cache";
          SupabaseQuery.ilike_prompt := Some ("%" ++ prompt ++ "%");
          SupabaseQuery.gte_expire_at := JS.toISOString now;
          SupabaseQuery.eq := [];
          SupabaseQuery.order_descending := "created_at";
          SupabaseQuery.limit := limit |} ;;
     match answer with
     | (_, Some error) => throw error
     | (Some data, None) => ret data
     | (None, None) => ret []
     end)
    (fun error => throw error).

(** ** class NotificationService *)

Definition Details_object := list (string * JsValue).

(** [Object.entries(details).map(([key, value]) => ({ title: key,
    value: JSON.stringify(value), short: true }))] *)
Definition slack_fields (details : Details_object) : list Slack.field :=
  map (fun entry => Slack.mkField (fst entry) (JSON_stringify (snd entry)) true)
      details.

(** The same for Discord, where [.substring(0, 1024)] is called on the
    JSON text: on [undefined] that is a [TypeError]. *)
Fixpoint discord_fields (details : Details_object) : M (list Discord.field) :=
  match details with
  | [] => ret []
  | (key, value) :: rest =>
      match JSON_stringify value with
      | Some text =>
          fields <- discord_fields rest ;;
          ret (Discord.mkField key text true :: fields)
      | None =>
          stack <- Error_stack ;;
          throw (ThrownError
                   "Cannot read properties of undefined (reading 'substring')"
                   stack)
      end
  end.

Definition sendSlackNotification (message : string)
    (details : option Details_object) : M unit :=
  if negb (Config.ENABLE_SLACK_NOTIFICATIONS config)
     || negb (JS.truthy (Config.SLACK_WEBHOOK_URL config))
  then ret tt
  else
    try_catch
      (axios_post_webhook (JS.or_default (Config.SLACK_WEBHOOK_URL config) "")
         (SlackBody
            {| Slack.text := message;
               Slack.attachments := option_map slack_fields details |}))
      (fun error => ret tt).

Definition sendDiscordNotification (message : string)
    (details : option Details_object) : M unit :=
  if negb (Config.ENABLE_DISCORD_NOTIFICATIONS config)
     || negb (JS.truthy (Config.DISCORD_WEBHOOK_URL config))
  then ret tt
  else
    try_catch
      (embeds <- match details with
                 | Some d => fields <- discord_fields d ;; ret (Some fields)
                 | None => ret None
                 end ;;
       axios_post_webhook (JS.or_default (Config.DISCORD_WEBHOOK_URL config) "")
         (DiscordBody
            {| Discord.content := message; Discord.embeds := embeds |}))
      (fun error => ret tt).

Definition failure_alert_message (report : Report.t) : string :=
  "🚨 Pulse Smoke Tests Failed!" ++ JS.LF
  ++ "Failed: " ++ JS.string_of_Z (Report.failedTests report) ++ "/"
  ++ JS.string_of_Z (Report.totalTests report) ++ " tests" ++ JS.LF
  ++ "Success Rate: " ++ Report.successRate report ++ JS.LF
  ++ "Duration: " ++ Report.totalDuration report.

Definition sendTestFailureAlert (report : Report.t) : M unit :=
  let message := failure_alert_message report in
  let details : Details_object :=
    [ ("timestamp", JsString (Report.timestamp report));
      ("failures",
       JsFailures
         (map (fun f =>
                 {| Failure.test := TestResult.testName f;
                    Failure.error := TestResult.error f;
                    Failure.duration :=
                      JS.string_of_Z (TestResult.duration f) ++ "ms" |})
              (Report.failures report))) ] in
  Promise_all2
    (sendSlackNotification message (Some details))
    (sendDiscordNotification message (Some details)).

Definition sendCriticalAlert (message : string) (error : Thrown) : M unit :=
  let alertMessage := "🔥 CRITICAL: " ++ message in
  now <- Date_now ;;
  let details : Details_object :=
    [ ("error",
       JsString (JS.or_default (Caught.message error) "Unknown error"));
      ("stack", match Caught.stack error with
                | Some s => JsString s
                | None => JsUndefined
                end);
      ("timestamp", JsString (JS.toISOString now)) ] in
  Promise_all2
    (sendSlackNotification alertMessage (Some details))
    (sendDiscordNotification alertMessage (Some details)).

(** ** class SmokeTestRunner

    Each probe reads the clock, runs its [try] block and, should that
    block throw, records the failure in its [catch] block.  The [try]
    blocks are named apart ([..._try]); they take the [startTime] their
    probe has read. *)

Definition testAPIHealth_try (startTime : Z) : M unit :=
  isHealthy <- healthCheck ;;
  now <- Date_now ;;
  results_push
    {| TestResult.testName := "API Health Check";
       TestResult.success := isHealthy;
       TestResult.duration := now - startTime;
       TestResult.error :=
         if isHealthy then None else Some "API is not healthy";
       TestResult.details := None |}.

Definition testAPIHealth : M unit :=
  startTime <- Date_now ;;
  try_catch
    (testAPIHealth_try startTime)
    (fun error =>
       now <- Date_now ;;
       results_push
         {| TestResult.testName := "API Health Check";
            TestResult.success := false;
            TestResult.duration := now - startTime;
            TestResult.error := Some (Caught.message_or_unknown error);
            TestResult.details := None |}).

Definition testSupabaseConnection_try (startTime : Z) : M unit :=
  entry <- getRecentCacheEntry None ;;
  now <- Date_now ;;
  results_push
    {| TestResult.testName := "Supabase Connection";
       TestResult.success :=
         match entry with Some _ => true | None => false end;
       TestResult.duration := now - startTime;
       TestResult.error := None;
       TestResult.details :=
         Some match entry with
              | Some e => DetailsEntry (QueryCacheEntry.id e)
                            (QueryCacheEntry.prompt e)
              | None => DetailsNull
              end |}.

Definition testSupabaseConnection : M unit :=
  startTime <- Date_now ;;
  try_catch
    (testSupabaseConnection_try startTime)
    (fun error =>
       now <- Date_now ;;
       results_push
         {| TestResult.testName := "Supabase Connection";
            TestResult.success := false;
            TestResult.duration := now - startTime;
            TestResult.error := Some (Caught.message_or_unknown error);
            TestResult.details := None |}).

(** [entry.response?.data?.length > 0 &&
     new Date(entry.expire_at) > new Date()] *)
Definition valid_entry (now : Z) (entry : QueryCacheEntry.t) : bool :=
  match QueryCacheEntry.response entry with
  | Some r =>
      match QueryCacheEntry.data r with
      | Some d => 0 <? Z.of_nat (List.length d)
      | None => false
      end
  | None => false
  end
  && match QueryCacheEntry.expire_at entry with
     | Some t => now <? t
     | None => false
     end.

(** The request built from the entry found. *)
Definition testQueryCacheStrategy_request (validEntry : QueryCacheEntry.t)
  : SearchRequest.t :=
  {| SearchRequest.query := QueryCacheEntry.prompt validEntry;
     SearchRequest.area := Some (QueryCacheEntry.area validEntry);
     SearchRequest.region :=
       JS.or_undefined (QueryCacheEntry.region validEntry);
     SearchRequest.country :=
       JS.or_undefined (QueryCacheEntry.country validEntry);
     SearchRequest.timeline :=
       JS.or_undefined (QueryCacheEntry.timeline validEntry);
     SearchRequest.category := None;
     SearchRequest.enableFallbacks := Some false;
     SearchRequest.maxFallbacks := None;
     SearchRequest.deviceId := None;
     SearchRequest.buttonClickCount :=
       JS.or_undefined (QueryCacheEntry.button_click_count validEntry) |}.

Definition testQueryCacheStrategy_try (startTime : Z) : M unit :=
  cacheEntries <- getCacheEntriesByPrompt "" 5 ;;
  today <- Date_now ;;
  match List.find (valid_entry today) cacheEntries with
  | None =>
      now <- Date_now ;;
      results_push
        {| TestResult.testName := "Query Cache Strategy";
           TestResult.success := false;
           TestResult.duration := now - startTime;
           TestResult.error :=
             Some "No valid cache entries found for testing";
           TestResult.details := None |}
  | Some validEntry =>
      let request := testQueryCacheStrategy_request validEntry in
      response <- testQueryCache request ;;
      now <- Date_now ;;
      results_push
        {| TestResult.testName := "Query Cache Strategy";
           TestResult.success := SearchResponse.success response;
           TestResult.duration := now - startTime;
           TestResult.error := SearchResponse.error response;
           TestResult.details :=
             Some (DetailsQueryCache
                     (Z.of_nat (List.length (SearchResponse.data response)))
                     (SearchResponse.timing response)
                     (SearchResponse.source response)
                     match SearchResponse.meta response with
                     | Some m => Meta.cache_hit m
                     | None => None
                     end
                     (QueryCacheEntry.prompt validEntry)) |}
  end.

Definition testQueryCacheStrategy : M unit :=
  startTime <- Date_now ;;
  try_catch
    (testQueryCacheStrategy_try startTime)
    (fun error =>
       now <- Date_now ;;
       results_push
         {| TestResult.testName := "Query Cache Strategy";
            TestResult.success := false;
            TestResult.duration := now - startTime;
            TestResult.error := Some (Caught.message_or_unknown error);
            TestResult.details := None |}).

(** The request built from the entry found, or from the defaults. *)
Definition testRagVectorStrategy_request
    (cacheEntry : option QueryCacheEntry.t) : SearchRequest.t :=
  let field {A} (f : QueryCacheEntry.t -> option A) : option A :=
    match cacheEntry with Some e => f e | None => None end in
  {| SearchRequest.query :=
       JS.or_default (field (fun e => Some (QueryCacheEntry.prompt e)))
         "pizza deals today";
     SearchRequest.area :=
       Some (JS.or_default (field (fun e => Some (QueryCacheEntry.area e)))
               (Config.TEST_AREA config));
     SearchRequest.region :=
       Some (JS.or_default (field QueryCacheEntry.region)
               (Config.TEST_REGION config));
     SearchRequest.country :=
       Some (JS.or_default (field QueryCacheEntry.country)
               (Config.TEST_COUNTRY config));
     SearchRequest.timeline :=
       Some (JS.or_default (field QueryCacheEntry.timeline)
               (Config.TEST_TIMELINE config));
     SearchRequest.category := None;
     SearchRequest.enableFallbacks := Some false;
     SearchRequest.maxFallbacks := None;
     SearchRequest.deviceId := None;
     SearchRequest.buttonClickCount :=
       JS.or_undefined (field QueryCacheEntry.button_click_count) |}.

Definition testRagVectorStrategy_options : Options.t :=
  {| Options.area := Some (Config.TEST_AREA config);
     Options.region := Some (Config.TEST_REGION config);
     Options.country := None;
     Options.timeline := None;
     Options.buttonClickCount := None |}.

Definition testRagVectorStrategy_try (startTime : Z) : M unit :=
  cacheEntry <- getRecentCacheEntry (Some testRagVectorStrategy_options) ;;
  let request := testRagVectorStrategy_request cacheEntry in
  response <- testRagVector request ;;
  now <- Date_now ;;
  results_push
    {| TestResult.testName := "RAG Vector Strategy";
       TestResult.success := SearchResponse.success response;
       TestResult.duration := now - startTime;
       TestResult.error :=
         JS.or (SearchResponse.error response)
               (if Z.of_nat (List.length (SearchResponse.data response)) =? 0
                then Some "No data returned" else None);
       TestResult.details :=
         Some (DetailsRagVector
                 (Z.of_nat (List.length (SearchResponse.data response)))
                 (SearchResponse.timing response)
                 (SearchResponse.source response)) |}.

Definition testRagVectorStrategy : M unit :=
  startTime <- Date_now ;;
  try_catch
    (testRagVectorStrategy_try startTime)
    (fun error =>
       now <- Date_now ;;
       results_push
         {| TestResult.testName := "RAG Vector Strategy";
            TestResult.success := false;
            TestResult.duration := now - startTime;
            TestResult.error := Some (Caught.message_or_unknown error);
            TestResult.details := None |}).

(** [(pulseAPIService as any)[method]]: the property looked up by name;
    calling what is not there is a [TypeError]. *)
Definition pulseAPIService_method (method : string)
  : option (SearchRequest.t -> M SearchResponse.t) :=
  if (method =? "testRagVector")%string then Some testRagVector
  else if (method =? "testQueryCache")%string then Some testQueryCache
  else if (method =? "testRagCache")%string then Some testRagCache
  else if (method =? "testRagHybrid")%string then Some testRagHybrid
  else if (method =? "testWebSearchLLM")%string then Some testWebSearchLLM
  else if (method =? "testCombined")%string then Some testCombined
  else None.

Definition pulseAPIService_call (method : string) (request : SearchRequest.t)
  : M SearchResponse.t :=
  match pulseAPIService_method method with
  | Some f => f request
  | None =>
      stack <- Error_stack ;;
      throw (ThrownError "pulseAPIService[strategy.method] is not a function"
               stack)
  end.

(** [{ name, method }] *)
Definition strategies : list (string * string) :=
  [ ("Query Cache", "testQueryCache");
    ("RAG Cache", "testRagCache");
    ("RAG Hybrid", "testRagHybrid");
    ("Web Search LLM", "testWebSearchLLM") ].

Definition testAllStrategies_request : SearchRequest.t :=
  {| SearchRequest.query := "restaurants near me";
     SearchRequest.area := Some (Config.TEST_AREA config);
     SearchRequest.region := Some (Config.TEST_REGION config);
     SearchRequest.country := None;
     SearchRequest.timeline := None;
     SearchRequest.category := None;
     SearchRequest.enableFallbacks := Some false;
     SearchRequest.maxFallbacks := None;
     SearchRequest.deviceId := None;
     SearchRequest.buttonClickCount := None |}.

Definition testAllStrategies_try (strategy : string * string)
    (startTime : Z) : M unit :=
  response <- pulseAPIService_call (snd strategy) testAllStrategies_request ;;
  now <- Date_now ;;
  results_push
    {| TestResult.testName := fst strategy ++ " Strategy";
       TestResult.success := SearchResponse.success response;
       TestResult.duration := now - startTime;
       TestResult.error := SearchResponse.error response;
       TestResult.details :=
         Some (DetailsStrategy
                 (Z.of_nat (List.length (SearchResponse.data response)))
                 (SearchResponse.timing response)) |}.

(** The body of the loop of [testAllStrategies]. *)
Definition testAllStrategies_of (strategy : string * string) : M unit :=
  startTime <- Date_now ;;
  try_catch
    (testAllStrategies_try strategy startTime)
    (fun error =>
       now <- Date_now ;;
       results_push
         {| TestResult.testName := fst strategy ++ " Strategy";
            TestResult.success := false;
            TestResult.duration := now - startTime;
            TestResult.error := Some (Caught.message_or_unknown error);
            TestResult.details := None |}).

Definition testAllStrategies : M unit :=
  for_of strategies testAllStrategies_of.

(** [{ strategy, expectedMs }] *)
Definition performanceTests : list (string * Z) :=
  [ ("query_cache", 500); ("rag_cache", 1000); ("rag_vector", 3000) ].

Definition testPerformance_request : SearchRequest.t :=
  {| SearchRequest.query := "test performance";
     SearchRequest.area := Some (Config.TEST_AREA config);
     SearchRequest.region := None;
     SearchRequest.country := None;
     SearchRequest.timeline := None;
     SearchRequest.category := None;
     SearchRequest.enableFallbacks := Some false;
     SearchRequest.maxFallbacks := None;
     SearchRequest.deviceId := None;
     SearchRequest.buttonClickCount := None |}.

Definition testPerformance_try (test : string * Z) (startTime : Z) : M unit :=
  let strategy := fst test in
  let expectedMs := snd test in
  response <- searchWithStrategy strategy testPerformance_request ;;
  now <- Date_now ;;
  let duration := now - startTime in
  let withinExpected := duration <=? expectedMs in
  results_push
    {| TestResult.testName := strategy ++ " Performance";
       TestResult.success :=
         SearchResponse.success response && withinExpected;
       TestResult.duration := duration;
       TestResult.error :=
         if withinExpected then None
         else Some ("Exceeded expected time: " ++ JS.string_of_Z duration
                    ++ "ms > " ++ JS.string_of_Z expectedMs ++ "ms");
       TestResult.details :=
         Some (DetailsPerformance expectedMs duration withinExpected) |}.

(** The body of the loop of [testPerformance]. *)
Definition testPerformance_of (test : string * Z) : M unit :=
  startTime <- Date_now ;;
  try_catch
    (testPerformance_try test startTime)
    (fun error =>
       now <- Date_now ;;
       results_push
         {| TestResult.testName := fst test ++ " Performance";
            TestResult.success := false;
            TestResult.duration := now - startTime;
            TestResult.error := Some (Caught.message_or_unknown error);
            TestResult.details := None |}).

Definition testPerformance : M unit :=
  for_of performanceTests testPerformance_of.

(** [generateReport], as a function of what it reads: the clock and
    [this.results]. *)
Definition successRate_number (passedTests totalTests : Z) : float :=
  (JS.number passedTests / JS.number totalTests * JS.number 100)%float.

Definition generateReport (now : Z) (results : list TestResult.t) : Report.t :=
  let totalTests := Z.of_nat (List.length results) in
  let passedTests :=
    Z.of_nat (List.length (List.filter TestResult.success results)) in
  let failedTests := totalTests - passedTests in
  let hasFailures := 0 <? failedTests in
  let totalDuration :=
    List.fold_left (fun sum r => sum + TestResult.duration r) results 0 in
  {| Report.timestamp := JS.toISOString now;
     Report.totalTests := totalTests;
     Report.passedTests := passedTests;
     Report.failedTests := failedTests;
     Report.hasFailures := hasFailures;
     Report.successRate :=
       JS.toFixed2 (successRate_number passedTests totalTests) ++ "%";
     Report.totalDuration := JS.string_of_Z totalDuration ++ "ms";
     Report.results := results;
     Report.failures :=
       List.filter (fun r => negb (TestResult.success r)) results |}.

(** [this.generateReport()] *)
Definition this_generateReport : M Report.t :=
  fun s =>
    (Returned (generateReport (Env.clock env (exchanges s)) (State.results s)),
     s).

(** What follows the probes inside the [try] of [runAllTests]. *)
Definition report_and_notify : M unit :=
  report <- this_generateReport ;;
  logger_info_report report ;;
  if Report.hasFailures report then sendTestFailureAlert report else ret tt.

Definition runAllTests_catch (error : Thrown) : M unit :=
  sendCriticalAlert "Smoke tests failed to complete" error.

Definition runAllTests : M unit :=
  try_catch
    (testAPIHealth ;;
     testSupabaseConnection ;;
     testQueryCacheStrategy ;;
     testRagVectorStrategy ;;
     testAllStrategies ;;
     testPerformance ;;
     report_and_notify)
    runAllTests_catch.

(** The same orchestration around any sequence of steps: the shape of
    [runAllTests] with the six probe calls left open, so that the [catch]
    of the orchestrator can be looked at under a step that throws. *)
Definition runAllTestsWith (steps : list (M unit)) : M unit :=
  try_catch
    (for_of steps (fun step => step) ;;
     report_and_notify)
    runAllTests_catch.

Definition probes : list (M unit) :=
  [ testAPIHealth; testSupabaseConnection; testQueryCacheStrategy;
    testRagVectorStrategy; testAllStrategies; testPerformance ].

(** ** The entry block

    [runner.runAllTests().then(() => process.exit(0))
                         .catch(() => process.exit(1))] *)
Definition entry (run : M unit) (s : State.t) : Z * State.t :=
  match run s with
  | (Returned _, s') => (0, s')
  | (Threw _, s') => (1, s')
  end.

Definition main : Z * State.t := entry runAllTests State.initial.

(** How a run of the orchestrator ended: the [try] block ran through,
    or it threw and the [catch] block took over, or the [catch] block
    threw in its turn. *)
Inductive RunState := Completed | Aborted | Escaped.

Definition run_state (steps : list (M unit)) (s : State.t) : RunState :=
  match (for_of steps (fun step => step) ;; report_and_notify) s with
  | (Returned _, _) => Completed
  | (Threw e, s') =>
      match runAllTests_catch e s' with
      | (Returned _, _) => Aborted
      | (Threw _, _) => Escaped
      end
  end.

End Program.

(* ================================================================== *)
(** * Module load                                                     *)
(* ================================================================== *)

(** Before the entry block runs, the modules the runner imports are
    evaluated, [services/supabase.ts] first: it imports
    [config/index.ts], which parses the environment, and then constructs
    its client.  Nothing catches what is thrown there: the engine reports
    the error and ends the process with exit code 1.  The module of the
    logger is taken to load, as the calls of the logger are taken to
    return. *)

(** What [envSchema.parse] returns. *)
Module ParsedEnv.
Record t := mk {
  SUPABASE_URL : string;
  SUPABASE_ANON_KEY : string;
  SUPABASE_SERVICE_ROLE_KEY : string;
  PULSE_API_BASE_URL : string;
  TEST_AREA : string;
  TEST_REGION : string;
  TEST_COUNTRY : string;
  TEST_TIMELINE : string;
  SLACK_WEBHOOK_URL : option string;
  DISCORD_WEBHOOK_URL : option string;
  API_TIMEOUT : float;
  CACHE_LOOKUP_TIMEOUT : float;
  ENABLE_SLACK_NOTIFICATIONS : bool;
  ENABLE_DISCORD_NOTIFICATIONS : bool;
  ENABLE_AUTO_HEALING : bool;
  LOG_LEVEL : string
}.
End ParsedEnv.

(** What a process is started with, and what the engine and the
    libraries decide while its modules load. *)
Module Process.
Record t := mk {
  (** [process.env] once [dotenv.config()] has run *)
  env : string -> option string;
  (** whether [new URL(text)] returns, which is the check of
      [z.string().url()] *)
  URL_parses : string -> bool;
  (** [Number(text)] *)
  Number : string -> float;
  (** what [createClient(url, key)] throws, if it throws *)
  createClient : string -> string -> option Thrown;
  (** the stack text of an [Error] created while the modules load *)
  stack : string;
  (** the world the run meets; its [config] is not read, the
      configuration of a process being what [parseEnv] returns *)
  world : Env.t
}.
End Process.

(** The schemas of zod the configuration is written with.  A schema
    takes the value of a variable, [None] for [undefined], to the parsed
    value, and to [None] when it raises an issue. *)
Module Zod.

Definition Schema (A : Type) : Type := option string -> option A.

(** [z.string()]: a variable of the environment that is set is a
    string. *)
Definition z_string : Schema string := fun value => value.

(** [.url()] *)
Definition url (URL_parses : string -> bool) (schema : Schema string)
  : Schema string :=
  fun value =>
    match schema value with
    | Some text => if URL_parses text then Some text else None
    | None => None
    end.

(** [.min(n)], on the length of the text; the schema uses it with 1,
    for a text that is not empty. *)
Definition min (n : nat) (schema : Schema string) : Schema string :=
  fun value =>
    match schema value with
    | Some text => if (n <=? String.length text)%nat then Some text else None
    | None => None
    end.

(** [.optional()] *)
Definition optional {A} (schema : Schema A) : Schema (option A) :=
  fun value =>
    match value with
    | None => Some None
    | Some _ => option_map Some (schema value)
    end.

(** [.default(text)] *)
Definition default {A} (text : string) (schema : Schema A) : Schema A :=
  fun value =>
    match value with
    | None => schema (Some text)
    | Some _ => schema value
    end.

(** [.transform(f)] *)
Definition transform {A B} (f : A -> B) (schema : Schema A) : Schema B :=
  fun value => option_map f (schema value).

(** [z.enum(values)] *)
Definition enum (values : list string) : Schema string :=
  fun value =>
    match value with
    | Some text =>
        if existsb (String.eqb text) values then Some text else None
    | None => None
    end.

(** One more key of a [z.object]: every key is parsed, and the object is
    returned when no key raised an issue. *)
Definition key {A B} (object : option (A -> B)) (parsed : option A)
  : option B :=
  match object, parsed with
  | Some f, Some a => Some (f a)
  | _, _ => None
  end.

End Zod.

Declare Scope zod_scope.
Delimit Scope zod_scope with zod.
Notation "object <&> parsed" := (Zod.key object parsed)
  (at level 50, left associativity) : zod_scope.

(** [envSchema.parse(process.env)], [None] when it throws its
    [ZodError]. *)
Definition envSchema_parse (p : Process.t) : option ParsedEnv.t :=
  let env := Process.env p in
  let url := Zod.url (Process.URL_parses p) in
  let flag := Zod.transform (fun v => (v =? "true")%string) Zod.z_string in
  (Some ParsedEnv.mk
   <&> url Zod.z_string (env "SUPABASE_URL")
   <&> Zod.min 1 Zod.z_string (env "SUPABASE_ANON_KEY")
   <&> Zod.min 1 Zod.z_string (env "SUPABASE_SERVICE_ROLE_KEY")
   <&> url Zod.z_string (env "PULSE_API_BASE_URL")
   <&> Zod.default "tampa-bay" Zod.z_string (env "TEST_AREA")
   <&> Zod.default "FL" Zod.z_string (env "TEST_REGION")
   <&> Zod.default "US" Zod.z_string (env "TEST_COUNTRY")
   <&> Zod.default "today" Zod.z_string (env "TEST_TIMELINE")
   <&> Zod.optional (url Zod.z_string) (env "SLACK_WEBHOOK_URL")
   <&> Zod.optional (url Zod.z_string) (env "DISCORD_WEBHOOK_URL")
   <&> Zod.default "30000" (Zod.transform (Process.Number p) Zod.z_string)
         (env "API_TIMEOUT")
   <&> Zod.default "5000" (Zod.transform (Process.Number p) Zod.z_string)
         (env "CACHE_LOOKUP_TIMEOUT")
   <&> Zod.default "false" flag (env "ENABLE_SLACK_NOTIFICATIONS")
   <&> Zod.default "false" flag (env "ENABLE_DISCORD_NOTIFICATIONS")
   <&> Zod.default "false" flag (env "ENABLE_AUTO_HEALING")
   <&> Zod.default "info" (Zod.enum ["error"; "warn"; "info"; "debug"])
         (env "LOG_LEVEL"))%zod.

(** [parseEnv]: whatever [envSchema.parse] throws is caught, reported
    on the console and replaced by an [Error] of one fixed message. *)
Definition parseEnv (p : Process.t) : Completion ParsedEnv.t :=
  match envSchema_parse p with
  | Some config => Returned config
  | None =>
      Threw (ThrownError "Failed to parse environment variables"
               (Process.stack p))
  end.

(** The constructor of [SupabaseService]. *)
Definition SupabaseService_constructor
    (p : Process.t) (config : ParsedEnv.t) : Completion unit :=
  match Process.createClient p (ParsedEnv.SUPABASE_URL config)
          (ParsedEnv.SUPABASE_SERVICE_ROLE_KEY config) with
  | Some error => Threw error
  | None => Returned tt
  end.

(** The modules load: [export const config = parseEnv()], then
    [export const supabaseService = new SupabaseService()].  The other
    modules construct their objects without a call that can fail. *)
Definition load (p : Process.t) : Completion ParsedEnv.t :=
  match parseEnv p with
  | Returned config =>
      match SupabaseService_constructor p config with
      | Returned _ => Returned config
      | Threw error => Threw error
      end
  | Threw error => Threw error
  end.

(** What the methods embedded above read of [config]. *)
Definition config_read (config : ParsedEnv.t) : Config.t :=
  {| Config.TEST_AREA := ParsedEnv.TEST_AREA config;
     Config.TEST_REGION := ParsedEnv.TEST_REGION config;
     Config.TEST_COUNTRY := ParsedEnv.TEST_COUNTRY config;
     Config.TEST_TIMELINE := ParsedEnv.TEST_TIMELINE config;
     Config.SLACK_WEBHOOK_URL := ParsedEnv.SLACK_WEBHOOK_URL config;
     Config.DISCORD_WEBHOOK_URL := ParsedEnv.DISCORD_WEBHOOK_URL config;
     Config.ENABLE_SLACK_NOTIFICATIONS :=
       ParsedEnv.ENABLE_SLACK_NOTIFICATIONS config;
     Config.ENABLE_DISCORD_NOTIFICATIONS :=
       ParsedEnv.ENABLE_DISCORD_NOTIFICATIONS config |}.

Definition with_config (config : Config.t) (world : Env.t) : Env.t :=
  {| Env.config := config;
     Env.clock := Env.clock world;
     Env.stack := Env.stack world;
     Env.get := Env.get world;
     Env.post := Env.post world;
     Env.select := Env.select world;
     Env.webhook := Env.webhook world |}.

(** The world of a process whose modules have loaded. *)
Definition world_of (p : Process.t) (config : ParsedEnv.t) : Env.t :=
  with_config (config_read config) (Process.world p).

(** The process started on [smoke-tests/index.ts], as [npm run smoke]
    starts it: the modules load, then the entry block runs.  An
    exception thrown while the modules load ends the process with exit
    code 1 before a runner exists. *)
Definition smoke (p : Process.t) : Z * State.t :=
  match load p with
  | Returned config => main (world_of p config)
  | Threw _ => (1, State.initial)
  end.

(* ================================================================== *)
(** * Vocabulary of the properties                                    *)
(* ================================================================== *)

(** ** Reading a computation *)

(** [m] leaves [this.results] and the log alone: it only talks to the
    outside world. *)
Definition silent {A} (m : M A) : Prop :=
  forall s,
    State.results (snd (m s)) = State.results s
    /\ State.logged (snd (m s)) = State.logged s.

(** [m] never throws. *)
Definition total {A} (m : M A) : Prop :=
  forall s, exists a, fst (m s) = Returned a.

(** The request failed on the wire: no reply at all, whatever message
    axios gives its error then, or a reply whose status is not in
    200..299. *)
Inductive failed_exchange {Body} : Exchange Body -> Prop :=
| failed_transport message : failed_exchange (NoReply message)
| failed_status status body :
    validateStatus status = false -> failed_exchange (Replied status body).

(** ** Alerts *)

(** The channels reached between two states of a run: the webhook posts
    among the exchanges made since [before], by the kind of their body. *)
Inductive Channel := SlackChannel | DiscordChannel.

Definition channel_of (e : Event) : list Channel :=
  match e with
  | WebhookPost _ (SlackBody _) => [SlackChannel]
  | WebhookPost _ (DiscordBody _) => [DiscordChannel]
  | _ => []
  end.

Definition alerted (before after : State.t) : list Channel :=
  flat_map channel_of
    (skipn (List.length (State.trace before)) (State.trace after)).

Definition slack_on (c : Config.t) : bool :=
  Config.ENABLE_SLACK_NOTIFICATIONS c && JS.truthy (Config.SLACK_WEBHOOK_URL c).

Definition discord_on (c : Config.t) : bool :=
  Config.ENABLE_DISCORD_NOTIFICATIONS c
  && JS.truthy (Config.DISCORD_WEBHOOK_URL c).

(** ** Failure boundaries *)

Section Boundaries.

Variable env : Env.t.

(** [Date.now()] in state [s]. *)
Definition clock (s : State.t) : Z := Env.clock env (exchanges s).

(** What the [catch] block of every probe records. *)
Definition failed (testName : string) (duration : Z) (error : Thrown)
  : TestResult.t :=
  {| TestResult.testName := testName;
     TestResult.success := false;
     TestResult.duration := duration;
     TestResult.error := Some (Caught.message_or_unknown error);
     TestResult.details := None |}.

(** The failure boundary every probe is written with. *)
Definition guarded (testName : string) (attempt : Z -> M unit) : M unit :=
  startTime <- Date_now env ;;
  try_catch
    (attempt startTime)
    (fun error =>
       now <- Date_now env ;;
       results_push (failed testName (now - startTime) error)).

(** A [try] block is well behaved when it pushes one result, of the given
    name, as its last act: if it throws, it has pushed nothing. *)
Definition pushes_last (testName : string) (attempt : M unit) : Prop :=
  forall s,
    match attempt s with
    | (Returned _, s') =>
        exists r,
          State.results s' = (State.results s ++ [r])%list
          /\ TestResult.testName r = testName
          /\ State.logged s' = State.logged s
    | (Threw _, s') =>
        State.results s' = State.results s
        /\ State.logged s' = State.logged s
    end.

(** The eleven checks of a run, in the order they are made: the name a
    check records its result under, and its [try] block. *)
Definition Boundary : Type := string * (Z -> M unit).

Definition boundaries : list Boundary :=
  ([ ("API Health Check", testAPIHealth_try env);
     ("Supabase Connection", testSupabaseConnection_try env);
     ("Query Cache Strategy", testQueryCacheStrategy_try env);
     ("RAG Vector Strategy", testRagVectorStrategy_try env) ]
   ++ map (fun strategy =>
             ((fst strategy ++ " Strategy")%string,
              testAllStrategies_try env strategy))
          strategies
   ++ map (fun test =>
             ((fst test ++ " Performance")%string,
              testPerformance_try env test))
          performanceTests)%list.

Definition check (b : Boundary) : M unit := guarded (fst b) (snd b).

(** The state in which the [i]-th check of a run starts. *)
Definition state_before (i : nat) (s : State.t) : State.t :=
  snd (for_of (firstn i boundaries) check s).

Definition well_behaved (b : Boundary) : Prop :=
  forall t, pushes_last (fst b) (snd b t).

End Boundaries.

(** ** Reports and exit codes *)

(** The success rates eleven checks can give. *)
Definition rates_of_a_run : list string :=
  [ "0.00%"; "9.09%"; "18.18%"; "27.27%"; "36.36%"; "45.45%"; "54.55%";
    "63.64%"; "72.73%"; "81.82%"; "90.91%"; "100.00%" ].

(** A report under another [timestamp]. *)
Definition restamped (timestamp : string) (report : Report.t) : Report.t :=
  {| Report.timestamp := timestamp;
     Report.totalTests := Report.totalTests report;
     Report.passedTests := Report.passedTests report;
     Report.failedTests := Report.failedTests report;
     Report.hasFailures := Report.hasFailures report;
     Report.successRate := Report.successRate report;
     Report.totalDuration := Report.totalDuration report;
     Report.results := Report.results report;
     Report.failures := Report.failures report |}.

(** ** What the design document states where the code does otherwise *)

(** A report over no results has the rate 0, printed as the code prints
    rates. *)
Definition zero_rate_as_stated (report : Report.t) : Prop :=
  Report.totalTests report = 0 ->
  Report.successRate report = JS.toFixed2 (JS.number 0) ++ "%".

(** The response to a request that failed on the wire carries an error
    text that is not empty. *)
Definition error_text_as_stated
    (env : Env.t) (strategy : string) (request : SearchRequest.t)
    (s : State.t) : Prop :=
  failed_exchange
    (Env.post env (exchanges s) ("/api/search/" ++ strategy) request) ->
  exists response msg,
    fst (searchWithStrategy env strategy request s) = Returned response
    /\ SearchResponse.error response = Some msg
    /\ msg <> "".

(** A critical alert reaches every channel that has a webhook, whatever
    the enable flags say. *)
Definition critical_alert_as_stated
    (env : Env.t) (message : string) (error : Thrown) (s : State.t) : Prop :=
  alerted s (snd (sendCriticalAlert env message error s))
  = ((if JS.truthy (Config.SLACK_WEBHOOK_URL (Env.config env))
      then [SlackChannel] else [])
     ++ (if JS.truthy (Config.DISCORD_WEBHOOK_URL (Env.config env))
         then [DiscordChannel] else []))%list.

(** Two calls of the aggregator on the same result list give the same
    report. *)
Definition idempotent_as_stated (env : Env.t) (s1 s2 : State.t) : Prop :=
  State.results s1 = State.results s2 ->
  fst (this_generateReport env s1) = fst (this_generateReport env s2).

(** A response that reports success and carries no data makes the
    recorded result a failure. *)
Definition empty_data_fails_as_stated
    (response : SearchResponse.t) (recorded : option TestResult.t) : Prop :=
  SearchResponse.success response = true ->
  SearchResponse.data response = [] ->
  option_map TestResult.success recorded = Some false.

(** ** Concrete worlds *)

Module Example.

(** The configuration of [.env.example]: both webhooks are set and both
    notification flags are off. *)
Definition config_flags_off : Config.t :=
  {| Config.TEST_AREA := "tampa-bay";
     Config.TEST_REGION := "FL";
     Config.TEST_COUNTRY := "US";
     Config.TEST_TIMELINE := "today";
     Config.SLACK_WEBHOOK_URL :=
       Some "https://hooks.slack.com/services/xxx/xxx/xxx";
     Config.DISCORD_WEBHOOK_URL :=
       Some "https://discord.com/api/webhooks/xxx/xxx";
     Config.ENABLE_SLACK_NOTIFICATIONS := false;
     Config.ENABLE_DISCORD_NOTIFICATIONS := false |}.

(** The same with both flags on. *)
Definition config_flags_on : Config.t :=
  {| Config.TEST_AREA := "tampa-bay";
     Config.TEST_REGION := "FL";
     Config.TEST_COUNTRY := "US";
     Config.TEST_TIMELINE := "today";
     Config.SLACK_WEBHOOK_URL :=
       Some "https://hooks.slack.com/services/xxx/xxx/xxx";
     Config.DISCORD_WEBHOOK_URL :=
       Some "https://discord.com/api/webhooks/xxx/xxx";
     Config.ENABLE_SLACK_NOTIFICATIONS := true;
     Config.ENABLE_DISCORD_NOTIFICATIONS := true |}.

(** 2023-11-14T22:13:20.000Z *)
Definition t0 : Z := 1700000000000.

Definition fixture : QueryCacheEntry.t :=
  {| QueryCacheEntry.id := "c1";
     QueryCacheEntry.prompt := "restaurants near me";
     QueryCacheEntry.area := "tampa-bay";
     QueryCacheEntry.region := Some "FL";
     QueryCacheEntry.country := Some "US";
     QueryCacheEntry.timeline := None;
     QueryCacheEntry.button_click_count := None;
     QueryCacheEntry.response :=
       Some (QueryCacheEntry.mkResponse (Some ["r1"]));
     QueryCacheEntry.model := "m";
     QueryCacheEntry.provider := "p";
     QueryCacheEntry.timestamp := "2023-11-14T21:13:20.000Z";
     QueryCacheEntry.created_at := "2023-11-14T21:13:20.000Z";
     QueryCacheEntry.expire_at := Some (t0 + 3600000) |}.

(** An entry that has expired, and one whose recorded result is empty. *)
Definition fixture_expired : QueryCacheEntry.t :=
  {| QueryCacheEntry.id := "c2";
     QueryCacheEntry.prompt := "pizza";
     QueryCacheEntry.area := "tampa-bay";
     QueryCacheEntry.region := Some "FL";
     QueryCacheEntry.country := Some "US";
     QueryCacheEntry.timeline := None;
     QueryCacheEntry.button_click_count := None;
     QueryCacheEntry.response :=
       Some (QueryCacheEntry.mkResponse (Some ["r1"]));
     QueryCacheEntry.model := "m";
     QueryCacheEntry.provider := "p";
     QueryCacheEntry.timestamp := "2023-11-13T21:13:20.000Z";
     QueryCacheEntry.created_at := "2023-11-13T21:13:20.000Z";
     QueryCacheEntry.expire_at := Some (t0 - 1) |}.

Definition fixture_empty : QueryCacheEntry.t :=
  {| QueryCacheEntry.id := "c3";
     QueryCacheEntry.prompt := "sushi";
     QueryCacheEntry.area := "tampa-bay";
     QueryCacheEntry.region := None;
     QueryCacheEntry.country := None;
     QueryCacheEntry.timeline := None;
     QueryCacheEntry.button_click_count := None;
     QueryCacheEntry.response := Some (QueryCacheEntry.mkResponse (Some []));
     QueryCacheEntry.model := "m";
     QueryCacheEntry.provider := "p";
     QueryCacheEntry.timestamp := "2023-11-14T21:13:20.000Z";
     QueryCacheEntry.created_at := "2023-11-14T21:13:20.000Z";
     QueryCacheEntry.expire_at := Some (t0 + 3600000) |}.

Definition found (data : list Item) : SearchResponse.t :=
  {| SearchResponse.success := true;
     SearchResponse.data := data;
     SearchResponse.source := "query_cache";
     SearchResponse.strategy := "query_cache";
     SearchResponse.originalStrategy := None;
     SearchResponse.fallbackUsed := None;
     SearchResponse.fallbackChain := None;
     SearchResponse.timing := Some (Timing.mk None None 42);
     SearchResponse.meta := None;
     SearchResponse.timestamp := "2023-11-14T22:13:20.000Z";
     SearchResponse.error := None |}.

(** A world in which everything answers well; each exchange takes
    [latency] milliseconds. *)
Definition healthy (config : Config.t) (latency : Z) : Env.t :=
  {| Env.config := config;
     Env.clock := fun n => t0 + latency * Z.of_nat n;
     Env.stack := fun _ => "Error: at runAllTests";
     Env.get := fun _ _ _ => Replied 200 tt;
     Env.post := fun _ _ _ => Replied 200 (found ["r1"]);
     Env.select := fun _ _ => SupabaseResult (Some [fixture]) None;
     Env.webhook := fun _ _ _ => true |}.

(** The same world, with the second exchange of the run, the select of
    the connectivity probe, failing inside the client. *)
Definition store_down : Env.t :=
  {| Env.config := config_flags_on;
     Env.clock := fun n => t0 + 40 * Z.of_nat n;
     Env.stack := fun _ => "Error: at runAllTests";
     Env.get := fun _ _ _ => Replied 200 tt;
     Env.post := fun _ _ _ => Replied 200 (found ["r1"]);
     Env.select := fun n _ =>
       if (n =? 1)%nat
       then SupabaseThrows
              (ThrownError "fetch failed" "TypeError: fetch failed")
       else SupabaseResult (Some [fixture]) None;
     Env.webhook := fun _ _ _ => true |}.

(** A world whose search API does not answer in time. *)
Definition api_timeout : Env.t :=
  {| Env.config := config_flags_on;
     Env.clock := fun n => t0 + 30000 * Z.of_nat n;
     Env.stack := fun _ => "Error: at runAllTests";
     Env.get := fun _ _ _ => NoReply "timeout of 5000ms exceeded";
     Env.post := fun _ _ _ => NoReply "timeout of 30000ms exceeded";
     Env.select := fun _ _ => SupabaseResult (Some [fixture]) None;
     Env.webhook := fun _ _ _ => true |}.

(** A world whose fixture store holds nothing usable. *)
Definition no_fixture : Env.t :=
  {| Env.config := config_flags_on;
     Env.clock := fun n => t0 + 40 * Z.of_nat n;
     Env.stack := fun _ => "Error: at runAllTests";
     Env.get := fun _ _ _ => Replied 200 tt;
     Env.post := fun _ _ _ => Replied 200 (found ["r1"]);
     Env.select := fun _ _ =>
       SupabaseResult (Some [fixture_expired; fixture_empty]) None;
     Env.webhook := fun _ _ _ => true |}.

(** A world whose vector strategy answers with success and no data. *)
Definition vector_empty : Env.t :=
  {| Env.config := config_flags_on;
     Env.clock := fun n => t0 + 40 * Z.of_nat n;
     Env.stack := fun _ => "Error: at runAllTests";
     Env.get := fun _ _ _ => Replied 200 tt;
     Env.post := fun _ url _ =>
       if (url =? "/api/search/rag_vector")%string
       then Replied 200 (found [])
       else Replied 200 (found ["r1"]);
     Env.select := fun _ _ => SupabaseResult (Some [fixture]) None;
     Env.webhook := fun _ _ _ => true |}.

(** What a run of the whole program shows: the exit code, the results by
    name, outcome and error, the logged reports in short, and the
    channels alerted. *)
Definition summary (env : Env.t)
  : Z * list (string * bool * option string)
    * list (Z * Z * Z * string * string) * list Channel :=
  let s' := snd (main env) in
  (fst (main env),
   map (fun r => (TestResult.testName r, TestResult.success r,
                  TestResult.error r))
       (State.results s'),
   map (fun r => (Report.totalTests r, Report.passedTests r,
                  Report.failedTests r, Report.successRate r,
                  Report.totalDuration r))
       (State.logged s'),
   alerted State.initial s').

(** A step that throws outside every probe boundary. *)
Definition fatal : M unit :=
  throw (ThrownError "Cannot construct request" "Error: at runAllTests").

End Example.

(** ** Vocabulary of the further properties *)

(** The response [searchWithStrategy] builds in its [catch]. *)
Definition normalized (strategy stamp : string) (error : option string)
  : SearchResponse.t :=
  {| SearchResponse.success := false;
     SearchResponse.data := [];
     SearchResponse.source := strategy;
     SearchResponse.strategy := strategy;
     SearchResponse.originalStrategy := None;
     SearchResponse.fallbackUsed := None;
     SearchResponse.fallbackChain := None;
     SearchResponse.timing := Some (Timing.mk None None 0);
     SearchResponse.meta := None;
     SearchResponse.timestamp := stamp;
     SearchResponse.error := error |}.


(** [m] makes exchanges, none of which is a post to a webhook. *)
Definition webhook_free {A} (m : M A) : Prop :=
  forall s,
  exists events,
    State.trace (snd (m s)) = (State.trace s ++ events)%list
    /\ flat_map channel_of events = [].


(** The clock of the world never goes back. *)
Definition monotone_clock (env : Env.t) : Prop :=
  forall n m, (n <= m)%nat -> Env.clock env n <= Env.clock env m.

(** A [try] block started at [start] is timed well when the result it
    pushes has a duration that is not negative, and when, throwing, it
    leaves the clock at [start] or later. *)
Definition timed (env : Env.t) (start : Z) (attempt : M unit) : Prop :=
  forall s,
    start <= clock env s ->
    match attempt s with
    | (Returned _, s') =>
        exists r,
          State.results s' = (State.results s ++ [r])%list
          /\ 0 <= TestResult.duration r
    | (Threw _, s') =>
        State.results s' = State.results s /\ start <= clock env s'
    end.

Definition not_negative (r : TestResult.t) : Prop :=
  0 <= TestResult.duration r.

(** The request of the vector probe when the store has no entry for it. *)
Definition vector_default_request (env : Env.t) : SearchRequest.t :=
  {| SearchRequest.query := "pizza deals today";
     SearchRequest.area := Some (Config.TEST_AREA (Env.config env));
     SearchRequest.region := Some (Config.TEST_REGION (Env.config env));
     SearchRequest.country := Some (Config.TEST_COUNTRY (Env.config env));
     SearchRequest.timeline := Some (Config.TEST_TIMELINE (Env.config env));
     SearchRequest.category := None;
     SearchRequest.enableFallbacks := Some false;
     SearchRequest.maxFallbacks := None;
     SearchRequest.deviceId := None;
     SearchRequest.buttonClickCount := None |}.

(** The names under which a run records its eleven results. *)
Definition run_names : list string :=
  [ "API Health Check"; "Supabase Connection"; "Query Cache Strategy";
    "RAG Vector Strategy"; "Query Cache Strategy"; "RAG Cache Strategy";
    "RAG Hybrid Strategy"; "Web Search LLM Strategy";
    "query_cache Performance"; "rag_cache Performance";
    "rag_vector Performance" ].

(** [value !== undefined] *)
Definition is_defined (value : JsValue) : bool :=
  match value with
  | JsUndefined => false
  | _ => true
  end.

(** The rounds of the strategy sweep: the name and the method of
    [strategies], with the strategy the method asks the facade for. *)
Definition sweep_rounds : list (string * string * string) :=
  [ ("Query Cache", "testQueryCache", "query_cache");
    ("RAG Cache", "testRagCache", "rag_cache");
    ("RAG Hybrid", "testRagHybrid", "rag_hybrid");
    ("Web Search LLM", "testWebSearchLLM", "web_search_llm") ].

(** The posts of the strategy sweep and of the performance probe. *)
Definition sweep_posts (env : Env.t) : list Event :=
  map (fun strategy =>
         HttpPost ("/api/search/" ++ strategy) (testAllStrategies_request env))
      [ "query_cache"; "rag_cache"; "rag_hybrid"; "web_search_llm" ].

Definition performance_posts (env : Env.t) : list Event :=
  map (fun test =>
         HttpPost ("/api/search/" ++ fst test) (testPerformance_request env))
      performanceTests.

Module Scenario.

(** A world whose fixture store is empty. *)
Definition store_empty : Env.t :=
  {| Env.config := Example.config_flags_on;
     Env.clock := fun n => Example.t0 + 40 * Z.of_nat n;
     Env.stack := fun _ => "Error: at runAllTests";
     Env.get := fun _ _ _ => Replied 200 tt;
     Env.post := fun _ _ _ => Replied 200 (Example.found ["r1"]);
     Env.select := fun _ _ => SupabaseResult (Some []) None;
     Env.webhook := fun _ _ _ => true |}.

(** A world whose fixture store lists an expired entry before a usable
    one. *)
Definition store_mixed : Env.t :=
  {| Env.config := Example.config_flags_on;
     Env.clock := fun n => Example.t0 + 40 * Z.of_nat n;
     Env.stack := fun _ => "Error: at runAllTests";
     Env.get := fun _ _ _ => Replied 200 tt;
     Env.post := fun _ _ _ => Replied 200 (Example.found ["r1"]);
     Env.select := fun _ _ =>
       SupabaseResult
         (Some [Example.fixture_expired; Example.fixture_empty;
                Example.fixture])
         None;
     Env.webhook := fun _ _ _ => true |}.

(** A world whose search API answers 503 with an error of its own, and
    whose webhooks turn every post down. *)
Definition api_unavailable : Env.t :=
  {| Env.config := Example.config_flags_on;
     Env.clock := fun n => Example.t0 + 40 * Z.of_nat n;
     Env.stack := fun _ => "Error: at runAllTests";
     Env.get := fun _ _ _ => Replied 503 tt;
     Env.post := fun _ _ _ =>
       Replied 503
         {| SearchResponse.success := false;
            SearchResponse.data := [];
            SearchResponse.source := "";
            SearchResponse.strategy := "";
            SearchResponse.originalStrategy := None;
            SearchResponse.fallbackUsed := None;
            SearchResponse.fallbackChain := None;
            SearchResponse.timing := None;
            SearchResponse.meta := None;
            SearchResponse.timestamp := "";
            SearchResponse.error := Some "index is rebuilding" |};
     Env.select := fun _ _ => SupabaseResult (Some [Example.fixture]) None;
     Env.webhook := fun _ _ _ => false |}.

(** A world whose search API cannot be reached, and in which the error
    of the transport carries no message text: axios hands the message of
    its error on as it finds it. *)
Definition api_unreachable : Env.t :=
  {| Env.config := Example.config_flags_on;
     Env.clock := fun n => Example.t0 + 40 * Z.of_nat n;
     Env.stack := fun _ => "Error: at runAllTests";
     Env.get := fun _ _ _ => NoReply "";
     Env.post := fun _ _ _ => NoReply "";
     Env.select := fun _ _ => SupabaseResult (Some [Example.fixture]) None;
     Env.webhook := fun _ _ _ => true |}.

(** A world whose HTTP client breaks before the request leaves. *)
Definition client_broken : Env.t :=
  {| Env.config := Example.config_flags_on;
     Env.clock := fun n => Example.t0 + 40 * Z.of_nat n;
     Env.stack := fun _ => "Error: at runAllTests";
     Env.get := fun _ _ _ => Replied 200 tt;
     Env.post := fun _ _ _ =>
       Broken (ThrownError "Converting circular structure to JSON"
                 "TypeError: at JSON.stringify");
     Env.select := fun _ _ => SupabaseResult (Some [Example.fixture]) None;
     Env.webhook := fun _ _ _ => true |}.

End Scenario.

(** Processes to start. *)
Module Launch.

(** [process.env] as a list of assignments, the first one of a name
    counting. *)
Fixpoint getenv (vars : list (string * string)) (name : string)
  : option string :=
  match vars with
  | [] => None
  | (n, value) :: rest =>
      if (n =? name)%string then Some value else getenv rest name
  end.

(** The assignments of [.env.example]. *)
Definition env_example : list (string * string) :=
  [ ("SUPABASE_URL", "https://your-project.supabase.co");
    ("SUPABASE_ANON_KEY", "your-anon-key");
    ("SUPABASE_SERVICE_ROLE_KEY", "your-service-role-key");
    ("PULSE_API_BASE_URL", "http://localhost:8080");
    ("TEST_AREA", "tampa-bay");
    ("TEST_REGION", "FL");
    ("TEST_COUNTRY", "US");
    ("TEST_TIMELINE", "today");
    ("SLACK_WEBHOOK_URL", "https://hooks.slack.com/services/xxx/xxx/xxx");
    ("DISCORD_WEBHOOK_URL", "https://discord.com/api/webhooks/xxx/xxx");
    ("API_TIMEOUT", "30000");
    ("CACHE_LOOKUP_TIMEOUT", "5000");
    ("ENABLE_SLACK_NOTIFICATIONS", "false");
    ("ENABLE_DISCORD_NOTIFICATIONS", "false");
    ("ENABLE_AUTO_HEALING", "false");
    ("LOG_LEVEL", "info") ].

(** The engine on the texts of these examples: the URLs among them are
    those that start with a web scheme, the numbers are two. *)
Definition URL_parses (text : string) : bool :=
  String.prefix "http://" text || String.prefix "https://" text.

Definition Number (text : string) : float :=
  if (text =? "5000")%string then 5000%float else 30000%float.

(** The process of [.env.example] in a world in which everything
    answers well. *)
Definition documented : Process.t :=
  {| Process.env := getenv env_example;
     Process.URL_parses := URL_parses;
     Process.Number := Number;
     Process.createClient := fun _ _ => None;
     Process.stack := "Error: at parseEnv";
     Process.world := Example.healthy Example.config_flags_on 40 |}.

(** The same process in a world in which the fixture store is down: the
    run has failed probes. *)
Definition with_store_down : Process.t :=
  {| Process.env := getenv env_example;
     Process.URL_parses := URL_parses;
     Process.Number := Number;
     Process.createClient := fun _ _ => None;
     Process.stack := "Error: at parseEnv";
     Process.world := Example.store_down |}.

(** A process started with nothing but the two keys of Supabase: the
    URLs are missing. *)
Definition without_urls : Process.t :=
  {| Process.env :=
       getenv [ ("SUPABASE_ANON_KEY", "your-anon-key");
                ("SUPABASE_SERVICE_ROLE_KEY", "your-service-role-key") ];
     Process.URL_parses := URL_parses;
     Process.Number := Number;
     Process.createClient := fun _ _ => None;
     Process.stack := "Error: at parseEnv";
     Process.world := Example.healthy Example.config_flags_on 40 |}.

(** The process of [.env.example] with the webhook of Slack set to the
    empty text, as an assignment without a value leaves it. *)
Definition with_empty_webhook : Process.t :=
  {| Process.env := getenv (("SLACK_WEBHOOK_URL", "") :: env_example);
     Process.URL_parses := URL_parses;
     Process.Number := Number;
     Process.createClient := fun _ _ => None;
     Process.stack := "Error: at parseEnv";
     Process.world := Example.healthy Example.config_flags_on 40 |}.

(** The process of [.env.example] with a Supabase client that turns its
    arguments down. *)
Definition with_client_refusing : Process.t :=
  {| Process.env := getenv env_example;
     Process.URL_parses := URL_parses;
     Process.Number := Number;
     Process.createClient := fun _ _ =>
       Some (ThrownError "Invalid supabaseUrl"
               "Error: at new SupabaseClient");
     Process.stack := "Error: at parseEnv";
     Process.world := Example.healthy Example.config_flags_on 40 |}.

End Launch.

(* ================================================================== *)
(** * Properties                                                      *)
(* ================================================================== *)

(** ** The built-ins on known values *)

Example toISOString_epoch : JS.toISOString 0 = "1970-01-01T00:00:00.000Z".
Proof. reflexivity. Qed.

Example toISOString_2023 :
  JS.toISOString 1700000000123 = "2023-11-14T22:13:20.123Z".
Proof. reflexivity. Qed.

Example toISOString_leap_day :
  JS.toISOString 1709210096789 = "2024-02-29T12:34:56.789Z".
Proof. reflexivity. Qed.

Example toFixed2_third :
  JS.toFixed2 (JS.number 1 / JS.number 3 * JS.number 100)%float = "33.33".
Proof. reflexivity. Qed.

Example toFixed2_tie :
  JS.toFixed2 (JS.number 1 / JS.number 32 * JS.number 100)%float = "3.13".
Proof. reflexivity. Qed.

Example toFixed2_all :
  JS.toFixed2 (JS.number 11 / JS.number 11 * JS.number 100)%float = "100.00".
Proof. reflexivity. Qed.

Example toFixed2_none :
  JS.toFixed2 (JS.number 0 / JS.number 11 * JS.number 100)%float = "0.00".
Proof. reflexivity. Qed.

(** ** The program on known worlds *)

Example run_in_a_healthy_world :
  Example.summary (Example.healthy Example.config_flags_on 40)
  = (0,
     [ ("API Health Check", true, None);
       ("Supabase Connection", true, None);
       ("Query Cache Strategy", true, None);
       ("RAG Vector Strategy", true, None);
       ("Query Cache Strategy", true, None);
       ("RAG Cache Strategy", true, None);
       ("RAG Hybrid Strategy", true, None);
       ("Web Search LLM Strategy", true, None);
       ("query_cache Performance", true, None);
       ("rag_cache Performance", true, None);
       ("rag_vector Performance", true, None) ],
     [ (11, 11, 0, "100.00%", "520ms") ],
     []).
Proof. reflexivity. Qed.

Example run_against_a_silent_api :
  Example.summary Example.api_timeout
  = (0,
     [ ("API Health Check", false, Some "API is not healthy");
       ("Supabase Connection", true, None);
       ("Query Cache Strategy", false, Some "timeout of 30000ms exceeded");
       ("RAG Vector Strategy", false, Some "timeout of 30000ms exceeded");
       ("Query Cache Strategy", false, Some "timeout of 30000ms exceeded");
       ("RAG Cache Strategy", false, Some "timeout of 30000ms exceeded");
       ("RAG Hybrid Strategy", false, Some "timeout of 30000ms exceeded");
       ("Web Search LLM Strategy", false,
        Some "timeout of 30000ms exceeded");
       ("query_cache Performance", false,
        Some "Exceeded expected time: 30000ms > 500ms");
       ("rag_cache Performance", false,
        Some "Exceeded expected time: 30000ms > 1000ms");
       ("rag_vector Performance", false,
        Some "Exceeded expected time: 30000ms > 3000ms") ],
     [ (11, 1, 10, "9.09%", "390000ms") ],
     [ SlackChannel; DiscordChannel ]).
Proof. reflexivity. Qed.

(** ** Reading a computation *)

Lemma silent_ret {A} (a : A) : silent (ret a).
Proof. intros s; split; reflexivity. Qed.

Lemma silent_throw {A} (e : Thrown) : silent (@throw A e).
Proof. intros s; split; reflexivity. Qed.

Lemma silent_bind {A B} (m : M A) (k : A -> M B) :
  silent m -> (forall a, silent (k a)) -> silent (bind m k).
Proof.
  intros Hm Hk s. unfold bind. specialize (Hm s).
  destruct (m s) as [[a | e] s1]; simpl in *.
  - destruct (Hk a s1) as [H1 H2]. destruct Hm as [H3 H4].
    split; congruence.
  - exact Hm.
Qed.

Lemma silent_try_catch {A} (m : M A) (h : Thrown -> M A) :
  silent m -> (forall e, silent (h e)) -> silent (try_catch m h).
Proof.
  intros Hm Hh s. unfold try_catch. specialize (Hm s).
  destruct (m s) as [[a | e] s1]; simpl in *.
  - exact Hm.
  - destruct (Hh e s1) as [H1 H2]. destruct Hm as [H3 H4].
    split; congruence.
Qed.

Lemma total_ret {A} (a : A) : total (ret a).
Proof. intros s; exists a; reflexivity. Qed.

Lemma total_bind {A B} (m : M A) (k : A -> M B) :
  total m -> (forall a, total (k a)) -> total (bind m k).
Proof.
  intros Hm Hk s. unfold bind. destruct (Hm s) as [a Ha].
  destruct (m s) as [[a' | e] s1]; simpl in *; [|discriminate].
  apply Hk.
Qed.

Lemma total_try_catch {A} (m : M A) (h : Thrown -> M A) :
  (forall e, total (h e)) -> total (try_catch m h).
Proof.
  intros Hh s. unfold try_catch.
  destruct (m s) as [[a | e] s1]; simpl.
  - exists a; reflexivity.
  - apply Hh.
Qed.

Lemma silent_Promise_all2 (a b : M unit) :
  silent a -> silent b -> silent (Promise_all2 a b).
Proof.
  intros Ha Hb s. unfold Promise_all2.
  destruct (Ha s) as [H1 H2]. destruct (a s) as [ra s1].
  destruct (Hb s1) as [H3 H4]. destruct (b s1) as [rb s2].
  cbn [snd] in *. destruct ra, rb; cbn [snd]; split; congruence.
Qed.

Lemma total_Promise_all2 (a b : M unit) :
  total a -> total b -> total (Promise_all2 a b).
Proof.
  intros Ha Hb s. unfold Promise_all2.
  destruct (Ha s) as [x Hx]. destruct (a s) as [ra s1].
  destruct (Hb s1) as [y Hy]. destruct (b s1) as [rb s2].
  cbn [fst] in *. subst. exists tt. reflexivity.
Qed.

Create HintDb js discriminated.
#[export] Hint Resolve silent_ret silent_throw silent_bind silent_try_catch
  total_ret total_bind total_try_catch silent_Promise_all2
  total_Promise_all2 : js.

Section Facts.

Variable env : Env.t.

Lemma silent_Date_now : silent (Date_now env).
Proof. intros s; split; reflexivity. Qed.

Lemma silent_Error_stack : silent (Error_stack env).
Proof. intros s; split; reflexivity. Qed.

Lemma total_Date_now : total (Date_now env).
Proof. intros s; eexists; reflexivity. Qed.

Lemma silent_client_get url timeout : silent (client_get env url timeout).
Proof. intros s; split; reflexivity. Qed.

Lemma silent_client_post url request : silent (client_post env url request).
Proof. intros s; split; reflexivity. Qed.

Lemma silent_client_select q : silent (client_select env q).
Proof. intros s; split; reflexivity. Qed.

Lemma silent_axios_post_webhook url body :
  silent (axios_post_webhook env url body).
Proof. intros s; split; reflexivity. Qed.

Hint Resolve silent_Date_now silent_Error_stack total_Date_now
  silent_client_get silent_client_post silent_client_select
  silent_axios_post_webhook : js.

Lemma silent_searchWithStrategy strategy request :
  silent (searchWithStrategy env strategy request).
Proof.
  unfold searchWithStrategy. apply silent_try_catch; auto 10 with js.
  intros e. destruct (Caught.isAxiosError e); auto 10 with js.
Qed.

Lemma silent_healthCheck : silent (healthCheck env).
Proof. unfold healthCheck. auto 10 with js. Qed.

Lemma total_healthCheck : total (healthCheck env).
Proof. unfold healthCheck. auto with js. Qed.

Lemma silent_getRecentCacheEntry options :
  silent (getRecentCacheEntry env options).
Proof.
  unfold getRecentCacheEntry. apply silent_try_catch; auto with js.
  apply silent_bind; auto with js. intros now.
  apply silent_bind; auto with js.
  intros [[[|first rest]|] [error|]]; auto with js.
Qed.

Lemma silent_getCacheEntriesByPrompt prompt limit :
  silent (getCacheEntriesByPrompt env prompt limit).
Proof.
  unfold getCacheEntriesByPrompt. apply silent_try_catch; auto with js.
  apply silent_bind; auto with js. intros now.
  apply silent_bind; auto with js.
  intros [[data|] [error|]]; auto with js.
Qed.

Lemma silent_pulseAPIService_call method request :
  silent (pulseAPIService_call env method request).
Proof.
  unfold pulseAPIService_call, pulseAPIService_method.
  repeat match goal with
         | |- context [if ?b then _ else _] => destruct b
         end;
    try apply silent_searchWithStrategy.
  auto with js.
Qed.

Hint Resolve silent_searchWithStrategy silent_healthCheck total_healthCheck
  silent_getRecentCacheEntry silent_getCacheEntriesByPrompt
  silent_pulseAPIService_call : js.

(** ** The facade *)

(** [a || 'literal'] is the left text unless that is missing or empty. *)
Lemma or_default_spec (a : option string) (b : string) :
  JS.or a (Some b) = Some (JS.or_default a b).
Proof.
  unfold JS.or, JS.or_default, JS.truthy. destruct a as [x|]; [|reflexivity].
  destruct (x =? "")%string; reflexivity.
Qed.

Lemma or_default_nonempty (a : option string) (b : string) :
  b <> "" -> JS.or_default a b <> "".
Proof.
  intros Hb. unfold JS.or_default. destruct a as [x|]; [|assumption].
  destruct (String.eqb_spec x ""); assumption.
Qed.

(** C3, as the code has it.  Whatever the strategy and the request, when
    the HTTP call fails at transport level or is answered with a status
    outside 200..299, [searchWithStrategy] does not throw: it returns a
    response with [success] false, no data, [source] and [strategy] both
    the requested strategy, and [timing.total_ms] equal to 0.  The
    [error] of the response is the error text of the reply when the reply
    has one that is not empty, and the message of axios' error otherwise.
    For a reply that message is ["Request failed with status code
    <status>"], so the error is never empty; for a failure of the
    transport it is the message axios hands on, and the error is empty
    when that message is. *)
Theorem searchWithStrategy_normalizes_failure
    (strategy : string) (request : SearchRequest.t) (s : State.t) :
  failed_exchange
    (Env.post env (exchanges s) ("/api/search/" ++ strategy) request) ->
  exists response s' msg,
    searchWithStrategy env strategy request s = (Returned response, s')
    /\ SearchResponse.success response = false
    /\ SearchResponse.data response = []
    /\ SearchResponse.source response = strategy
    /\ SearchResponse.strategy response = strategy
    /\ SearchResponse.error response = Some msg
    /\ match Env.post env (exchanges s) ("/api/search/" ++ strategy)
               request with
       | Replied status body =>
           msg = JS.or_default (SearchResponse.error body)
                   ("Request failed with status code "
                    ++ JS.string_of_Z status)
           /\ msg <> ""
       | NoReply message => msg = message
       | Broken _ => False
       end
    /\ option_map Timing.total_ms (SearchResponse.timing response) = Some 0.
Proof.
  intros Hfail.
  unfold searchWithStrategy, try_catch, bind, client_post, Date_now, ret.
  cbn [fst snd].
  destruct (Env.post env (exchanges s) ("/api/search/" ++ strategy) request)
    as [status body | message | error]; inversion Hfail; subst.
  - unfold settle. rewrite H0. cbn [Caught.isAxiosError]. do 3 eexists.
    split; [reflexivity|].
    cbn [SearchResponse.success SearchResponse.data SearchResponse.source
         SearchResponse.strategy SearchResponse.error SearchResponse.timing
         option_map Timing.total_ms Caught.response_data_error
         Caught.message AxiosError.response AxiosError.data_error
         AxiosError.message].
    do 4 (split; [reflexivity|]).
    split; [apply or_default_spec|].
    split; [split; [reflexivity|]|].
    + apply or_default_nonempty. cbn. discriminate.
    + f_equal. apply Z.sub_diag.
  - cbn [settle Caught.isAxiosError]. do 3 eexists.
    split; [reflexivity|].
    cbn [SearchResponse.success SearchResponse.data SearchResponse.source
         SearchResponse.strategy SearchResponse.error SearchResponse.timing
         option_map Timing.total_ms Caught.response_data_error
         Caught.message AxiosError.response AxiosError.data_error
         AxiosError.message JS.or JS.truthy].
    do 4 (split; [reflexivity|]).
    split; [reflexivity|]. split; [reflexivity|].
    f_equal. apply Z.sub_diag.
Qed.

(** C10.  [healthCheck] never throws, and it answers [true] exactly when
    the liveness endpoint, asked with a timeout of 5000 ms, replied with
    status 200.  Any other status, 204 and the other 2xx included, and
    any failure of the transport, a timeout for one, give [false]. *)
Theorem healthCheck_true_iff_status_200 (s : State.t) :
  exists healthy s',
    healthCheck env s = (Returned healthy, s')
    /\ (healthy = true <->
        exists body,
          Env.get env (exchanges s) "/health" 5000 = Replied 200 body).
Proof.
  unfold healthCheck, try_catch, bind, client_get, ret. cbn [fst snd].
  destruct (Env.get env (exchanges s) "/health" 5000)
    as [status body | message | error]; cbn [settle].
  - destruct (validateStatus status) eqn:Hv.
    + cbn. do 2 eexists. split; [reflexivity|]. split.
      * intros H. apply Z.eqb_eq in H. subst. exists body. reflexivity.
      * intros [b H]. inversion H. reflexivity.
    + do 2 eexists. split; [reflexivity|]. split; [discriminate|].
      intros [b H]. inversion H. subst. discriminate.
  - do 2 eexists. split; [reflexivity|]. split; [discriminate|].
    intros [b H]. discriminate.
  - do 2 eexists. split; [reflexivity|]. split; [discriminate|].
    intros [b H]. discriminate.
Qed.

(** ** The alert dispatcher *)

Lemma silent_discord_fields details : silent (discord_fields env details).
Proof.
  induction details as [|[key value] rest IH]; cbn [discord_fields].
  - auto with js.
  - destruct (JSON_stringify value); auto 10 with js.
Qed.

Lemma silent_sendSlackNotification message details :
  silent (sendSlackNotification env message details).
Proof.
  unfold sendSlackNotification.
  destruct (_ || _); auto with js.
Qed.

Lemma total_sendSlackNotification message details :
  total (sendSlackNotification env message details).
Proof.
  unfold sendSlackNotification.
  destruct (_ || _); auto with js.
Qed.

Lemma silent_sendDiscordNotification message details :
  silent (sendDiscordNotification env message details).
Proof.
  unfold sendDiscordNotification.
  destruct (_ || _); auto with js.
  apply silent_try_catch; auto with js.
  apply silent_bind; auto with js.
  destruct details as [d|]; auto with js.
  apply silent_bind; auto with js. apply silent_discord_fields.
Qed.

Lemma total_sendDiscordNotification message details :
  total (sendDiscordNotification env message details).
Proof.
  unfold sendDiscordNotification.
  destruct (_ || _); auto with js.
Qed.

Hint Resolve silent_sendSlackNotification total_sendSlackNotification
  silent_sendDiscordNotification total_sendDiscordNotification : js.

Lemma silent_sendTestFailureAlert report :
  silent (sendTestFailureAlert env report).
Proof. unfold sendTestFailureAlert. auto with js. Qed.

Lemma total_sendTestFailureAlert report :
  total (sendTestFailureAlert env report).
Proof. unfold sendTestFailureAlert. auto with js. Qed.

Lemma silent_sendCriticalAlert message error :
  silent (sendCriticalAlert env message error).
Proof. unfold sendCriticalAlert. auto 10 with js. Qed.

Lemma total_sendCriticalAlert message error :
  total (sendCriticalAlert env message error).
Proof. unfold sendCriticalAlert. auto 10 with js. Qed.

Hint Resolve silent_sendTestFailureAlert total_sendTestFailureAlert
  silent_sendCriticalAlert total_sendCriticalAlert : js.

End Facts.

Lemma skipn_length_app {A} (l l' : list A) :
  skipn (List.length l) (l ++ l') = l'.
Proof. induction l; simpl; auto. Qed.

Arguments JS.toISOString : simpl never.
Arguments JS.string_of_Z : simpl never.

(** C5, as the code has it.  A critical alert passes the same gate as any
    other notification: it never throws, Slack is posted to exactly when
    its enable flag is on and its webhook URL is set, and Discord when
    its flag is on, its URL is set and the error carries a stack.  With a
    channel's flag off nothing is sent to that channel. *)
Theorem sendCriticalAlert_obeys_channel_flags
    (env : Env.t) (message : string) (error : Thrown) (s : State.t) :
  exists s',
    sendCriticalAlert env message error s = (Returned tt, s')
    /\ alerted s s' =
         ((if slack_on (Env.config env) then [SlackChannel] else [])
          ++ (if discord_on (Env.config env)
              then match Caught.stack error with
                   | Some _ => [DiscordChannel]
                   | None => []
                   end
              else []))%list.
Proof.
  unfold sendCriticalAlert, Promise_all2, sendSlackNotification,
    sendDiscordNotification, slack_on, discord_on, alerted.
  destruct (Config.ENABLE_SLACK_NOTIFICATIONS (Env.config env));
    destruct (JS.truthy (Config.SLACK_WEBHOOK_URL (Env.config env)));
    destruct (Config.ENABLE_DISCORD_NOTIFICATIONS (Env.config env));
    destruct (JS.truthy (Config.DISCORD_WEBHOOK_URL (Env.config env)));
    destruct (Caught.stack error) as [st|];
    cbn [negb orb andb];
    unfold bind, try_catch, ret, Date_now, axios_post_webhook, throw,
      Error_stack;
    cbn [discord_fields JSON_stringify bind ret fst snd];
    unfold bind, try_catch, ret, throw, Error_stack;
    repeat match goal with
           | |- context [if Env.webhook ?e ?n ?u ?b then _ else _] =>
               destruct (Env.webhook e n u b)
           end;
    eexists; (split; [reflexivity|]);
    unfold traced; cbn [State.trace];
    rewrite <- ?app_assoc; rewrite ?skipn_length_app;
    try reflexivity;
    try (rewrite skipn_all; reflexivity).
Qed.

(** ** The report aggregator *)

Lemma filter_length_split {A} (f : A -> bool) (l : list A) :
  (List.length (List.filter f l)
   + List.length (List.filter (fun x => negb (f x)) l))%nat
  = List.length l.
Proof.
  induction l as [|x l IH]; simpl; [reflexivity|].
  destruct (f x); simpl; lia.
Qed.

Lemma generateReport_counts (now : Z) (results : list TestResult.t) :
  let report := generateReport now results in
  Report.totalTests report = Z.of_nat (List.length results)
  /\ Report.totalTests report
     = Report.passedTests report + Report.failedTests report
  /\ Report.failedTests report
     = Z.of_nat (List.length (Report.failures report))
  /\ 0 <= Report.passedTests report <= Report.totalTests report
  /\ Report.results report = results.
Proof.
  cbn. pose proof (filter_length_split TestResult.success results).
  repeat split; lia.
Qed.

(** C6, as the code has it.  The aggregator changes nothing in the state
    of the runner, and it reads the clock for the [timestamp] of the
    report.  Two calls on the same result list give reports that agree in
    every field but [timestamp], hand the list on as it is, and are the
    same report when the clock reads the same at both calls. *)
Theorem generateReport_pure_but_for_timestamp
    (env : Env.t) (s1 s2 : State.t) :
  State.results s1 = State.results s2 ->
  exists r1 r2,
    this_generateReport env s1 = (Returned r1, s1)
    /\ this_generateReport env s2 = (Returned r2, s2)
    /\ Report.results r1 = State.results s1
    /\ Report.timestamp r2 = JS.toISOString (clock env s2)
    /\ r2 = restamped (Report.timestamp r2) r1
    /\ (clock env s1 = clock env s2 -> r1 = r2).
Proof.
  intros Hsame. unfold this_generateReport. fold (clock env s1) (clock env s2).
  rewrite <- Hsame. do 2 eexists.
  split; [reflexivity|]. split; [reflexivity|].
  split; [reflexivity|]. split; [reflexivity|].
  split; [reflexivity|].
  intros Hclock. rewrite Hclock. reflexivity.
Qed.

(** ** The probes *)

Section Probes.

Variable env : Env.t.

Hint Resolve silent_Date_now silent_Error_stack total_Date_now
  silent_client_get silent_client_post silent_client_select
  silent_axios_post_webhook
  silent_searchWithStrategy silent_healthCheck total_healthCheck
  silent_getRecentCacheEntry silent_getCacheEntriesByPrompt
  silent_pulseAPIService_call
  silent_sendTestFailureAlert total_sendTestFailureAlert
  silent_sendCriticalAlert total_sendCriticalAlert : js.

Lemma pushes_last_push r :
  pushes_last (TestResult.testName r) (results_push r).
Proof. intros s. cbn. exists r. auto. Qed.

Lemma pushes_last_bind {A} testName (m : M A) (k : A -> M unit) :
  silent m -> (forall a, pushes_last testName (k a)) ->
  pushes_last testName (bind m k).
Proof.
  intros Hm Hk s. unfold bind. destruct (Hm s) as [H1 H2].
  destruct (m s) as [[a | e] s1]; cbn [fst snd] in *.
  - specialize (Hk a s1). destruct (k a s1) as [[u | e] s2].
    + destruct Hk as [r [Hr [Hn Hl]]]. exists r.
      repeat split; congruence.
    + destruct Hk. split; congruence.
  - auto.
Qed.

Lemma guarded_spec testName attempt :
  (forall t, pushes_last testName (attempt t)) ->
  forall s,
  exists r s',
    guarded env testName attempt s = (Returned tt, s')
    /\ State.results s' = (State.results s ++ [r])%list
    /\ TestResult.testName r = testName
    /\ State.logged s' = State.logged s
    /\ (forall e s1,
          attempt (clock env s) s = (Threw e, s1) ->
          r = failed testName (clock env s1 - clock env s) e)
    /\ (forall s1,
          attempt (clock env s) s = (Returned tt, s1) -> s' = s1).
Proof.
  intros Hok s. unfold guarded, bind, try_catch, Date_now. cbn [fst snd].
  fold (clock env s). specialize (Hok (clock env s) s).
  destruct (attempt (clock env s) s) as [[[] | e] s1].
  - destruct Hok as [r [Hr [Hn Hl]]]. exists r, s1.
    repeat split; auto.
    + intros e s2 H. discriminate.
    + intros s2 H. inversion H. reflexivity.
  - destruct Hok as [Hr Hl]. cbn.
    exists (failed testName (clock env s1 - clock env s) e). eexists.
    split; [reflexivity|]. cbn.
    split; [rewrite Hr; reflexivity|].
    split; [reflexivity|]. split; [assumption|].
    split.
    + intros e' s1' H. inversion H. subst. reflexivity.
    + intros s2 H. discriminate.
Qed.

(** The [try] blocks of the runner are well behaved. *)
Lemma pushes_last_testAPIHealth_try t :
  pushes_last "API Health Check" (testAPIHealth_try env t).
Proof.
  unfold testAPIHealth_try.
  apply pushes_last_bind; auto with js. intros healthy.
  apply pushes_last_bind; auto with js. intros now.
  apply (pushes_last_push (TestResult.mk _ _ _ _ _)).
Qed.

Lemma pushes_last_testSupabaseConnection_try t :
  pushes_last "Supabase Connection" (testSupabaseConnection_try env t).
Proof.
  unfold testSupabaseConnection_try.
  apply pushes_last_bind; auto with js. intros entry.
  apply pushes_last_bind; auto with js. intros now.
  apply (pushes_last_push (TestResult.mk _ _ _ _ _)).
Qed.

Lemma pushes_last_testQueryCacheStrategy_try t :
  pushes_last "Query Cache Strategy" (testQueryCacheStrategy_try env t).
Proof.
  unfold testQueryCacheStrategy_try.
  apply pushes_last_bind; auto with js. intros entries.
  apply pushes_last_bind; auto with js. intros today.
  destruct (find (valid_entry today) entries) as [validEntry|].
  - apply pushes_last_bind; [unfold testQueryCache; auto with js|].
    intros response.
    apply pushes_last_bind; auto with js. intros now.
    apply (pushes_last_push (TestResult.mk _ _ _ _ _)).
  - apply pushes_last_bind; auto with js. intros now.
    apply (pushes_last_push (TestResult.mk _ _ _ _ _)).
Qed.

Lemma pushes_last_testRagVectorStrategy_try t :
  pushes_last "RAG Vector Strategy" (testRagVectorStrategy_try env t).
Proof.
  unfold testRagVectorStrategy_try.
  apply pushes_last_bind; auto with js. intros entry.
  apply pushes_last_bind; [unfold testRagVector; auto with js|].
  intros response.
  apply pushes_last_bind; auto with js. intros now.
  apply (pushes_last_push (TestResult.mk _ _ _ _ _)).
Qed.

Lemma pushes_last_testAllStrategies_try strategy t :
  pushes_last (fst strategy ++ " Strategy")
    (testAllStrategies_try env strategy t).
Proof.
  unfold testAllStrategies_try.
  apply pushes_last_bind; auto with js. intros response.
  apply pushes_last_bind; auto with js. intros now.
  apply (pushes_last_push (TestResult.mk _ _ _ _ _)).
Qed.

Lemma pushes_last_testPerformance_try test t :
  pushes_last (fst test ++ " Performance") (testPerformance_try env test t).
Proof.
  unfold testPerformance_try.
  apply pushes_last_bind; auto with js. intros response.
  apply pushes_last_bind; auto with js. intros now.
  apply (pushes_last_push (TestResult.mk _ _ _ _ _)).
Qed.

(** Every probe is its [try] block inside the failure boundary. *)
Lemma testAPIHealth_guarded :
  testAPIHealth env = guarded env "API Health Check" (testAPIHealth_try env).
Proof. reflexivity. Qed.

Lemma testSupabaseConnection_guarded :
  testSupabaseConnection env
  = guarded env "Supabase Connection" (testSupabaseConnection_try env).
Proof. reflexivity. Qed.

Lemma testQueryCacheStrategy_guarded :
  testQueryCacheStrategy env
  = guarded env "Query Cache Strategy" (testQueryCacheStrategy_try env).
Proof. reflexivity. Qed.

Lemma testRagVectorStrategy_guarded :
  testRagVectorStrategy env
  = guarded env "RAG Vector Strategy" (testRagVectorStrategy_try env).
Proof. reflexivity. Qed.

Lemma testAllStrategies_of_guarded strategy :
  testAllStrategies_of env strategy
  = guarded env (fst strategy ++ " Strategy")
      (testAllStrategies_try env strategy).
Proof. reflexivity. Qed.

Lemma testPerformance_of_guarded test :
  testPerformance_of env test
  = guarded env (fst test ++ " Performance") (testPerformance_try env test).
Proof. reflexivity. Qed.

(** ** The orchestrator *)

Lemma boundaries_well_behaved : Forall well_behaved (boundaries env).
Proof.
  unfold boundaries, strategies, performanceTests. cbn [map app].
  repeat constructor; intros t; cbn [fst snd].
  - apply pushes_last_testAPIHealth_try.
  - apply pushes_last_testSupabaseConnection_try.
  - apply pushes_last_testQueryCacheStrategy_try.
  - apply pushes_last_testRagVectorStrategy_try.
  - apply (pushes_last_testAllStrategies_try ("Query Cache", _)).
  - apply (pushes_last_testAllStrategies_try ("RAG Cache", _)).
  - apply (pushes_last_testAllStrategies_try ("RAG Hybrid", _)).
  - apply (pushes_last_testAllStrategies_try ("Web Search LLM", _)).
  - apply (pushes_last_testPerformance_try ("query_cache", _)).
  - apply (pushes_last_testPerformance_try ("rag_cache", _)).
  - apply (pushes_last_testPerformance_try ("rag_vector", _)).
Qed.

(** A sequence of well-behaved checks runs to its end whatever happens
    inside them, records one result a check in their order, and records
    the failure of a check whose [try] block threw. *)
Lemma checks_spec (bs : list Boundary) :
  Forall well_behaved bs ->
  forall s,
  exists rs s',
    for_of bs (check env) s = (Returned tt, s')
    /\ State.results s' = (State.results s ++ rs)%list
    /\ map TestResult.testName rs = map fst bs
    /\ State.logged s' = State.logged s
    /\ forall i b e s1,
         nth_error bs i = Some b ->
         let si := snd (for_of (firstn i bs) (check env) s) in
         snd b (clock env si) si = (Threw e, s1) ->
         nth_error rs i = Some (failed (fst b) (clock env s1 - clock env si) e).
Proof.
  induction 1 as [|b bs Hb Hbs IH]; intros s.
  - exists [], s. cbn. rewrite app_nil_r. repeat split; auto.
    intros [|i] b e s1 H; discriminate.
  - destruct (guarded_spec (fst b) (snd b) Hb s)
      as [r [s1 [Hrun [Hres [Hname [Hlog [Hthrew _]]]]]]].
    destruct (IH s1) as [rs [s2 [Hrun2 [Hres2 [Hnames2 [Hlog2 Hthrew2]]]]]].
    exists (r :: rs), s2.
    cbn [for_of]. unfold bind. fold (check env b) in Hrun. rewrite Hrun.
    split; [exact Hrun2|].
    split; [rewrite Hres2, Hres, <- app_assoc; reflexivity|].
    split; [cbn; congruence|].
    split; [congruence|].
    intros [|i] b' e s' Hnth.
    + cbn in Hnth. inversion Hnth; subst b'. cbn.
      intros H. rewrite (Hthrew e s' H). reflexivity.
    + cbn in Hnth. cbn [firstn for_of]. unfold bind. rewrite Hrun.
      intros H. cbn. apply (Hthrew2 i b' e s' Hnth H).
Qed.

(** The six probe calls of [runAllTests] are these eleven checks. *)
Lemma probes_are_the_checks (k : M unit) (s : State.t) :
  (testAPIHealth env ;; testSupabaseConnection env ;;
   testQueryCacheStrategy env ;; testRagVectorStrategy env ;;
   testAllStrategies env ;; testPerformance env ;; k) s
  = (for_of (boundaries env) (check env) ;; k) s.
Proof.
  unfold testAllStrategies, testPerformance, boundaries, strategies,
    performanceTests.
  cbn [for_of map app]. unfold check. cbn [fst snd].
  rewrite testAPIHealth_guarded, testSupabaseConnection_guarded,
    testQueryCacheStrategy_guarded, testRagVectorStrategy_guarded.
  rewrite !testAllStrategies_of_guarded, !testPerformance_of_guarded.
  cbn [fst snd]. unfold bind, ret.
  repeat match goal with
         | |- context [guarded env ?n ?a ?st] =>
             destruct (guarded env n a st) as [[[]|?] ?]; try reflexivity
         end.
Qed.

Lemma runAllTests_checks (s : State.t) :
  runAllTests env s
  = try_catch (for_of (boundaries env) (check env) ;; report_and_notify env)
      (runAllTests_catch env) s.
Proof.
  unfold runAllTests, try_catch. rewrite probes_are_the_checks. reflexivity.
Qed.

Lemma runAllTests_as_runAllTestsWith (s : State.t) :
  runAllTests env s = runAllTestsWith env (probes env) s.
Proof.
  unfold runAllTests, runAllTestsWith, probes, try_catch, bind.
  cbn [for_of]. unfold bind, ret.
  repeat match goal with
         | |- context [match ?p env ?st with _ => _ end] =>
             destruct (p env st) as [[[]|?] ?]; try reflexivity
         end.
Qed.

(** The report is made from the results as they stand, logged, and sent
    on when it has failures; none of this throws. *)
Lemma report_and_notify_spec (s : State.t) :
  exists s',
    report_and_notify env s = (Returned tt, s')
    /\ State.results s' = State.results s
    /\ State.logged s'
       = (State.logged s
          ++ [generateReport (clock env s) (State.results s)])%list.
Proof.
  unfold report_and_notify, bind, this_generateReport, logger_info_report.
  fold (clock env s).
  set (report := generateReport (clock env s) (State.results s)).
  set (s1 := State.mk _ _ _).
  destruct (Report.hasFailures report).
  - destruct (total_sendTestFailureAlert env report s1) as [[] Ht].
    destruct (silent_sendTestFailureAlert env report s1) as [Hr Hl].
    destruct (sendTestFailureAlert env report s1) as [c s2].
    cbn [fst snd] in *. subst c. exists s2. auto.
  - exists s1. auto.
Qed.

(** A run of [runAllTests] never reaches the [catch] of the orchestrator:
    it logs one report, made of the eleven results of its checks. *)
Lemma runAllTests_spec (s : State.t) :
  exists rs s',
    runAllTests env s = (Returned tt, s')
    /\ State.results s' = (State.results s ++ rs)%list
    /\ map TestResult.testName rs = map fst (boundaries env)
    /\ State.logged s'
       = (State.logged s
          ++ [generateReport
                (clock env (snd (for_of (boundaries env) (check env) s)))
                (State.results s ++ rs)])%list
    /\ forall i b e s1,
         nth_error (boundaries env) i = Some b ->
         snd b (clock env (state_before env i s)) (state_before env i s)
         = (Threw e, s1) ->
         nth_error rs i
         = Some (failed (fst b)
                   (clock env s1 - clock env (state_before env i s)) e).
Proof.
  destruct (checks_spec (boundaries env) boundaries_well_behaved s)
    as [rs [s1 [Hrun [Hres [Hnames [Hlog Hthrew]]]]]].
  destruct (report_and_notify_spec s1) as [s2 [Hrep [Hres2 Hlog2]]].
  exists rs, s2. rewrite runAllTests_checks.
  unfold try_catch, bind. rewrite Hrun, Hrep.
  split; [reflexivity|].
  split; [congruence|].
  split; [assumption|].
  split; [rewrite Hlog2, Hlog, Hres; reflexivity|].
  exact Hthrew.
Qed.

End Probes.

(** ** A run and its report *)

Lemma all_pass (l : list TestResult.t) :
  (forall j r, nth_error l j = Some r -> TestResult.success r = true) ->
  List.filter (fun r => negb (TestResult.success r)) l = [].
Proof.
  induction l as [|x l IH]; intros H; [reflexivity|].
  cbn. rewrite (H 0%nat x eq_refl). cbn.
  apply IH. intros j r Hj. apply (H (S j) r Hj).
Qed.

Lemma single_failure (l : list TestResult.t) (i : nat) (x : TestResult.t) :
  nth_error l i = Some x ->
  TestResult.success x = false ->
  (forall j r, j <> i -> nth_error l j = Some r ->
               TestResult.success r = true) ->
  List.filter (fun r => negb (TestResult.success r)) l = [x].
Proof.
  revert i. induction l as [|y l IH]; intros [|i] Hx Hfalse Hothers;
    try discriminate.
  - cbn in Hx. inversion Hx; subst y. cbn. rewrite Hfalse. cbn.
    f_equal. apply all_pass. intros j r Hj.
    apply (Hothers (S j) r); [discriminate | exact Hj].
  - cbn in Hx. cbn.
    rewrite (Hothers 0%nat y); [|discriminate|reflexivity]. cbn.
    apply (IH i Hx Hfalse). intros j r Hne Hj.
    apply (Hothers (S j) r); [congruence | exact Hj].
Qed.

(** C1.  A probe that throws does not end the run.  The run makes eleven
    checks, each inside its own failure boundary (N = 11).  When the
    [try] block of the [i]-th check throws, [runAllTests] still returns
    without reaching its own [catch]; the report it logs has
    [totalTests] 11, one result a check under the names of the checks in
    their order, and at position [i] the failed result of that check,
    named for it and carrying what was caught.  When the other ten
    results are successes, this failed result is the only failure of the
    report. *)
Theorem runAllTests_isolates_a_throwing_probe
    (env : Env.t) (s0 : State.t) (i : nat) (b : Boundary)
    (e : Thrown) (s1 : State.t) :
  State.results s0 = [] ->
  nth_error (boundaries env) i = Some b ->
  snd b (clock env (state_before env i s0)) (state_before env i s0)
  = (Threw e, s1) ->
  let thrown :=
    failed (fst b) (clock env s1 - clock env (state_before env i s0)) e in
  exists s' report,
    runAllTests env s0 = (Returned tt, s')
    /\ State.logged s' = (State.logged s0 ++ [report])%list
    /\ Report.results report = State.results s'
    /\ Report.totalTests report = 11
    /\ map TestResult.testName (Report.results report)
       = map fst (boundaries env)
    /\ nth_error (Report.results report) i = Some thrown
    /\ ((forall j r, j <> i -> nth_error (Report.results report) j = Some r ->
                     TestResult.success r = true) ->
        Report.failures report = [thrown]
        /\ Report.failedTests report = 1
        /\ Report.passedTests report = 10).
Proof.
  intros Hfresh Hnth Hthrew thrown.
  destruct (runAllTests_spec env s0)
    as [rs [s' [Hrun [Hres [Hnames [Hlog Hfailed]]]]]].
  rewrite Hfresh in Hres, Hlog. cbn [app] in Hres, Hlog.
  exists s'. eexists. split; [exact Hrun|]. split; [exact Hlog|].
  assert (Hlen : List.length rs = 11%nat).
  { rewrite <- (length_map TestResult.testName), Hnames, length_map.
    reflexivity. }
  pose proof (Hfailed i b e s1 Hnth Hthrew) as Hi. fold thrown in Hi.
  cbn [Report.results Report.totalTests Report.failures Report.failedTests
       Report.passedTests generateReport].
  split; [congruence|]. split; [rewrite Hlen; reflexivity|].
  split; [assumption|]. split; [assumption|].
  intros Hothers.
  pose proof (single_failure rs i thrown Hi eq_refl Hothers) as Hone.
  pose proof (filter_length_split TestResult.success rs) as Hsplit.
  rewrite Hone in Hsplit. cbn [List.length] in Hsplit.
  split; [assumption|]. split; lia.
Qed.

(** C2, as the code has it.  The aggregator has no guard for the empty
    result list: there the rate is the quotient 0/0, printed as
    ["NaN%"].  No run reaches that case.  Every call of [runAllTests], on
    a runner that has recorded nothing yet or on one used before, pushes
    the eleven results of its checks before it aggregates, so the report
    it logs counts eleven results more than the runner held, the divisor
    of its rate is at least 11, and on a fresh runner the rate is one of
    twelve percentages, none of which is a division by zero. *)
Theorem run_report_counts_at_least_eleven_results
    (env : Env.t) (s : State.t) :
  (forall now, Report.successRate (generateReport now []) = "NaN%")
  /\ exists s' report,
       runAllTests env s = (Returned tt, s')
       /\ State.logged s' = (State.logged s ++ [report])%list
       /\ Report.totalTests report
          = Z.of_nat (List.length (State.results s)) + 11
       /\ 11 <= Report.totalTests report
       /\ 0 <= Report.passedTests report <= Report.totalTests report
       /\ Report.successRate report
          = JS.toFixed2
              (successRate_number (Report.passedTests report)
                 (Report.totalTests report)) ++ "%"
       /\ (State.results s = [] ->
           Report.totalTests report = 11
           /\ Report.successRate report
              = nth (Z.to_nat (Report.passedTests report)) rates_of_a_run ""
           /\ In (Report.successRate report) rates_of_a_run
           /\ Report.successRate report <> "NaN%").
Proof.
  split; [reflexivity|].
  destruct (runAllTests_spec env s)
    as [rs [s' [Hrun [Hres [Hnames [Hlog _]]]]]].
  exists s'. eexists. split; [exact Hrun|]. split; [exact Hlog|].
  assert (Hlen : List.length rs = 11%nat).
  { rewrite <- (length_map TestResult.testName), Hnames, length_map.
    reflexivity. }
  pose proof (filter_length_split TestResult.success (State.results s ++ rs))
    as Hsplit.
  cbn [Report.totalTests Report.passedTests Report.successRate
       generateReport].
  rewrite length_app, Hlen in *.
  split; [lia|]. split; [lia|]. split; [lia|]. split; [reflexivity|].
  intros Hfresh. rewrite Hfresh in *. cbn [app List.length Nat.add] in *.
  pose proof (filter_length_split TestResult.success rs) as Hrs.
  rewrite Hlen in Hrs.
  set (n := List.length (List.filter TestResult.success rs)) in *.
  assert (Hn : (n <= 11)%nat) by lia. clearbody n. clear - Hn.
  split; [reflexivity|].
  do 12 (destruct n as [|n];
         [vm_compute; repeat split; try discriminate; tauto|]).
  lia.
Qed.

(** A runner used twice: the second report counts the results of both
    runs. *)
Example reused_runner_counts_22 :
  let env := Example.healthy Example.config_flags_on 40 in
  map (fun report => (Report.totalTests report, Report.successRate report))
    (State.logged
       (snd (runAllTests env (snd (runAllTests env State.initial)))))
  = [(11, "100.00%"); (22, "100.00%")].
Proof. vm_compute. reflexivity. Qed.

(** The [catch] of the orchestrator swallows what it catches: whatever
    the steps of a run do, the promise of the run resolves and the entry
    block ends the process with 0; the entry block ends it with another
    code only for a run that throws. *)
Lemma orchestrator_swallows_every_error
    (env : Env.t) (steps : list (M unit)) (s : State.t) :
  run_state env steps s <> Escaped
  /\ fst (entry (runAllTestsWith env steps) s) = 0
  /\ fst (entry (runAllTests env) s) = 0
  /\ forall run : M unit,
       fst (entry run s) <> 0 <-> exists e, fst (run s) = Threw e.
Proof.
  assert (Hcatch : forall e s1,
             exists s2, runAllTests_catch env e s1 = (Returned tt, s2)).
  { intros e s1. unfold runAllTests_catch.
    destruct (total_sendCriticalAlert env "Smoke tests failed to complete"
                e s1) as [[] H].
    destruct (sendCriticalAlert env _ e s1) as [c s2]. cbn in H. subst c.
    exists s2. reflexivity. }
  assert (Hwith : forall steps', exists s2,
             runAllTestsWith env steps' s = (Returned tt, s2)).
  { intros steps'. unfold runAllTestsWith, try_catch.
    destruct ((for_of steps' (fun step => step) ;; report_and_notify env) s)
      as [[[]|e] s1].
    - exists s1. reflexivity.
    - apply Hcatch. }
  split; [|split; [|split]].
  - unfold run_state.
    destruct ((for_of steps (fun step => step) ;; report_and_notify env) s)
      as [[[]|e] s1]; [discriminate|].
    destruct (Hcatch e s1) as [s2 H]. rewrite H. discriminate.
  - destruct (Hwith steps) as [s2 H]. unfold entry. rewrite H. reflexivity.
  - unfold entry. rewrite runAllTests_as_runAllTestsWith.
    destruct (Hwith (probes env)) as [s2 H]. rewrite H. reflexivity.
  - intros run. unfold entry. destruct (run s) as [[[]|e] s1]; cbn.
    + split; [congruence|]. intros [e H]. discriminate.
    + split; [|discriminate]. intros _. exists e. reflexivity.
Qed.


(** The six probes, run as the steps of the orchestrator, are its six
    awaited calls. *)
Lemma for_of_probes (env : Env.t) (k : M unit) (s : State.t) :
  (for_of (probes env) (fun step => step) ;; k) s
  = (testAPIHealth env ;; testSupabaseConnection env ;;
     testQueryCacheStrategy env ;; testRagVectorStrategy env ;;
     testAllStrategies env ;; testPerformance env ;; k) s.
Proof.
  unfold probes, bind. cbn [for_of]. unfold bind, ret.
  repeat match goal with
         | |- context [match ?p env ?st with _ => _ end] =>
             destruct (p env st) as [[[]|?] ?]; try reflexivity
         end.
Qed.

(** The [catch] of the orchestrator is never entered: no probe throws,
    and neither the report nor the alert does. *)
Lemma run_completes (env : Env.t) (s : State.t) :
  run_state env (probes env) s = Completed.
Proof.
  unfold run_state. rewrite for_of_probes, probes_are_the_checks.
  destruct (checks_spec env (boundaries env) (boundaries_well_behaved env) s)
    as [rs [s1 [Hrun _]]].
  destruct (report_and_notify_spec env s1) as [s2 [Hrep _]].
  unfold bind. rewrite Hrun, Hrep. reflexivity.
Qed.

(** C4.  The exit code of the process is 0 on every run that completes,
    whatever its probes recorded, and every run that starts completes:
    it logs the report of its eleven results, and the [catch] of the
    orchestrator is never entered.  The exit code is other than 0, and
    is 1, only when the process fails before any probe: when an
    exception escapes the loading of the modules, which is thrown by
    [parseEnv] on an environment the schema rejects and by the
    constructor of the Supabase client.  No exchange has been made
    then. *)
Theorem exit_code_is_zero_unless_module_load_fails (p : Process.t) :
  match load p with
  | Returned config =>
      let env := world_of p config in
      exists s' report,
        runAllTests env State.initial = (Returned tt, s')
        /\ smoke p = (0, s')
        /\ run_state env (probes env) State.initial = Completed
        /\ State.logged s' = [report]
        /\ Report.totalTests report = 11
        /\ Report.failedTests report
           = Z.of_nat
               (List.length
                  (List.filter (fun r => negb (TestResult.success r))
                     (State.results s')))
  | Threw error =>
      smoke p = (1, State.initial)
      /\ (parseEnv p
          = Threw (ThrownError "Failed to parse environment variables"
                     (Process.stack p))
          \/ exists config,
               parseEnv p = Returned config
               /\ Process.createClient p (ParsedEnv.SUPABASE_URL config)
                    (ParsedEnv.SUPABASE_SERVICE_ROLE_KEY config)
                  = Some error)
  end
  /\ (fst (smoke p) = 0 <-> exists config, load p = Returned config)
  /\ (fst (smoke p) <> 0 <-> exists error, load p = Threw error).
Proof.
  unfold smoke. destruct (load p) as [config | error] eqn:Hload.
  - destruct (runAllTests_spec (world_of p config) State.initial)
      as [rs [s' [Hrun [Hres [Hnames [Hlog _]]]]]].
    cbn [State.results State.logged State.initial app] in Hres, Hlog.
    assert (Hlen : List.length rs = 11%nat).
    { rewrite <- (length_map TestResult.testName), Hnames, length_map.
      reflexivity. }
    unfold main, entry. rewrite Hrun. cbn [fst].
    split; [|split].
    + cbv zeta. exists s'. eexists. split; [reflexivity|].
      split; [reflexivity|]. split; [apply run_completes|].
      split; [exact Hlog|].
      cbn [Report.totalTests Report.failedTests generateReport].
      rewrite Hlen. split; [reflexivity|]. rewrite Hres.
      pose proof (filter_length_split TestResult.success rs) as Hsplit.
      lia.
    + split; [exists config; reflexivity | reflexivity].
    + split; [intros H; contradiction H; reflexivity|].
      intros [e He]. discriminate.
  - cbn [fst]. split; [|split].
    + split; [reflexivity|]. unfold load in Hload.
      unfold parseEnv in *. destruct (envSchema_parse p) as [config|].
      * right. exists config. split; [reflexivity|].
        unfold SupabaseService_constructor in Hload.
        destruct (Process.createClient p _ _) as [e|]; congruence.
      * left. reflexivity.
    + split; [discriminate|]. intros [c Hc]. discriminate.
    + split; [exists error; reflexivity | discriminate].
Qed.

(** The process of [.env.example] ends with 0, also in a world in which
    probes fail; a process whose environment the schema rejects, or
    whose Supabase client cannot be constructed, ends with 1 and makes
    no exchange. *)
Example smoke_on_known_processes :
  fst (smoke Launch.documented) = 0
  /\ (fst (smoke Launch.with_store_down),
      map (fun r => (Report.totalTests r, Report.failedTests r))
        (State.logged (snd (smoke Launch.with_store_down))))
     = (0, [(11, 1)])
  /\ smoke Launch.without_urls = (1, State.initial)
  /\ smoke Launch.with_empty_webhook = (1, State.initial)
  /\ smoke Launch.with_client_refusing = (1, State.initial).
Proof. vm_compute. repeat split. Qed.

Lemma key_without_value {A B} (object : option (A -> B)) :
  Zod.key object None = None.
Proof. destruct object; reflexivity. Qed.

Lemma key_without_object {A B} (object : option (A -> B)) (parsed : option A) :
  object = None -> Zod.key object parsed = None.
Proof. intros ->. reflexivity. Qed.

(** An environment without one of the four variables the schema
    requires ends the process with 1. *)
Lemma missing_variable_ends_with_1 (p : Process.t) :
  Process.env p "SUPABASE_URL" = None
  \/ Process.env p "SUPABASE_ANON_KEY" = None
  \/ Process.env p "SUPABASE_SERVICE_ROLE_KEY" = None
  \/ Process.env p "PULSE_API_BASE_URL" = None ->
  smoke p = (1, State.initial).
Proof.
  intros H.
  assert (Hparse : envSchema_parse p = None).
  { unfold envSchema_parse. cbv zeta.
    destruct H as [H | [H | [H | H]]]; rewrite H;
      repeat first [apply key_without_value | apply key_without_object]. }
  unfold smoke, load, parseEnv. rewrite Hparse. reflexivity.
Qed.

(** ** Single probes *)

Lemma prefix_app (b c : string) : String.prefix b (b ++ c) = true.
Proof.
  induction b as [|x b IH]; cbn.
  - destruct c; reflexivity.
  - destruct (Ascii.ascii_dec x x); [exact IH | contradiction].
Qed.

Lemma includes_app (a b c : string) : JS.includes (a ++ b ++ c) b = true.
Proof.
  induction a as [|x a IH].
  - cbn [String.append]. destruct (b ++ c) eqn:E; cbn [JS.includes];
      rewrite <- E, prefix_app; reflexivity.
  - cbn [String.append JS.includes]. rewrite IH. apply orb_true_r.
Qed.

Lemma append_assoc (a b c : string) : (a ++ b) ++ c = a ++ b ++ c.
Proof.
  induction a as [|x a IH]; cbn; [reflexivity | rewrite IH; reflexivity].
Qed.

Lemma includes_app_later (a b c d e : string) :
  JS.includes (a ++ b ++ c ++ d ++ e) d = true.
Proof.
  rewrite <- (append_assoc b c), <- (append_assoc a (b ++ c)).
  apply includes_app.
Qed.

(** What one round of the performance probe records once the facade has
    answered. *)
Lemma testPerformance_of_answered
    (env : Env.t) (test : string * Z) (s : State.t)
    (response : SearchResponse.t) (s1 : State.t) :
  searchWithStrategy env (fst test) (testPerformance_request env) s
  = (Returned response, s1) ->
  let duration := clock env s1 - clock env s in
  testPerformance_of env test s
  = results_push
      {| TestResult.testName := fst test ++ " Performance";
         TestResult.success :=
           SearchResponse.success response && (duration <=? snd test);
         TestResult.duration := duration;
         TestResult.error :=
           if duration <=? snd test then None
           else Some ("Exceeded expected time: " ++ JS.string_of_Z duration
                      ++ "ms > " ++ JS.string_of_Z (snd test) ++ "ms");
         TestResult.details :=
           Some (DetailsPerformance (snd test) duration
                   (duration <=? snd test)) |}
      s1.
Proof.
  intros H duration.
  unfold testPerformance_of, testPerformance_try, bind, try_catch, Date_now.
  cbn [fst snd]. rewrite H. reflexivity.
Qed.

(** One round of the performance probe whose call is answered with a
    response that reports success: a call measured at exactly the
    expected time is recorded as a success, and a call measured one
    millisecond later as a failure whose error text names both times. *)
Lemma testPerformance_of_bound
    (env : Env.t) (test : string * Z) (s : State.t)
    (response : SearchResponse.t) (s1 : State.t) :
  searchWithStrategy env (fst test) (testPerformance_request env) s
  = (Returned response, s1) ->
  SearchResponse.success response = true ->
  exists r,
    testPerformance_of env test s = results_push r s1
    /\ TestResult.testName r = fst test ++ " Performance"
    /\ TestResult.duration r = clock env s1 - clock env s
    /\ (TestResult.duration r = snd test ->
        TestResult.success r = true /\ TestResult.error r = None)
    /\ (TestResult.duration r = snd test + 1 ->
        TestResult.success r = false
        /\ exists msg,
             TestResult.error r = Some msg
             /\ JS.includes msg (JS.string_of_Z (snd test + 1)) = true
             /\ JS.includes msg (JS.string_of_Z (snd test)) = true).
Proof.
  intros Hcall Hok.
  eexists. split; [apply (testPerformance_of_answered _ _ _ _ _ Hcall)|].
  cbn [TestResult.testName TestResult.duration TestResult.success
       TestResult.error].
  rewrite Hok. cbn [andb].
  set (duration := clock env s1 - clock env s).
  split; [reflexivity|]. split; [reflexivity|]. split.
  - intros ->. rewrite Z.leb_refl. split; reflexivity.
  - intros ->.
    assert (Hlate : (snd test + 1 <=? snd test) = false)
      by (apply Z.leb_gt; lia).
    rewrite Hlate. split; [reflexivity|].
    eexists. split; [reflexivity|]. split.
    + apply includes_app.
    + apply includes_app_later.
Qed.

(** The fixture query of the primary probe is one select and nothing
    else. *)
Lemma getCacheEntriesByPrompt_trace
    (env : Env.t) (prompt : string) (limit : Z) (s : State.t) :
  exists q,
    State.trace (snd (getCacheEntriesByPrompt env prompt limit s))
    = (State.trace s ++ [Select q])%list.
Proof.
  unfold getCacheEntriesByPrompt, try_catch, bind, Date_now, client_select.
  cbn [fst snd]. eexists.
  destruct (Env.select env (exchanges s) _) as [[data|] [error|] | error];
    reflexivity.
Qed.

Lemma find_all_false {A} (f : A -> bool) (l : list A) :
  (forall x, In x l -> f x = false) -> List.find f l = None.
Proof.
  induction l as [|x l IH]; intros H; [reflexivity|].
  cbn. rewrite (H x (or_introl eq_refl)). apply IH.
  intros y Hy. apply H. right. exact Hy.
Qed.

(** What the runner takes for a usable fixture. *)
Lemma valid_entry_iff (now : Z) (entry : QueryCacheEntry.t) :
  valid_entry now entry = true <->
  exists d t,
    option_map QueryCacheEntry.data (QueryCacheEntry.response entry)
    = Some (Some d)
    /\ d <> []
    /\ QueryCacheEntry.expire_at entry = Some t
    /\ now < t.
Proof.
  unfold valid_entry.
  destruct (QueryCacheEntry.response entry) as [[[d|]]|];
    destruct (QueryCacheEntry.expire_at entry) as [t|]; cbn;
    try (split; [discriminate | intros [d' [t' [H1 [H2 [H3 H4]]]]];
                                discriminate]).
  - split.
    + intros H. apply andb_prop in H. destruct H as [Hd Ht].
      exists d, t. repeat split; try lia.
      intros ->. discriminate.
    + intros [d' [t' [H1 [H2 [H3 H4]]]]]. inversion H1; inversion H3; subst.
      apply andb_true_intro. split; [|lia].
      destruct d'; [contradiction | cbn; lia].
  - split; [intros H; apply andb_prop in H; destruct H; discriminate|].
    intros [d' [t' [H1 [H2 [H3 H4]]]]]. discriminate.
Qed.

(** C8.  When the fixture provider hands back no entry that is unexpired
    and has a non-empty recorded result set, the primary strategy probe
    records a failed result whose error says that no valid cache entry
    was found, and the facade is not called: the select on the fixture
    store is the only exchange the probe makes. *)
Theorem testQueryCacheStrategy_without_fixture
    (env : Env.t) (s : State.t) (entries : list QueryCacheEntry.t)
    (s1 : State.t) :
  getCacheEntriesByPrompt env "" 5 s = (Returned entries, s1) ->
  (forall entry, In entry entries ->
                 valid_entry (clock env s1) entry = false) ->
  exists r s' q,
    testQueryCacheStrategy env s = (Returned tt, s')
    /\ State.results s' = (State.results s ++ [r])%list
    /\ TestResult.testName r = "Query Cache Strategy"
    /\ TestResult.success r = false
    /\ TestResult.error r = Some "No valid cache entries found for testing"
    /\ State.trace s' = (State.trace s ++ [Select q])%list
    /\ forall url body, ~ In (HttpPost url body) [Select q].
Proof.
  intros Hfetch Hnone.
  destruct (getCacheEntriesByPrompt_trace env "" 5 s) as [q Hq].
  destruct (silent_getCacheEntriesByPrompt env "" 5 s) as [Hr _].
  rewrite Hfetch in Hq, Hr. cbn [snd] in Hq, Hr.
  eexists. eexists. exists q.
  unfold testQueryCacheStrategy, testQueryCacheStrategy_try, bind, try_catch,
    Date_now.
  cbn [fst snd]. rewrite Hfetch. fold (clock env s1).
  rewrite (find_all_false _ _ Hnone).
  split; [reflexivity|]. cbn.
  rewrite Hr. repeat split; auto.
  intros url body [H|[]]. discriminate.
Qed.

(** C9, as the code has it.  For a facade response that reports success,
    carries no data and no error text, the vector probe writes
    ["No data returned"] into the [error] of the result it records, and
    leaves [success] as the response has it, [true]: the result counts
    among the passed ones and is no failure of a report. *)
Theorem testRagVectorStrategy_empty_data_passes
    (env : Env.t) (s : State.t) (cacheEntry : option QueryCacheEntry.t)
    (s1 : State.t) (response : SearchResponse.t) (s2 : State.t) :
  getRecentCacheEntry env (Some (testRagVectorStrategy_options env)) s
  = (Returned cacheEntry, s1) ->
  testRagVector env (testRagVectorStrategy_request env cacheEntry) s1
  = (Returned response, s2) ->
  SearchResponse.success response = true ->
  SearchResponse.data response = [] ->
  JS.truthy (SearchResponse.error response) = false ->
  exists r,
    testRagVectorStrategy env s = results_push r s2
    /\ TestResult.testName r = "RAG Vector Strategy"
    /\ TestResult.success r = true
    /\ TestResult.error r = Some "No data returned"
    /\ forall now,
         Report.failures (generateReport now [r]) = []
         /\ Report.hasFailures (generateReport now [r]) = false
         /\ Report.passedTests (generateReport now [r]) = 1.
Proof.
  intros Hentry Hcall Hok Hdata Herr.
  eexists.
  unfold testRagVectorStrategy, testRagVectorStrategy_try, bind, try_catch,
    Date_now.
  cbn [fst snd]. rewrite Hentry, Hcall. split; [reflexivity|].
  cbn [TestResult.testName TestResult.success TestResult.error].
  unfold JS.or. rewrite Hok, Hdata, Herr. cbn [List.length Z.of_nat Z.eqb].
  repeat split.
Qed.


(** C1, on a run: the store fails under the connectivity probe, the
    second of the eleven checks, and the ten others pass. *)
Lemma runAllTests_isolates_a_throwing_probe_witness :
  exists b e s1,
    nth_error (boundaries Example.store_down) 1 = Some b
    /\ snd b (clock Example.store_down
               (state_before Example.store_down 1 State.initial))
             (state_before Example.store_down 1 State.initial)
       = (Threw e, s1)
    /\ fst b = "Supabase Connection"
    /\ e = ThrownError "fetch failed" "TypeError: fetch failed"
    /\ exists s' report,
         runAllTests Example.store_down State.initial = (Returned tt, s')
         /\ State.logged s' = [report]
         /\ Report.totalTests report = 11
         /\ nth_error (Report.results report) 1
            = Some (failed "Supabase Connection" 40 e)
         /\ Report.failures report = [failed "Supabase Connection" 40 e]
         /\ Report.failedTests report = 1
         /\ Report.passedTests report = 10.
Proof.
  do 3 eexists.
  split; [reflexivity|]. split; [reflexivity|].
  split; [reflexivity|]. split; [reflexivity|].
  destruct (runAllTests_isolates_a_throwing_probe
              Example.store_down State.initial 1 _ _ _
              eq_refl eq_refl eq_refl)
    as [s' [report [Hrun [Hlog [Hres [Htotal [Hnames [Hi Hone]]]]]]]].
  exists s', report.
  split; [exact Hrun|]. split; [exact Hlog|]. split; [exact Htotal|].
  split; [exact Hi|].
  apply Hone.
  assert (Hs : State.results s'
               = State.results
                   (snd (runAllTests Example.store_down State.initial)))
    by (rewrite Hrun; reflexivity).
  rewrite Hres, Hs. clear.
  intros j r Hne Hj.
  do 11 (destruct j as [|j];
         [try congruence; vm_compute in Hj; inversion Hj; reflexivity|]).
  vm_compute in Hj. destruct j; discriminate.
Defined.

(** C3, on a run: the API does not answer in time. *)
Lemma searchWithStrategy_normalizes_failure_witness :
  exists response s',
    searchWithStrategy Example.api_timeout "rag_vector"
      (testPerformance_request Example.api_timeout) State.initial
    = (Returned response, s')
    /\ SearchResponse.success response = false
    /\ SearchResponse.data response = []
    /\ SearchResponse.source response = "rag_vector"
    /\ SearchResponse.strategy response = "rag_vector"
    /\ SearchResponse.error response = Some "timeout of 30000ms exceeded"
    /\ option_map Timing.total_ms (SearchResponse.timing response) = Some 0.
Proof.
  destruct (searchWithStrategy_normalizes_failure Example.api_timeout
              "rag_vector" (testPerformance_request Example.api_timeout)
              State.initial (failed_transport _))
    as [response [s' [msg [Hrun [H1 [H2 [H3 [H4 [H5 [H6 H7]]]]]]]]]].
  cbn in H6. subst msg. exists response, s'.
  repeat (split; [assumption|]). assumption.
Defined.

(** C6, on two calls one exchange apart on the results of a runner that
    has recorded nothing yet. *)
Lemma generateReport_pure_but_for_timestamp_witness :
  let env := Example.healthy Example.config_flags_off 40 in
  let s1 := State.initial in
  let s2 := traced (HttpGet "/health" 5000) State.initial in
  exists r1 r2,
    this_generateReport env s1 = (Returned r1, s1)
    /\ this_generateReport env s2 = (Returned r2, s2)
    /\ Report.results r1 = []
    /\ Report.timestamp r2 = "2023-11-14T22:13:20.040Z"
    /\ r2 = restamped "2023-11-14T22:13:20.040Z" r1.
Proof.
  cbv zeta.
  destruct (generateReport_pure_but_for_timestamp
              (Example.healthy Example.config_flags_off 40)
              State.initial (traced (HttpGet "/health" 5000) State.initial)
              eq_refl)
    as [r1 [r2 [H1 [H2 [H3 [H4 [H5 _]]]]]]].
  exists r1, r2.
  split; [exact H1|]. split; [exact H2|]. split; [exact H3|].
  assert (Hstamp : Report.timestamp r2 = "2023-11-14T22:13:20.040Z")
    by (rewrite H4; reflexivity).
  split; [exact Hstamp|]. rewrite <- Hstamp. exact H5.
Defined.

(** C8, on a run: the store holds an expired entry and an entry without
    recorded results. *)
Lemma testQueryCacheStrategy_without_fixture_witness :
  exists r s' q,
    testQueryCacheStrategy Example.no_fixture State.initial = (Returned tt, s')
    /\ State.results s' = [r]
    /\ TestResult.testName r = "Query Cache Strategy"
    /\ TestResult.success r = false
    /\ TestResult.error r = Some "No valid cache entries found for testing"
    /\ State.trace s' = [Select q]
    /\ forall url body, ~ In (HttpPost url body) [Select q].
Proof.
  apply (testQueryCacheStrategy_without_fixture Example.no_fixture
           State.initial [Example.fixture_expired; Example.fixture_empty]
           _ eq_refl).
  intros entry [<- | [<- | []]]; reflexivity.
Defined.

(** C9, on a run: the vector strategy answers with success and no data. *)
Lemma testRagVectorStrategy_empty_data_passes_witness :
  exists r,
    testRagVectorStrategy Example.vector_empty State.initial
    = results_push r
        (snd (testRagVector Example.vector_empty
                (testRagVectorStrategy_request Example.vector_empty
                   (Some Example.fixture))
                (snd (getRecentCacheEntry Example.vector_empty
                        (Some (testRagVectorStrategy_options
                                 Example.vector_empty))
                        State.initial))))
    /\ TestResult.testName r = "RAG Vector Strategy"
    /\ TestResult.success r = true
    /\ TestResult.error r = Some "No data returned"
    /\ forall now,
         Report.failures (generateReport now [r]) = []
         /\ Report.hasFailures (generateReport now [r]) = false
         /\ Report.passedTests (generateReport now [r]) = 1.
Proof.
  apply (testRagVectorStrategy_empty_data_passes Example.vector_empty
           State.initial (Some Example.fixture) _ (Example.found []) _
           eq_refl eq_refl eq_refl eq_refl eq_refl).
Defined.

(** ** Where the design document and the code part *)

(** C2 as stated fails on the aggregator: on the empty result list the
    rate is the quotient 0/0, which is not a number, is not equal to 0,
    and is printed into the report. *)
Lemma generateReport_of_no_results_has_rate_NaN :
  Report.totalTests (generateReport 0 []) = 0
  /\ Report.successRate (generateReport 0 []) = "NaN%"
  /\ PrimFloat.is_nan (successRate_number 0 0) = true
  /\ PrimFloat.eqb (successRate_number 0 0) 0%float = false
  /\ ~ zero_rate_as_stated (generateReport 0 []).
Proof.
  repeat split.
  intros H. specialize (H eq_refl). vm_compute in H. discriminate.
Qed.

(** C3 as stated fails: the search API cannot be reached and the error
    of the transport has no message text; the facade answers, and the
    [error] of its response is the empty string. *)
Lemma transport_failure_without_message_gives_empty_error :
  let env := Scenario.api_unreachable in
  let request := testPerformance_request env in
  failed_exchange
    (Env.post env (exchanges State.initial) "/api/search/rag_vector" request)
  /\ (exists response,
        fst (searchWithStrategy env "rag_vector" request State.initial)
        = Returned response
        /\ SearchResponse.success response = false
        /\ SearchResponse.error response = Some "")
  /\ ~ error_text_as_stated env "rag_vector" request State.initial.
Proof.
  cbv zeta. split; [apply failed_transport|]. split.
  - eexists. split; [reflexivity|]. split; reflexivity.
  - intros H. destruct (H (failed_transport _))
      as [response [msg [Hrun [Herror Hmsg]]]].
    vm_compute in Hrun. inversion Hrun; subst response.
    cbn in Herror. inversion Herror. congruence.
Qed.

(** C5 as stated fails: with the two webhooks configured and the two
    flags off, a critical alert reaches no channel; an aborted run makes
    no exchange at all. *)
Lemma critical_alert_with_flags_off_reaches_nobody :
  let env := Example.healthy Example.config_flags_off 40 in
  let error := ThrownError "Cannot construct request" "Error: at runAllTests" in
  sendCriticalAlert env "Smoke tests failed to complete" error State.initial
  = (Returned tt, State.initial)
  /\ alerted State.initial
       (snd (sendCriticalAlert env "Smoke tests failed to complete" error
               State.initial)) = []
  /\ State.trace
       (snd (entry (runAllTestsWith env [Example.fatal]) State.initial)) = []
  /\ ~ critical_alert_as_stated env "Smoke tests failed to complete" error
         State.initial.
Proof.
  cbv zeta. repeat split.
  intros H. vm_compute in H. discriminate.
Qed.

(** C6 as stated fails: two calls of the aggregator on the same (empty)
    result list of one runner, one exchange apart, give reports that
    differ, in their [timestamp]. *)
Lemma generateReport_twice_differs :
  let env := Example.healthy Example.config_flags_off 40 in
  let s1 := State.initial in
  let s2 := traced (HttpGet "/health" 5000) State.initial in
  State.results s1 = State.results s2
  /\ Report.timestamp (generateReport (clock env s1) [])
     = "2023-11-14T22:13:20.000Z"
  /\ Report.timestamp (generateReport (clock env s2) [])
     = "2023-11-14T22:13:20.040Z"
  /\ generateReport (clock env s1) [] <> generateReport (clock env s2) []
  /\ ~ idempotent_as_stated env s1 s2.
Proof.
  cbv zeta. split; [reflexivity|]. split; [reflexivity|].
  split; [reflexivity|]. split.
  - intros H. vm_compute in H. discriminate.
  - intros H. specialize (H eq_refl). vm_compute in H. discriminate.
Qed.

(** C9 as stated fails: in a run whose vector strategy answers with
    success and no data, the result of the vector probe is recorded with
    [success] true; the report counts eleven passed checks and no
    failure, and no alert is sent although both channels are on. *)
Lemma empty_vector_data_is_recorded_as_passed :
  let s' := snd (entry (runAllTests Example.vector_empty) State.initial) in
  option_map (fun r => (TestResult.testName r, TestResult.success r,
                        TestResult.error r))
    (nth_error (State.results s') 3)
  = Some ("RAG Vector Strategy", true, Some "No data returned")
  /\ map (fun report => (Report.passedTests report, Report.failedTests report,
                         Report.hasFailures report,
                         List.length (Report.failures report)))
       (State.logged s')
     = [(11, 0, false, 0%nat)]
  /\ alerted State.initial s' = []
  /\ ~ empty_data_fails_as_stated (Example.found [])
         (nth_error (State.results s') 3).
Proof.
  cbv zeta. repeat split.
  intros H. specialize (H eq_refl eq_refl). vm_compute in H. discriminate.
Qed.

(* ================================================================== *)
(** * Further properties of the code                                  *)
(* ================================================================== *)

(** ** The facade, case by case *)

(** [searchWithStrategy] makes one post, to the endpoint of the strategy
    and with the request as it was given, and what it answers is decided
    by what comes back. *)
Lemma searchWithStrategy_spec
    (env : Env.t) (strategy : string) (request : SearchRequest.t)
    (s : State.t) :
  let url := "/api/search/" ++ strategy in
  let s1 := traced (HttpPost url request) s in
  let stamp := JS.toISOString (clock env s1) in
  searchWithStrategy env strategy request s
  = match Env.post env (exchanges s) url request with
    | Replied status body =>
        if validateStatus status then (Returned body, s1)
        else (Returned
                (normalized strategy stamp
                   (JS.or (SearchResponse.error body)
                      (Some ("Request failed with status code "
                             ++ JS.string_of_Z status)))),
              s1)
    | NoReply message =>
        (Returned (normalized strategy stamp (Some message)), s1)
    | Broken error =>
        if Caught.isAxiosError error
        then (Returned
                (normalized strategy stamp
                   (JS.or (Caught.response_data_error error)
                      (Caught.message error))),
              s1)
        else (Threw error, s1)
    end.
Proof.
  cbv zeta.
  unfold searchWithStrategy, try_catch, bind, client_post, Date_now, ret,
    throw, normalized, clock.
  cbn [fst snd].
  destruct (Env.post env (exchanges s) ("/api/search/" ++ strategy) request)
    as [status body | message | error]; cbn [settle].
  - destruct (validateStatus status); [reflexivity|].
    cbn [Caught.isAxiosError Caught.response_data_error Caught.message
         AxiosError.response AxiosError.data_error AxiosError.message].
    rewrite Z.sub_diag. reflexivity.
  - cbn [Caught.isAxiosError Caught.response_data_error Caught.message
         AxiosError.response AxiosError.data_error AxiosError.message].
    rewrite Z.sub_diag. reflexivity.
  - destruct (Caught.isAxiosError error); [|reflexivity].
    rewrite Z.sub_diag. reflexivity.
Qed.

(** Whatever comes back, [searchWithStrategy] makes exactly one exchange:
    a post to [/api/search/<strategy>] that carries the request
    unchanged; it touches neither the results nor the log. *)
Lemma searchWithStrategy_state
    (env : Env.t) (strategy : string) (request : SearchRequest.t)
    (s : State.t) :
  snd (searchWithStrategy env strategy request s)
  = traced (HttpPost ("/api/search/" ++ strategy) request) s.
Proof.
  pose proof (searchWithStrategy_spec env strategy request s) as H.
  cbv zeta in H. rewrite H.
  destruct (Env.post env (exchanges s) ("/api/search/" ++ strategy) request)
    as [status body | message | error].
  - destruct (validateStatus status); reflexivity.
  - reflexivity.
  - destruct (Caught.isAxiosError error); reflexivity.
Qed.

(** X1.  A reply with a status in 200..299 is handed to the caller as it
    came: the body is returned unchanged, also when the body itself
    reports [success] false. *)
Theorem searchWithStrategy_returns_a_2xx_body_verbatim
    (env : Env.t) (strategy : string) (request : SearchRequest.t)
    (s : State.t) (status : Z) (body : SearchResponse.t) :
  Env.post env (exchanges s) ("/api/search/" ++ strategy) request
  = Replied status body ->
  200 <= status < 300 ->
  fst (searchWithStrategy env strategy request s) = Returned body.
Proof.
  intros Hreply Hstatus.
  pose proof (searchWithStrategy_spec env strategy request s) as H.
  cbv zeta in H. rewrite H, Hreply.
  assert (Hv : validateStatus status = true).
  { unfold validateStatus. apply andb_true_intro.
    split; [apply Z.leb_le | apply Z.ltb_lt]; lia. }
  rewrite Hv. reflexivity.
Qed.

Lemma searchWithStrategy_returns_a_2xx_body_verbatim_witness :
  fst (searchWithStrategy Scenario.store_empty "rag_hybrid"
         (testAllStrategies_request Scenario.store_empty) State.initial)
  = Returned (Example.found ["r1"]).
Proof.
  apply (searchWithStrategy_returns_a_2xx_body_verbatim
           Scenario.store_empty "rag_hybrid"
           (testAllStrategies_request Scenario.store_empty) State.initial
           200 (Example.found ["r1"]) eq_refl).
  lia.
Defined.

(** X2.  What the client throws that is no axios error is thrown on to
    the caller as it is: the facade normalizes axios failures only. *)
Theorem searchWithStrategy_rethrows_other_errors
    (env : Env.t) (strategy : string) (request : SearchRequest.t)
    (s : State.t) (error : Thrown) :
  Env.post env (exchanges s) ("/api/search/" ++ strategy) request
  = Broken error ->
  Caught.isAxiosError error = false ->
  fst (searchWithStrategy env strategy request s) = Threw error.
Proof.
  intros Hbroken Hother.
  pose proof (searchWithStrategy_spec env strategy request s) as H.
  cbv zeta in H. rewrite H, Hbroken, Hother. reflexivity.
Qed.

Lemma searchWithStrategy_rethrows_other_errors_witness :
  fst (searchWithStrategy Scenario.client_broken "query_cache"
         (testPerformance_request Scenario.client_broken) State.initial)
  = Threw (ThrownError "Converting circular structure to JSON"
             "TypeError: at JSON.stringify").
Proof.
  apply (searchWithStrategy_rethrows_other_errors
           Scenario.client_broken "query_cache"
           (testPerformance_request Scenario.client_broken) State.initial
           _ eq_refl eq_refl).
Defined.

(** X3.  On a reply with a status outside 200..299 the [error] of the
    normalized response is the error text of the reply's body when the
    body has one that is not empty, and axios' message
    ["Request failed with status code <status>"] otherwise. *)
Theorem searchWithStrategy_prefers_the_server_error
    (env : Env.t) (strategy : string) (request : SearchRequest.t)
    (s : State.t) (status : Z) (body : SearchResponse.t) :
  Env.post env (exchanges s) ("/api/search/" ++ strategy) request
  = Replied status body ->
  validateStatus status = false ->
  exists response,
    fst (searchWithStrategy env strategy request s) = Returned response
    /\ SearchResponse.success response = false
    /\ SearchResponse.error response
       = match SearchResponse.error body with
         | Some text =>
             if (text =? "")%string
             then Some ("Request failed with status code "
                        ++ JS.string_of_Z status)
             else Some text
         | None =>
             Some ("Request failed with status code "
                   ++ JS.string_of_Z status)
         end.
Proof.
  intros Hreply Hstatus.
  pose proof (searchWithStrategy_spec env strategy request s) as H.
  cbv zeta in H. rewrite H, Hreply, Hstatus.
  eexists. split; [reflexivity|]. split; [reflexivity|].
  cbn [normalized SearchResponse.error]. unfold JS.or, JS.truthy.
  destruct (SearchResponse.error body) as [text|]; [|reflexivity].
  destruct (text =? "")%string; reflexivity.
Qed.

Lemma searchWithStrategy_prefers_the_server_error_witness :
  exists response,
    fst (searchWithStrategy Scenario.api_unavailable "rag_cache"
           (testPerformance_request Scenario.api_unavailable) State.initial)
    = Returned response
    /\ SearchResponse.success response = false
    /\ SearchResponse.error response = Some "index is rebuilding".
Proof.
  apply (searchWithStrategy_prefers_the_server_error
           Scenario.api_unavailable "rag_cache"
           (testPerformance_request Scenario.api_unavailable) State.initial
           503 _ eq_refl eq_refl).
Defined.

(** ** The fixture provider *)

Lemma eq_filter_nonempty column options f col v :
  In (col, v) (eq_filter column options f) -> col = column /\ v <> "".
Proof.
  unfold eq_filter. destruct options as [o|]; [|intros []].
  destruct (f o) as [x|]; [|intros []].
  unfold JS.truthy. destruct (String.eqb_spec x ""); cbn; [intros []|].
  intros [H|[]]. inversion H. subst. auto.
Qed.

(** X4.  [getRecentCacheEntry] makes one select on [query_cache], limited
    to one row, in which no filter compares a column with the empty
    string.  An error object in the answer is thrown as it is, whatever
    data comes with it; without error, no data and an empty list give
    [null], and of a longer list the first row is returned. *)
Theorem getRecentCacheEntry_outcome
    (env : Env.t) (options : option Options.t) (s : State.t) :
  exists q,
    snd (getRecentCacheEntry env options s) = traced (Select q) s
    /\ SupabaseQuery.from q = "query_cache"
    /\ SupabaseQuery.limit q = 1
    /\ SupabaseQuery.gte_expire_at q = JS.toISOString (clock env s)
    /\ (forall column value,
          In (column, value) (SupabaseQuery.eq q) -> value <> "")
    /\ fst (getRecentCacheEntry env options s)
       = match Env.select env (exchanges s) q with
         | SupabaseResult _ (Some error) => Threw error
         | SupabaseResult (Some (first :: _)) None => Returned (Some first)
         | SupabaseResult _ None => Returned None
         | SupabaseThrows error => Threw error
         end.
Proof.
  unfold getRecentCacheEntry, try_catch, bind, Date_now, client_select, clock.
  cbn [fst snd]. eexists.
  split.
  { destruct (Env.select env (exchanges s) _)
      as [[[|first rest]|] [error|] | error]; reflexivity. }
  do 3 (split; [reflexivity|]). split.
  - cbn [SupabaseQuery.eq]. intros column value Hin.
    repeat (apply in_app_or in Hin; destruct Hin as [Hin|Hin]);
      apply eq_filter_nonempty in Hin; tauto.
  - destruct (Env.select env (exchanges s) _)
      as [[[|first rest]|] [error|] | error]; reflexivity.
Qed.

(** X5.  [getCacheEntriesByPrompt] makes one select on [query_cache] for
    the prompts that contain the given text, with the limit it was given
    (with the empty text the pattern is [%%], which every prompt
    matches).  An error object in the answer is thrown as it is; without
    error the rows are returned in the order of the answer, and no data
    counts as no rows. *)
Theorem getCacheEntriesByPrompt_outcome
    (env : Env.t) (prompt : string) (limit : Z) (s : State.t) :
  exists q,
    snd (getCacheEntriesByPrompt env prompt limit s) = traced (Select q) s
    /\ SupabaseQuery.from q = "query_cache"
    /\ SupabaseQuery.ilike_prompt q = Some ("%" ++ prompt ++ "%")
    /\ SupabaseQuery.limit q = limit
    /\ SupabaseQuery.eq q = []
    /\ fst (getCacheEntriesByPrompt env prompt limit s)
       = match Env.select env (exchanges s) q with
         | SupabaseResult _ (Some error) => Threw error
         | SupabaseResult (Some rows) None => Returned rows
         | SupabaseResult None None => Returned []
         | SupabaseThrows error => Threw error
         end.
Proof.
  unfold getCacheEntriesByPrompt, try_catch, bind, Date_now, client_select.
  cbn [fst snd]. eexists.
  split.
  { destruct (Env.select env (exchanges s) _) as [[rows|] [error|] | error];
      reflexivity. }
  do 4 (split; [reflexivity|]).
  destruct (Env.select env (exchanges s) _) as [[rows|] [error|] | error];
    reflexivity.
Qed.

(** ** The notification channels *)

Lemma slack_gate (c : Config.t) :
  negb (Config.ENABLE_SLACK_NOTIFICATIONS c)
  || negb (JS.truthy (Config.SLACK_WEBHOOK_URL c))
  = negb (slack_on c).
Proof.
  unfold slack_on.
  destruct (Config.ENABLE_SLACK_NOTIFICATIONS c), (JS.truthy _); reflexivity.
Qed.

Lemma discord_gate (c : Config.t) :
  negb (Config.ENABLE_DISCORD_NOTIFICATIONS c)
  || negb (JS.truthy (Config.DISCORD_WEBHOOK_URL c))
  = negb (discord_on c).
Proof.
  unfold discord_on.
  destruct (Config.ENABLE_DISCORD_NOTIFICATIONS c), (JS.truthy _);
    reflexivity.
Qed.

(** X6.  [sendSlackNotification] never throws.  With the flag on and the
    webhook set it makes one post to the webhook, whose text is the
    message and whose attachment has one field a key of [details], in
    their order, also for a value that is [undefined]; whether the
    webhook accepts the post or not changes nothing for the caller.  With
    the flag off or the webhook unset it makes no exchange. *)
Theorem sendSlackNotification_outcome
    (env : Env.t) (message : string) (details : option Details_object)
    (s : State.t) :
  sendSlackNotification env message details s
  = (Returned tt,
     if slack_on (Env.config env)
     then traced
            (WebhookPost
               (JS.or_default (Config.SLACK_WEBHOOK_URL (Env.config env)) "")
               (SlackBody
                  {| Slack.text := message;
                     Slack.attachments := option_map slack_fields details |}))
            s
     else s)
  /\ option_map (map Slack.title) (option_map slack_fields details)
     = option_map (map fst) details.
Proof.
  split.
  - unfold sendSlackNotification. rewrite slack_gate.
    destruct (slack_on (Env.config env)); cbn [negb]; [|reflexivity].
    unfold try_catch, axios_post_webhook, ret.
    destruct (Env.webhook env (exchanges s) _ _); reflexivity.
  - destruct details as [d|]; [|reflexivity]. cbn [option_map]. f_equal.
    unfold slack_fields. rewrite map_map. reflexivity.
Qed.

(** Reading the values of [details] for Discord goes through when all of
    them are defined, and throws a [TypeError] at the first that is
    not; it makes no exchange. *)
Lemma discord_fields_spec (env : Env.t) (details : Details_object)
    (s : State.t) :
  snd (discord_fields env details s) = s
  /\ if forallb (fun entry => is_defined (snd entry)) details
     then exists fields,
            fst (discord_fields env details s) = Returned fields
            /\ map Discord.name fields = map fst details
     else exists error, fst (discord_fields env details s) = Threw error.
Proof.
  induction details as [|[key value] rest IH]; cbn [discord_fields forallb].
  - split; [reflexivity|]. exists []. split; reflexivity.
  - destruct value; cbn [JSON_stringify is_defined snd andb].
    + split; [reflexivity|]. eexists. reflexivity.
    + unfold bind. destruct IH as [Hs IH].
      destruct (discord_fields env rest s) as [[fields|e] s1].
      * cbn [snd] in *. split; [assumption|].
        destruct (forallb _ rest).
        -- destruct IH as [fields' [H1 H2]]. inversion H1; subst.
           eexists. split; [reflexivity|]. cbn. f_equal. assumption.
        -- destruct IH as [e H]. discriminate.
      * cbn [snd] in *. split; [assumption|].
        destruct (forallb _ rest).
        -- destruct IH as [fields' [H1 H2]]. discriminate.
        -- exists e. reflexivity.
    + unfold bind. destruct IH as [Hs IH].
      destruct (discord_fields env rest s) as [[fields|e] s1].
      * cbn [snd] in *. split; [assumption|].
        destruct (forallb _ rest).
        -- destruct IH as [fields' [H1 H2]]. inversion H1; subst.
           eexists. split; [reflexivity|]. cbn. f_equal. assumption.
        -- destruct IH as [e H]. discriminate.
      * cbn [snd] in *. split; [assumption|].
        destruct (forallb _ rest).
        -- destruct IH as [fields' [H1 H2]]. discriminate.
        -- exists e. reflexivity.
Qed.

(** X7.  [sendDiscordNotification] never throws.  With the flag on and
    the webhook set, it posts to Discord exactly when no value of
    [details] is [undefined]; one undefined value makes the building of
    the embed fail, the failure is swallowed, and no exchange is made at
    all. *)
Theorem sendDiscordNotification_needs_defined_details
    (env : Env.t) (message : string) (details : Details_object)
    (s : State.t) :
  discord_on (Env.config env) = true ->
  fst (sendDiscordNotification env message (Some details) s) = Returned tt
  /\ alerted s (snd (sendDiscordNotification env message (Some details) s))
     = (if forallb (fun entry => is_defined (snd entry)) details
        then [DiscordChannel] else [])
  /\ (forallb (fun entry => is_defined (snd entry)) details = false ->
      snd (sendDiscordNotification env message (Some details) s) = s).
Proof.
  intros Hon. unfold sendDiscordNotification. rewrite discord_gate, Hon.
  cbn [negb]. unfold try_catch, bind, ret, axios_post_webhook.
  destruct (discord_fields_spec env details s) as [Hs Hfields].
  destruct (discord_fields env details s) as [[fields|e] s1].
  - cbn [snd] in Hs. subst s1.
    destruct (forallb _ details).
    + destruct (Env.webhook env (exchanges s) _ _); cbn [fst snd];
        (split; [reflexivity|]); (split; [|discriminate]);
        unfold alerted, traced; cbn [State.trace];
        rewrite skipn_length_app; reflexivity.
    + destruct Hfields as [e H]. discriminate.
  - cbn [snd] in Hs. subst s1. cbn [fst snd].
    destruct (forallb _ details).
    + destruct Hfields as [fields [H _]]. discriminate.
    + split; [reflexivity|]. split; [|reflexivity].
      unfold alerted. rewrite skipn_all. reflexivity.
Qed.

Lemma sendDiscordNotification_needs_defined_details_witness :
  let details : Details_object :=
    [ ("error", JsString "Unknown error"); ("stack", JsUndefined);
      ("timestamp", JsString "2023-11-14T22:13:20.000Z") ] in
  fst (sendDiscordNotification Scenario.store_empty "alert" (Some details)
         State.initial) = Returned tt
  /\ alerted State.initial
       (snd (sendDiscordNotification Scenario.store_empty "alert"
               (Some details) State.initial)) = []
  /\ snd (sendDiscordNotification Scenario.store_empty "alert"
            (Some details) State.initial) = State.initial.
Proof.
  cbv zeta.
  destruct (sendDiscordNotification_needs_defined_details
              Scenario.store_empty "alert"
              [ ("error", JsString "Unknown error"); ("stack", JsUndefined);
                ("timestamp", JsString "2023-11-14T22:13:20.000Z") ]
              State.initial eq_refl)
    as [H1 [H2 H3]].
  split; [exact H1|]. split; [exact H2|]. exact (H3 eq_refl).
Defined.

(** ** The report *)

Lemma no_failure_iff (l : list TestResult.t) :
  (List.length (List.filter (fun r => negb (TestResult.success r)) l)
   =? 0)%nat
  = forallb TestResult.success l.
Proof.
  induction l as [|x l IH]; [reflexivity|].
  cbn. destruct (TestResult.success x); cbn; [exact IH | reflexivity].
Qed.

Lemma hasFailures_spec (now : Z) (results : list TestResult.t) :
  Report.hasFailures (generateReport now results)
  = negb (forallb TestResult.success results).
Proof.
  cbn [generateReport Report.hasFailures].
  rewrite <- no_failure_iff.
  pose proof (filter_length_split TestResult.success results) as H.
  destruct (List.length (List.filter (fun r => negb (TestResult.success r))
                           results)) as [|n] eqn:E.
  - cbn. apply Z.ltb_ge. lia.
  - cbn. apply Z.ltb_lt. lia.
Qed.

(** X8.  In every report the counts add up: [totalTests] is the number
    of results, [passedTests + failedTests = totalTests], neither count
    is negative, [failedTests] is the length of [failures], [failures]
    holds exactly the results whose [success] is false, and
    [hasFailures] is true exactly when there is such a result. *)
Theorem generateReport_counts_add_up
    (now : Z) (results : list TestResult.t) :
  let report := generateReport now results in
  Report.totalTests report = Z.of_nat (List.length results)
  /\ Report.passedTests report + Report.failedTests report
     = Report.totalTests report
  /\ 0 <= Report.passedTests report
  /\ 0 <= Report.failedTests report
  /\ Report.failedTests report
     = Z.of_nat (List.length (Report.failures report))
  /\ (forall r, In r (Report.failures report) <->
                In r results /\ TestResult.success r = false)
  /\ (Report.hasFailures report = true <->
      exists r, In r results /\ TestResult.success r = false).
Proof.
  cbv zeta.
  pose proof (filter_length_split TestResult.success results) as Hsplit.
  split; [reflexivity|].
  split; [cbn; lia|]. split; [cbn; lia|]. split; [cbn; lia|].
  split; [cbn; lia|]. split.
  - intros r. cbn [generateReport Report.failures].
    rewrite filter_In. split; intros [H1 H2]; split; auto.
    + destruct (TestResult.success r); [discriminate | reflexivity].
    + rewrite H2. reflexivity.
  - rewrite hasFailures_spec. rewrite negb_true_iff. split.
    + intros H. induction results as [|x l IH]; [discriminate|].
      cbn in H. destruct (TestResult.success x) eqn:E.
      * cbn in H. destruct IH as [r [Hin Hr]]; auto.
        { apply filter_length_split. }
        exists r. split; [right|]; assumption.
      * exists x. split; [left; reflexivity | assumption].
    + intros [r [Hin Hr]].
      destruct (forallb TestResult.success results) eqn:E; [|reflexivity].
      rewrite forallb_forall in E. rewrite (E r Hin) in Hr. discriminate.
Qed.

(** ** What a run shows *)

Lemma webhook_free_ret {A} (a : A) : webhook_free (ret a).
Proof. intros s. exists []. rewrite app_nil_r. split; reflexivity. Qed.

Lemma webhook_free_throw {A} (e : Thrown) : webhook_free (@throw A e).
Proof. intros s. exists []. rewrite app_nil_r. split; reflexivity. Qed.

Lemma webhook_free_bind {A B} (m : M A) (k : A -> M B) :
  webhook_free m -> (forall a, webhook_free (k a)) ->
  webhook_free (bind m k).
Proof.
  intros Hm Hk s. unfold bind. destruct (Hm s) as [e1 [H1 F1]].
  destruct (m s) as [[a | e] s1]; cbn [snd] in *.
  - destruct (Hk a s1) as [e2 [H2 F2]]. exists (e1 ++ e2)%list.
    rewrite H2, H1, app_assoc, flat_map_app, F1, F2. split; reflexivity.
  - exists e1. split; assumption.
Qed.

Lemma webhook_free_try_catch {A} (m : M A) (h : Thrown -> M A) :
  webhook_free m -> (forall e, webhook_free (h e)) ->
  webhook_free (try_catch m h).
Proof.
  intros Hm Hh s. unfold try_catch. destruct (Hm s) as [e1 [H1 F1]].
  destruct (m s) as [[a | e] s1]; cbn [snd] in *.
  - exists e1. split; assumption.
  - destruct (Hh e s1) as [e2 [H2 F2]]. exists (e1 ++ e2)%list.
    rewrite H2, H1, app_assoc, flat_map_app, F1, F2. split; reflexivity.
Qed.

Lemma webhook_free_for_of {A} (xs : list A) (body : A -> M unit) :
  (forall x, webhook_free (body x)) -> webhook_free (for_of xs body).
Proof.
  intros Hbody. induction xs as [|x xs IH]; cbn [for_of].
  - apply webhook_free_ret.
  - apply webhook_free_bind; auto.
Qed.

Section Quiet.

Variable env : Env.t.

Lemma webhook_free_Date_now : webhook_free (Date_now env).
Proof. intros s. exists []. rewrite app_nil_r. split; reflexivity. Qed.

Lemma webhook_free_Error_stack : webhook_free (Error_stack env).
Proof. intros s. exists []. rewrite app_nil_r. split; reflexivity. Qed.

Lemma webhook_free_results_push r : webhook_free (results_push r).
Proof. intros s. exists []. cbn. rewrite app_nil_r. split; reflexivity. Qed.

Lemma webhook_free_client_get url timeout :
  webhook_free (client_get env url timeout).
Proof. intros s. eexists. split; reflexivity. Qed.

Lemma webhook_free_client_post url request :
  webhook_free (client_post env url request).
Proof. intros s. eexists. split; reflexivity. Qed.

Lemma webhook_free_client_select q : webhook_free (client_select env q).
Proof. intros s. eexists. split; reflexivity. Qed.

Hint Resolve webhook_free_ret webhook_free_throw webhook_free_bind
  webhook_free_try_catch webhook_free_for_of webhook_free_Date_now
  webhook_free_Error_stack webhook_free_results_push webhook_free_client_get
  webhook_free_client_post webhook_free_client_select : js.

Lemma webhook_free_searchWithStrategy strategy request :
  webhook_free (searchWithStrategy env strategy request).
Proof.
  unfold searchWithStrategy. apply webhook_free_try_catch; auto 10 with js.
  intros e. destruct (Caught.isAxiosError e); auto 10 with js.
Qed.

Lemma webhook_free_healthCheck : webhook_free (healthCheck env).
Proof. unfold healthCheck. auto 10 with js. Qed.

Lemma webhook_free_getRecentCacheEntry options :
  webhook_free (getRecentCacheEntry env options).
Proof.
  unfold getRecentCacheEntry. apply webhook_free_try_catch; auto with js.
  apply webhook_free_bind; auto with js. intros now.
  apply webhook_free_bind; auto with js.
  intros [[[|first rest]|] [error|]]; auto with js.
Qed.

Lemma webhook_free_getCacheEntriesByPrompt prompt limit :
  webhook_free (getCacheEntriesByPrompt env prompt limit).
Proof.
  unfold getCacheEntriesByPrompt. apply webhook_free_try_catch; auto with js.
  apply webhook_free_bind; auto with js. intros now.
  apply webhook_free_bind; auto with js.
  intros [[data|] [error|]]; auto with js.
Qed.

Lemma webhook_free_pulseAPIService_call method request :
  webhook_free (pulseAPIService_call env method request).
Proof.
  unfold pulseAPIService_call, pulseAPIService_method.
  repeat match goal with
         | |- context [if ?b then _ else _] => destruct b
         end;
    try apply webhook_free_searchWithStrategy.
  auto with js.
Qed.

Hint Resolve webhook_free_searchWithStrategy webhook_free_healthCheck
  webhook_free_getRecentCacheEntry webhook_free_getCacheEntriesByPrompt
  webhook_free_pulseAPIService_call : js.




End Quiet.







(** X10.  The eleven results of a run always come under the same names in
    the same order, whatever the world answers; the name
    ["Query Cache Strategy"] is used twice, by the primary probe and by
    the first round of the sweep, so the names of a run are not
    distinct. *)
Theorem run_records_fixed_names
    (env : Env.t) (trace : list Event) (logged : list Report.t) :
  map TestResult.testName
    (State.results (snd (runAllTests env (State.mk [] trace logged))))
  = run_names
  /\ ~ NoDup run_names.
Proof.
  split.
  - destruct (runAllTests_spec env (State.mk [] trace logged))
      as [rs [s' [Hrun [Hres [Hnames _]]]]].
    rewrite Hrun. cbn [snd]. rewrite Hres. cbn [State.results app].
    rewrite Hnames. reflexivity.
  - intros H. inversion H as [|x l H1 H2]; subst.
    inversion H2 as [|x l H3 H4]; subst.
    inversion H4 as [|x l H5 H6]; subst.
    apply H5. cbn. auto.
Qed.

(** ** Single probes, from the answer of the world to the result *)

(** X11.  The health probe makes one exchange, the GET of [/health] with
    a timeout of 5000 ms, and records a success exactly when the reply
    has status 200.  Whatever else happened (another status, a timeout,
    a broken client), the recorded error is the fixed text
    ["API is not healthy"]: the cause never reaches the result. *)
Theorem testAPIHealth_records_no_cause (env : Env.t) (s : State.t) :
  let s1 := traced (HttpGet "/health" 5000) s in
  exists r,
    testAPIHealth env s = results_push r s1
    /\ TestResult.testName r = "API Health Check"
    /\ TestResult.duration r = clock env s1 - clock env s
    /\ (TestResult.success r = true <->
        exists body,
          Env.get env (exchanges s) "/health" 5000 = Replied 200 body)
    /\ TestResult.error r
       = (if TestResult.success r then None else Some "API is not healthy").
Proof.
  cbv zeta.
  unfold testAPIHealth, testAPIHealth_try, healthCheck, bind, try_catch,
    client_get, Date_now, ret, clock.
  cbn [fst snd].
  destruct (Env.get env (exchanges s) "/health" 5000)
    as [status body | message | error]; cbn [settle].
  - destruct (validateStatus status) eqn:Hv.
    + cbn [AxiosResponse.status]. eexists. split; [reflexivity|].
      cbn [TestResult.testName TestResult.duration TestResult.success
           TestResult.error].
      repeat split.
      * intros H. apply Z.eqb_eq in H. subst. exists body. reflexivity.
      * intros [b H]. inversion H. reflexivity.
    + eexists. split; [reflexivity|].
      cbn [TestResult.testName TestResult.duration TestResult.success
           TestResult.error].
      repeat split; try discriminate.
      intros [b H]. inversion H. subst. discriminate.
  - eexists. split; [reflexivity|]. cbn. repeat split; try discriminate.
    intros [b H]. discriminate.
  - eexists. split; [reflexivity|]. cbn. repeat split; try discriminate.
    intros [b H]. discriminate.
Qed.

(** X12.  The connectivity probe makes one select and reads its result
    off the answer: an error object or a throw of the client gives a
    failed result whose error is the message of an [Error] and
    ["Unknown error"] for anything else, such as the plain error object
    of the Supabase client, whatever message that object carries; a first
    row gives a success with the row's [id] and [prompt] as details; no
    row gives a failed result without any error text. *)
Theorem testSupabaseConnection_by_answer (env : Env.t) (s : State.t) :
  exists q r,
    testSupabaseConnection env s = results_push r (traced (Select q) s)
    /\ TestResult.testName r = "Supabase Connection"
    /\ match Env.select env (exchanges s) q with
       | SupabaseResult _ (Some error) | SupabaseThrows error =>
           TestResult.success r = false
           /\ TestResult.details r = None
           /\ TestResult.error r
              = Some match error with
                     | ThrownAxios e => AxiosError.message e
                     | ThrownError message _ => message
                     | ThrownValue _ => "Unknown error"
                     end
       | SupabaseResult (Some (first :: _)) None =>
           TestResult.success r = true
           /\ TestResult.error r = None
           /\ TestResult.details r
              = Some (DetailsEntry (QueryCacheEntry.id first)
                        (QueryCacheEntry.prompt first))
       | SupabaseResult _ None =>
           TestResult.success r = false
           /\ TestResult.error r = None
           /\ TestResult.details r = Some DetailsNull
       end.
Proof.
  unfold testSupabaseConnection, testSupabaseConnection_try,
    getRecentCacheEntry, bind, try_catch, client_select, Date_now, ret, throw.
  cbn [fst snd]. eexists.
  destruct (Env.select env (exchanges s) _)
    as [[[|first rest]|] [error|] | error] eqn:E;
    eexists; (split; [reflexivity|]); (split; [reflexivity|]);
    rewrite E; repeat split; try (destruct error; reflexivity).
Qed.

Lemma find_first {A} (f : A -> bool) (pre : list A) (x : A) (post : list A) :
  (forall y, In y pre -> f y = false) -> f x = true ->
  List.find f (pre ++ x :: post) = Some x.
Proof.
  intros Hpre Hx. induction pre as [|y pre IH]; cbn.
  - rewrite Hx. reflexivity.
  - rewrite (Hpre y (or_introl eq_refl)). apply IH.
    intros z Hz. apply Hpre. right. assumption.
Qed.

(** X13.  Of the entries the store hands back, the primary probe tests
    the first one that is usable, that is whose recorded response has a
    [data] that is not empty and whose [expire_at] lies after the time of
    the check, passing over those before it: it posts
    to [/api/search/query_cache] the request built from that entry, with
    the entry's prompt as query and fallbacks disabled, and the result
    mirrors the response and names the prompt tested. *)
Theorem testQueryCacheStrategy_tests_the_first_valid_entry
    (env : Env.t) (s : State.t)
    (before : list QueryCacheEntry.t) (entry : QueryCacheEntry.t)
    (after : list QueryCacheEntry.t) (s1 : State.t)
    (response : SearchResponse.t) (s2 : State.t) :
  getCacheEntriesByPrompt env "" 5 s
  = (Returned (before ++ entry :: after)%list, s1) ->
  (forall other, In other before ->
                 valid_entry (clock env s1) other = false) ->
  valid_entry (clock env s1) entry = true ->
  testQueryCache env (testQueryCacheStrategy_request entry) s1
  = (Returned response, s2) ->
  exists r,
    testQueryCacheStrategy env s = results_push r s2
    /\ State.trace s2
       = (State.trace s1
          ++ [HttpPost "/api/search/query_cache"
                (testQueryCacheStrategy_request entry)])%list
    /\ SearchRequest.query (testQueryCacheStrategy_request entry)
       = QueryCacheEntry.prompt entry
    /\ SearchRequest.enableFallbacks (testQueryCacheStrategy_request entry)
       = Some false
    /\ TestResult.success r = SearchResponse.success response
    /\ TestResult.error r = SearchResponse.error response
    /\ TestResult.details r
       = Some (DetailsQueryCache
                 (Z.of_nat (List.length (SearchResponse.data response)))
                 (SearchResponse.timing response)
                 (SearchResponse.source response)
                 match SearchResponse.meta response with
                 | Some m => Meta.cache_hit m
                 | None => None
                 end
                 (QueryCacheEntry.prompt entry)).
Proof.
  intros Hfetch Hbefore Hentry Hcall.
  pose proof (searchWithStrategy_state env "query_cache"
                (testQueryCacheStrategy_request entry) s1) as Hstate.
  unfold testQueryCache in Hcall. rewrite Hcall in Hstate. cbn [snd] in Hstate.
  eexists.
  unfold testQueryCacheStrategy, testQueryCacheStrategy_try, bind, try_catch,
    Date_now, testQueryCache.
  cbn [fst snd]. rewrite Hfetch. fold (clock env s1).
  rewrite (find_first _ _ _ _ Hbefore Hentry). rewrite Hcall.
  split; [reflexivity|]. rewrite Hstate.
  repeat split.
Qed.

Lemma testQueryCacheStrategy_tests_the_first_valid_entry_witness :
  exists r,
    testQueryCacheStrategy Scenario.store_mixed State.initial
    = results_push r
        (snd (testQueryCache Scenario.store_mixed
                (testQueryCacheStrategy_request Example.fixture)
                (snd (getCacheEntriesByPrompt Scenario.store_mixed "" 5
                        State.initial))))
    /\ TestResult.success r = true
    /\ TestResult.details r
       = Some (DetailsQueryCache 1 (Some (Timing.mk None None 42))
                 "query_cache" None "restaurants near me").
Proof.
  destruct (testQueryCacheStrategy_tests_the_first_valid_entry
              Scenario.store_mixed State.initial
              [Example.fixture_expired; Example.fixture_empty]
              Example.fixture []
              (snd (getCacheEntriesByPrompt Scenario.store_mixed "" 5
                      State.initial))
              (Example.found ["r1"])
              (snd (testQueryCache Scenario.store_mixed
                      (testQueryCacheStrategy_request Example.fixture)
                      (snd (getCacheEntriesByPrompt Scenario.store_mixed
                              "" 5 State.initial))))
              eq_refl)
    as [r [Hrun [_ [_ [_ [Hok [_ Hdetails]]]]]]].
  - intros other [<- | [<- | []]]; reflexivity.
  - reflexivity.
  - reflexivity.
  - exists r. split; [exact Hrun|]. split; [exact Hok | exact Hdetails].
Defined.

(** X14.  When the store has no entry for the test area and region, the
    vector probe does not give up: it posts to [/api/search/rag_vector]
    the request made of the default query ["pizza deals today"] and of
    the area, region, country and timeline of the configuration, with
    fallbacks disabled. *)
Theorem testRagVectorStrategy_falls_back_to_defaults
    (env : Env.t) (s s1 : State.t) :
  getRecentCacheEntry env (Some (testRagVectorStrategy_options env)) s
  = (Returned None, s1) ->
  State.trace (snd (testRagVectorStrategy env s))
  = (State.trace s1
     ++ [HttpPost "/api/search/rag_vector" (vector_default_request env)])%list.
Proof.
  intros Hentry.
  pose proof (searchWithStrategy_state env "rag_vector"
                (vector_default_request env) s1) as Hstate.
  unfold testRagVectorStrategy, testRagVectorStrategy_try, bind, try_catch,
    Date_now, testRagVector.
  cbn [fst snd]. rewrite Hentry.
  change (testRagVectorStrategy_request env None)
    with (vector_default_request env).
  destruct (searchWithStrategy env "rag_vector" (vector_default_request env)
              s1) as [[response|e] s2];
    cbn [snd] in Hstate; subst s2; reflexivity.
Qed.

Lemma testRagVectorStrategy_falls_back_to_defaults_witness :
  State.trace (snd (testRagVectorStrategy Scenario.store_empty State.initial))
  = (State.trace
       (snd (getRecentCacheEntry Scenario.store_empty
               (Some (testRagVectorStrategy_options Scenario.store_empty))
               State.initial))
     ++ [HttpPost "/api/search/rag_vector"
           (vector_default_request Scenario.store_empty)])%list.
Proof.
  apply (testRagVectorStrategy_falls_back_to_defaults Scenario.store_empty
           State.initial
           (snd (getRecentCacheEntry Scenario.store_empty
                   (Some (testRagVectorStrategy_options Scenario.store_empty))
                   State.initial))
           eq_refl).
Defined.

(** ** The loops *)

(** One round of the sweep: one post, one result, which is read off what
    the facade did. *)
Lemma testAllStrategies_of_round
    (env : Env.t) (name method strategy : string) (s : State.t) :
  pulseAPIService_call env method (testAllStrategies_request env)
  = searchWithStrategy env strategy (testAllStrategies_request env) ->
  let s1 :=
    traced (HttpPost ("/api/search/" ++ strategy)
              (testAllStrategies_request env)) s in
  testAllStrategies_of env (name, method) s
  = results_push
      match fst (searchWithStrategy env strategy
                   (testAllStrategies_request env) s) with
      | Returned response =>
          {| TestResult.testName := name ++ " Strategy";
             TestResult.success := SearchResponse.success response;
             TestResult.duration := clock env s1 - clock env s;
             TestResult.error := SearchResponse.error response;
             TestResult.details :=
               Some (DetailsStrategy
                       (Z.of_nat (List.length (SearchResponse.data response)))
                       (SearchResponse.timing response)) |}
      | Threw error =>
          failed (name ++ " Strategy") (clock env s1 - clock env s) error
      end
      s1.
Proof.
  intros Hcall. cbv zeta.
  pose proof (searchWithStrategy_state env strategy
                (testAllStrategies_request env) s) as Hstate.
  unfold testAllStrategies_of, testAllStrategies_try, bind, try_catch,
    Date_now, clock.
  cbn [fst snd]. rewrite Hcall.
  destruct (searchWithStrategy env strategy (testAllStrategies_request env) s)
    as [[response|e] s2];
    cbn [fst snd] in *; subst s2; reflexivity.
Qed.

(** One round of the performance probe. *)
Lemma testPerformance_of_round
    (env : Env.t) (test : string * Z) (s : State.t) :
  exists r,
    testPerformance_of env test s
    = results_push r
        (traced (HttpPost ("/api/search/" ++ fst test)
                   (testPerformance_request env)) s)
    /\ TestResult.testName r = fst test ++ " Performance".
Proof.
  pose proof (searchWithStrategy_state env (fst test)
                (testPerformance_request env) s) as Hstate.
  unfold testPerformance_of, testPerformance_try, bind, try_catch, Date_now.
  cbn [fst snd].
  destruct (searchWithStrategy env (fst test) (testPerformance_request env) s)
    as [[response|e] s2];
    cbn [snd] in Hstate; subst s2; eexists; split; reflexivity.
Qed.

(** X15.  The strategy sweep always makes its four posts, to
    [query_cache], [rag_cache], [rag_hybrid] and [web_search_llm] in this
    order and with one shared request, and always records four results
    under the names of the four strategies: nothing that happens in one
    round, a throw included, keeps the later rounds from running. *)
Theorem testAllStrategies_always_makes_four_rounds
    (env : Env.t) (s : State.t) :
  exists r1 r2 r3 r4 s',
    testAllStrategies env s = (Returned tt, s')
    /\ State.results s' = (State.results s ++ [r1; r2; r3; r4])%list
    /\ map TestResult.testName [r1; r2; r3; r4]
       = [ "Query Cache Strategy"; "RAG Cache Strategy";
           "RAG Hybrid Strategy"; "Web Search LLM Strategy" ]
    /\ State.trace s' = (State.trace s ++ sweep_posts env)%list
    /\ State.logged s' = State.logged s.
Proof.
  unfold testAllStrategies, strategies. cbn [for_of]. unfold bind.
  rewrite (testAllStrategies_of_round env "Query Cache" "testQueryCache"
             "query_cache" s eq_refl).
  cbv zeta. unfold results_push at 1.
  match goal with
  | |- context [testAllStrategies_of env _ ?st] =>
      rewrite (testAllStrategies_of_round env "RAG Cache" "testRagCache"
                 "rag_cache" st eq_refl)
  end.
  cbv zeta. unfold results_push at 1.
  match goal with
  | |- context [testAllStrategies_of env _ ?st] =>
      rewrite (testAllStrategies_of_round env "RAG Hybrid" "testRagHybrid"
                 "rag_hybrid" st eq_refl)
  end.
  cbv zeta. unfold results_push at 1.
  match goal with
  | |- context [testAllStrategies_of env _ ?st] =>
      rewrite (testAllStrategies_of_round env "Web Search LLM"
                 "testWebSearchLLM" "web_search_llm" st eq_refl)
  end.
  cbv zeta. unfold results_push at 1. unfold ret.
  do 5 eexists. split; [reflexivity|].
  cbn [State.results State.trace State.logged traced].
  repeat rewrite <- app_assoc. cbn [app].
  split; [reflexivity|]. split.
  - cbn [map].
    repeat match goal with
           | |- context [match ?c with Returned _ => _ | Threw _ => _ end] =>
               destruct c
           end; reflexivity.
  - split; reflexivity.
Qed.

(** X16.  The performance probe always makes its three posts, to
    [query_cache], [rag_cache] and [rag_vector] in this order and with
    the request ["test performance"], and always records three results
    under the names of the three strategies. *)
Theorem testPerformance_always_makes_three_rounds
    (env : Env.t) (s : State.t) :
  exists r1 r2 r3 s',
    testPerformance env s = (Returned tt, s')
    /\ State.results s' = (State.results s ++ [r1; r2; r3])%list
    /\ map TestResult.testName [r1; r2; r3]
       = [ "query_cache Performance"; "rag_cache Performance";
           "rag_vector Performance" ]
    /\ State.trace s' = (State.trace s ++ performance_posts env)%list
    /\ State.logged s' = State.logged s.
Proof.
  unfold testPerformance, performanceTests. cbn [for_of]. unfold bind.
  destruct (testPerformance_of_round env ("query_cache", 500) s)
    as [r1 [H1 N1]].
  rewrite H1. unfold results_push at 1.
  match goal with
  | |- context [testPerformance_of env _ ?st] =>
      destruct (testPerformance_of_round env ("rag_cache", 1000) st)
        as [r2 [H2 N2]]
  end.
  rewrite H2. unfold results_push at 1.
  match goal with
  | |- context [testPerformance_of env _ ?st] =>
      destruct (testPerformance_of_round env ("rag_vector", 3000) st)
        as [r3 [H3 N3]]
  end.
  rewrite H3. unfold results_push at 1. unfold ret.
  exists r1, r2, r3. eexists. split; [reflexivity|].
  cbn [State.results State.trace State.logged traced].
  repeat rewrite <- app_assoc. cbn [app].
  split; [reflexivity|]. split; [|split; reflexivity].
  cbn [map]. rewrite N1, N2, N3. reflexivity.
Qed.

(** ** The bound of the performance probe *)

(** The rounds of the performance probe over any list of pairs: each
    round starts where the one before it ended, one exchange later, and
    leaves its result at its own place among the results recorded. *)
Lemma testPerformance_rounds
    (env : Env.t) (tests : list (string * Z)) :
  forall s,
  exists rs s',
    for_of tests (testPerformance_of env) s = (Returned tt, s')
    /\ State.results s' = (State.results s ++ rs)%list
    /\ List.length rs = List.length tests
    /\ forall i test,
         nth_error tests i = Some test ->
         exists si r,
           exchanges si = (exchanges s + i)%nat
           /\ testPerformance_of env test si
              = results_push r
                  (traced (HttpPost ("/api/search/" ++ fst test)
                             (testPerformance_request env)) si)
           /\ nth_error rs i = Some r.
Proof.
  induction tests as [|test0 tests IH]; intros s.
  - exists [], s. cbn [for_of]. unfold ret. rewrite app_nil_r.
    repeat split. intros [|i] test H; discriminate.
  - destruct (testPerformance_of_round env test0 s) as [r0 [Hround0 _]].
    set (s1 := snd (results_push r0
                      (traced (HttpPost ("/api/search/" ++ fst test0)
                                 (testPerformance_request env)) s))).
    destruct (IH s1) as [rs [s' [Hrun [Hres [Hlen Hrounds]]]]].
    exists (r0 :: rs), s'. cbn [for_of]. unfold bind. rewrite Hround0.
    unfold results_push at 1. fold s1.
    split; [exact Hrun|].
    split; [rewrite Hres; subst s1; cbn; rewrite <- app_assoc; reflexivity|].
    split; [cbn; congruence|].
    intros [|i] test Hi; cbn [nth_error] in *.
    + inversion Hi; subst test. exists s, r0.
      split; [symmetry; apply Nat.add_0_r|].
      split; [exact Hround0 | reflexivity].
    + destruct (Hrounds i test Hi) as [si [r [Hsi [Hround Hnth]]]].
      exists si, r. split; [|split; assumption].
      rewrite Hsi. subst s1. unfold exchanges. cbn.
      rewrite length_app. cbn. lia.
Qed.

Lemma results_push_inj (r r' : TestResult.t) (s : State.t) :
  results_push r s = results_push r' s -> r = r'.
Proof.
  unfold results_push. intros H. inversion H as [Hresults].
  apply app_inv_head in Hresults. congruence.
Qed.

(** C7.  For every pair of the fixed list of the performance probe whose
    call is answered with a response that reports success, the probe, run
    as a whole, records for that pair a result that is a success when the
    call was measured at exactly [expectedMs], the bound being
    inclusive, and a failure at [expectedMs + 1], with an error text
    that contains both the measured and the expected number of
    milliseconds.  The call of the [i]-th pair is the [i]-th exchange of
    the probe, and its result the [i]-th of the three the probe
    records. *)
Theorem testPerformance_bound_is_inclusive
    (env : Env.t) (s : State.t) (i : nat) (strategy : string)
    (expectedMs status : Z) (body : SearchResponse.t) :
  nth_error performanceTests i = Some (strategy, expectedMs) ->
  Env.post env (exchanges s + i)%nat ("/api/search/" ++ strategy)
    (testPerformance_request env)
  = Replied status body ->
  validateStatus status = true ->
  SearchResponse.success body = true ->
  let measured :=
    Env.clock env (exchanges s + i + 1)%nat
    - Env.clock env (exchanges s + i)%nat in
  exists s' r,
    testPerformance env s = (Returned tt, s')
    /\ List.length (State.results s')
       = (List.length (State.results s) + 3)%nat
    /\ nth_error (State.results s') (List.length (State.results s) + i)
       = Some r
    /\ TestResult.testName r = strategy ++ " Performance"
    /\ TestResult.duration r = measured
    /\ (measured = expectedMs ->
        TestResult.success r = true /\ TestResult.error r = None)
    /\ (measured = expectedMs + 1 ->
        TestResult.success r = false
        /\ exists msg,
             TestResult.error r = Some msg
             /\ JS.includes msg (JS.string_of_Z (expectedMs + 1)) = true
             /\ JS.includes msg (JS.string_of_Z expectedMs) = true).
Proof.
  intros Hi Hpost Hstatus Hok measured.
  destruct (testPerformance_rounds env performanceTests s)
    as [rs [s' [Hrun [Hres [Hlen Hrounds]]]]].
  destruct (Hrounds i _ Hi) as [si [r [Hsi [Hround Hnth]]]].
  cbn [fst] in Hround.
  set (s1 := traced (HttpPost ("/api/search/" ++ strategy)
                       (testPerformance_request env)) si) in *.
  assert (Hcall : searchWithStrategy env strategy
                    (testPerformance_request env) si
                  = (Returned body, s1)).
  { pose proof (searchWithStrategy_spec env strategy
                  (testPerformance_request env) si) as H.
    cbv zeta in H. rewrite Hsi, Hpost, Hstatus in H. exact H. }
  destruct (testPerformance_of_bound env (strategy, expectedMs) si body s1
              Hcall Hok)
    as [r' [Hround' [Hname [Hduration [Hon Hlate]]]]].
  assert (r' = r) as ->.
  { apply (results_push_inj r' r s1). congruence. }
  assert (Hmeasured : TestResult.duration r = measured).
  { rewrite Hduration. subst measured s1. unfold clock, exchanges, traced.
    cbn [State.trace]. rewrite length_app. cbn [List.length].
    unfold exchanges in Hsi. rewrite Hsi. reflexivity. }
  cbn [fst snd] in *.
  exists s', r. split; [exact Hrun|].
  split; [rewrite Hres, length_app, Hlen; reflexivity|].
  split.
  { rewrite Hres, nth_error_app2 by lia.
    replace (List.length (State.results s) + i
             - List.length (State.results s))%nat with i by lia.
    exact Hnth. }
  split; [exact Hname|]. split; [exact Hmeasured|].
  rewrite <- Hmeasured. split; assumption.
Qed.

(** C7, on two runs of the probe.  With every exchange taking 1000 ms,
    the call of [rag_cache], the second of the probe, meets its bound of
    1000 ms and passes; with every exchange taking 1001 ms it fails and
    its error names both times. *)
Lemma testPerformance_bound_is_inclusive_witness :
  (exists s' r,
     testPerformance (Example.healthy Example.config_flags_off 1000)
       State.initial = (Returned tt, s')
     /\ nth_error (State.results s') 1 = Some r
     /\ TestResult.testName r = "rag_cache Performance"
     /\ TestResult.duration r = 1000
     /\ TestResult.success r = true
     /\ TestResult.error r = None)
  /\ (exists s' r,
        testPerformance (Example.healthy Example.config_flags_off 1001)
          State.initial = (Returned tt, s')
        /\ nth_error (State.results s') 1 = Some r
        /\ TestResult.testName r = "rag_cache Performance"
        /\ TestResult.duration r = 1001
        /\ TestResult.success r = false
        /\ exists msg,
             TestResult.error r = Some msg
             /\ JS.includes msg "1001" = true
             /\ JS.includes msg "1000" = true).
Proof.
  split.
  - destruct (testPerformance_bound_is_inclusive
                (Example.healthy Example.config_flags_off 1000)
                State.initial 1 "rag_cache" 1000 200
                (Example.found ["r1"]) eq_refl eq_refl eq_refl eq_refl)
      as [s' [r [Hrun [Hlen [Hnth [Hname [Hduration [Hon Hlate]]]]]]]].
    exists s', r. split; [exact Hrun|]. split; [exact Hnth|].
    split; [exact Hname|]. split; [exact Hduration|].
    apply Hon. reflexivity.
  - destruct (testPerformance_bound_is_inclusive
                (Example.healthy Example.config_flags_off 1001)
                State.initial 1 "rag_cache" 1000 200
                (Example.found ["r1"]) eq_refl eq_refl eq_refl eq_refl)
      as [s' [r [Hrun [Hlen [Hnth [Hname [Hduration [Hon Hlate]]]]]]]].
    exists s', r. split; [exact Hrun|]. split; [exact Hnth|].
    split; [exact Hname|]. split; [exact Hduration|].
    apply Hlate. reflexivity.
Defined.

(** ** When the search API is down *)

(** On a failed exchange the facade answers with the normalized response,
    whose error is the text of the reply or else the message of axios. *)
Lemma searchWithStrategy_down
    (env : Env.t) (strategy : string) (request : SearchRequest.t)
    (s : State.t) :
  failed_exchange
    (Env.post env (exchanges s) ("/api/search/" ++ strategy) request) ->
  let s1 := traced (HttpPost ("/api/search/" ++ strategy) request) s in
  exists msg,
    match Env.post env (exchanges s) ("/api/search/" ++ strategy) request with
    | Replied status body =>
        msg = JS.or_default (SearchResponse.error body)
                ("Request failed with status code " ++ JS.string_of_Z status)
    | NoReply message => msg = message
    | Broken _ => False
    end
    /\ searchWithStrategy env strategy request s
       = (Returned
            (normalized strategy (JS.toISOString (clock env s1)) (Some msg)),
          s1).
Proof.
  intros Hfail. cbv zeta.
  pose proof (searchWithStrategy_spec env strategy request s) as H.
  cbv zeta in H. rewrite H.
  destruct (Env.post env (exchanges s) ("/api/search/" ++ strategy) request)
    as [status body | message | error]; inversion Hfail; subst.
  - rewrite H1, or_default_spec. eexists. split; reflexivity.
  - exists message. split; reflexivity.
Qed.

Lemma sweep_rounds_are_the_strategies :
  map fst sweep_rounds = strategies.
Proof. reflexivity. Qed.

(** X17.  When the exchange of a sweep round fails on the wire (no reply,
    or a status outside 200..299), the round records a failed result
    with an item count of 0 whose error is the error of the facade's
    response: the error text of the reply when it has one that is not
    empty, and otherwise the message of axios' error, as it is.  The
    failure comes through the response of the facade, not through the
    [catch] of the round. *)
Theorem sweep_round_records_an_api_failure
    (env : Env.t) (name method strategy : string) (s : State.t) :
  In (name, method, strategy) sweep_rounds ->
  failed_exchange
    (Env.post env (exchanges s) ("/api/search/" ++ strategy)
       (testAllStrategies_request env)) ->
  exists r msg timing,
    testAllStrategies_of env (name, method) s
    = results_push r
        (traced (HttpPost ("/api/search/" ++ strategy)
                   (testAllStrategies_request env)) s)
    /\ TestResult.testName r = name ++ " Strategy"
    /\ TestResult.success r = false
    /\ TestResult.error r = Some msg
    /\ match Env.post env (exchanges s) ("/api/search/" ++ strategy)
               (testAllStrategies_request env) with
       | Replied status body =>
           msg = JS.or_default (SearchResponse.error body)
                   ("Request failed with status code "
                    ++ JS.string_of_Z status)
       | NoReply message => msg = message
       | Broken _ => False
       end
    /\ TestResult.details r = Some (DetailsStrategy 0 timing).
Proof.
  intros Hin Hfail.
  destruct (searchWithStrategy_down env strategy
              (testAllStrategies_request env) s Hfail) as [msg [Hmsg Hdown]].
  assert (Hcall : pulseAPIService_call env method
                    (testAllStrategies_request env)
                  = searchWithStrategy env strategy
                      (testAllStrategies_request env)).
  { unfold sweep_rounds in Hin.
    repeat (destruct Hin as [Hin | Hin];
            [inversion Hin; subst; reflexivity|]).
    contradiction. }
  rewrite (testAllStrategies_of_round env name method strategy s Hcall).
  cbv zeta. rewrite Hdown. cbn [fst].
  eexists. exists msg. eexists. split; [reflexivity|].
  do 3 (split; [reflexivity|]). split; [exact Hmsg | reflexivity].
Qed.

Lemma sweep_round_records_an_api_failure_witness :
  exists r timing,
    testAllStrategies_of Example.api_timeout ("RAG Hybrid", "testRagHybrid")
      State.initial
    = results_push r
        (traced (HttpPost "/api/search/rag_hybrid"
                   (testAllStrategies_request Example.api_timeout))
           State.initial)
    /\ TestResult.testName r = "RAG Hybrid Strategy"
    /\ TestResult.success r = false
    /\ TestResult.error r = Some "timeout of 30000ms exceeded"
    /\ TestResult.details r = Some (DetailsStrategy 0 timing).
Proof.
  destruct (sweep_round_records_an_api_failure Example.api_timeout
              "RAG Hybrid" "testRagHybrid" "rag_hybrid" State.initial
              (or_intror (or_intror (or_introl eq_refl)))
              (failed_transport _))
    as [r [msg [timing [Hrun [Hname [Hfailed [Herror [Hmsg Hdetails]]]]]]]].
  cbn in Hmsg. subst msg. exists r, timing.
  repeat (split; [assumption|]). assumption.
Defined.

(** X18.  When the exchange of a performance round fails on the wire but
    within the expected time, the round records a failed result without
    any error text: the error of the facade's response is not copied,
    and the text about the time is written for a breach of the bound
    only. *)
Theorem testPerformance_fast_failure_has_no_error_text
    (env : Env.t) (test : string * Z) (s : State.t) :
  let s1 :=
    traced (HttpPost ("/api/search/" ++ fst test)
              (testPerformance_request env)) s in
  failed_exchange
    (Env.post env (exchanges s) ("/api/search/" ++ fst test)
       (testPerformance_request env)) ->
  clock env s1 - clock env s <= snd test ->
  exists r,
    testPerformance_of env test s = results_push r s1
    /\ TestResult.testName r = fst test ++ " Performance"
    /\ TestResult.success r = false
    /\ TestResult.error r = None
    /\ TestResult.details r
       = Some (DetailsPerformance (snd test) (clock env s1 - clock env s)
                 true).
Proof.
  cbv zeta. intros Hfail Hfast.
  destruct (searchWithStrategy_down env (fst test)
              (testPerformance_request env) s Hfail) as [msg [Hne Hdown]].
  cbv zeta in Hdown.
  rewrite (testPerformance_of_answered env test s _ _ Hdown).
  apply Z.leb_le in Hfast.
  eexists. split; [reflexivity|].
  cbn [TestResult.testName TestResult.success TestResult.error
       TestResult.details normalized SearchResponse.success andb].
  rewrite Hfast. repeat split.
Qed.

Lemma testPerformance_fast_failure_has_no_error_text_witness :
  exists r,
    testPerformance_of Scenario.api_unavailable ("rag_cache", 1000)
      State.initial
    = results_push r
        (traced (HttpPost "/api/search/rag_cache"
                   (testPerformance_request Scenario.api_unavailable))
           State.initial)
    /\ TestResult.testName r = "rag_cache Performance"
    /\ TestResult.success r = false
    /\ TestResult.error r = None
    /\ TestResult.details r = Some (DetailsPerformance 1000 40 true).
Proof.
  apply (testPerformance_fast_failure_has_no_error_text
           Scenario.api_unavailable ("rag_cache", 1000) State.initial).
  - apply failed_status. reflexivity.
  - vm_compute. discriminate.
Defined.

(** ** Durations *)

Section Durations.

Variable env : Env.t.
Hypothesis clock_is_monotone : monotone_clock env.

Lemma clock_after (s s' : State.t) (events : list Event) :
  State.trace s' = (State.trace s ++ events)%list ->
  clock env s <= clock env s'.
Proof.
  intros H. unfold clock, exchanges. apply clock_is_monotone.
  rewrite H, length_app. lia.
Qed.

Lemma timed_bind {A} (start : Z) (m : M A) (k : A -> M unit) :
  webhook_free m -> silent m -> (forall a, timed env start (k a)) ->
  timed env start (bind m k).
Proof.
  intros Hfree Hsilent Hk s Hstart. unfold bind.
  destruct (Hfree s) as [events [Htrace _]]. destruct (Hsilent s) as [Hres _].
  destruct (m s) as [[a|e] s1]; cbn [snd] in *.
  - pose proof (clock_after s s1 events Htrace) as Hclock.
    specialize (Hk a s1). destruct (k a s1) as [[u|e] s2].
    + destruct Hk as [r [Hr Hd]]; [lia|]. exists r. split; congruence.
    + destruct Hk as [Hr Hc]; [lia|]. split; congruence.
  - pose proof (clock_after s s1 events Htrace) as Hclock.
    split; [assumption | lia].
Qed.

Lemma timed_push (start : Z) (f : Z -> TestResult.t) :
  (forall now, TestResult.duration (f now) = now - start) ->
  timed env start (bind (Date_now env) (fun now => results_push (f now))).
Proof.
  intros Hf s Hstart. unfold bind, Date_now, results_push. fold (clock env s).
  exists (f (clock env s)). split; [reflexivity|]. rewrite Hf. lia.
Qed.

Hint Resolve webhook_free_ret webhook_free_throw webhook_free_bind
  webhook_free_try_catch webhook_free_Date_now webhook_free_Error_stack
  webhook_free_client_get webhook_free_client_post webhook_free_client_select
  webhook_free_searchWithStrategy webhook_free_healthCheck
  webhook_free_getRecentCacheEntry webhook_free_getCacheEntriesByPrompt
  webhook_free_pulseAPIService_call
  silent_Date_now silent_Error_stack silent_searchWithStrategy
  silent_healthCheck silent_getRecentCacheEntry
  silent_getCacheEntriesByPrompt silent_pulseAPIService_call : js.

Lemma timed_boundaries (b : Boundary) :
  In b (boundaries env) -> forall t, timed env t (snd b t).
Proof.
  intros Hin t.
  unfold boundaries, strategies, performanceTests in Hin.
  cbn [map app] in Hin.
  repeat (destruct Hin as [<- | Hin]); try contradiction; cbn [snd].
  - unfold testAPIHealth_try.
    apply timed_bind; auto with js. intros healthy.
    apply (timed_push t (fun now => TestResult.mk _ _ _ _ _)). reflexivity.
  - unfold testSupabaseConnection_try.
    apply timed_bind; auto with js. intros entry.
    apply (timed_push t (fun now => TestResult.mk _ _ _ _ _)). reflexivity.
  - unfold testQueryCacheStrategy_try.
    apply timed_bind; auto with js. intros entries.
    apply timed_bind; auto with js. intros today.
    destruct (find _ entries).
    + apply timed_bind; unfold testQueryCache; auto with js. intros response.
      apply (timed_push t (fun now => TestResult.mk _ _ _ _ _)). reflexivity.
    + apply (timed_push t (fun now => TestResult.mk _ _ _ _ _)). reflexivity.
  - unfold testRagVectorStrategy_try.
    apply timed_bind; auto with js. intros entry.
    apply timed_bind; unfold testRagVector; auto with js. intros response.
    apply (timed_push t (fun now => TestResult.mk _ _ _ _ _)). reflexivity.
  - unfold testAllStrategies_try.
    apply timed_bind; auto with js. intros response.
    apply (timed_push t (fun now => TestResult.mk _ _ _ _ _)). reflexivity.
  - unfold testAllStrategies_try.
    apply timed_bind; auto with js. intros response.
    apply (timed_push t (fun now => TestResult.mk _ _ _ _ _)). reflexivity.
  - unfold testAllStrategies_try.
    apply timed_bind; auto with js. intros response.
    apply (timed_push t (fun now => TestResult.mk _ _ _ _ _)). reflexivity.
  - unfold testAllStrategies_try.
    apply timed_bind; auto with js. intros response.
    apply (timed_push t (fun now => TestResult.mk _ _ _ _ _)). reflexivity.
  - unfold testPerformance_try.
    apply timed_bind; auto with js. intros response.
    apply (timed_push t (fun now => TestResult.mk _ _ _ _ _)). reflexivity.
  - unfold testPerformance_try.
    apply timed_bind; auto with js. intros response.
    apply (timed_push t (fun now => TestResult.mk _ _ _ _ _)). reflexivity.
  - unfold testPerformance_try.
    apply timed_bind; auto with js. intros response.
    apply (timed_push t (fun now => TestResult.mk _ _ _ _ _)). reflexivity.
Qed.

Lemma guarded_not_negative testName attempt (s : State.t) :
  (forall t, timed env t (attempt t)) ->
  Forall not_negative (State.results s) ->
  fst (guarded env testName attempt s) = Returned tt
  /\ Forall not_negative (State.results (snd (guarded env testName attempt s))).
Proof.
  intros Htimed Hs. unfold guarded, bind, try_catch, Date_now.
  cbn [fst snd]. fold (clock env s).
  specialize (Htimed (clock env s) s (Z.le_refl _)).
  destruct (attempt (clock env s) s) as [[[]|e] s1].
  - destruct Htimed as [r [Hr Hd]]. cbn [fst snd]. split; [reflexivity|].
    rewrite Hr. apply Forall_app. split; [assumption|].
    constructor; [exact Hd | constructor].
  - destruct Htimed as [Hr Hc]. cbn [fst snd results_push State.results].
    split; [reflexivity|]. rewrite Hr. apply Forall_app.
    split; [assumption|]. constructor; [|constructor].
    unfold not_negative, failed. cbn [TestResult.duration].
    fold (clock env s1). lia.
Qed.

Lemma checks_not_negative (bs : list Boundary) :
  (forall b, In b bs -> forall t, timed env t (snd b t)) ->
  forall s,
    Forall not_negative (State.results s) ->
    Forall not_negative
      (State.results (snd (for_of bs (check env) s))).
Proof.
  induction bs as [|b bs IH]; intros Hbs s Hs; cbn [for_of].
  - exact Hs.
  - unfold bind.
    destruct (guarded_not_negative (fst b) (snd b) s
                (Hbs b (or_introl eq_refl)) Hs) as [Hret Hres].
    fold (check env b) in Hret, Hres.
    destruct (check env b s) as [c s1]. cbn [fst snd] in *. subst c.
    apply IH; [|assumption].
    intros b' Hb'. apply Hbs. right. assumption.
Qed.

End Durations.

(** X19.  In a world whose clock never goes back, no result of a run has
    a negative duration: every duration is the difference of two readings
    of the clock, the later minus the earlier. *)
Theorem run_durations_are_not_negative
    (env : Env.t) (trace : list Event) (logged : list Report.t) :
  monotone_clock env ->
  Forall (fun r => 0 <= TestResult.duration r)
    (State.results (snd (runAllTests env (State.mk [] trace logged)))).
Proof.
  intros Hclock. set (s0 := State.mk [] trace logged).
  pose proof (checks_not_negative env (boundaries env)
                (timed_boundaries env Hclock) s0 (Forall_nil _)) as Hchecks.
  destruct (checks_spec env (boundaries env) (boundaries_well_behaved env) s0)
    as [rs [s1 [Hrun _]]].
  destruct (report_and_notify_spec env s1) as [s2 [Hrep [Hres _]]].
  rewrite runAllTests_checks. unfold try_catch, bind.
  rewrite Hrun, Hrep. cbn [snd]. rewrite Hres.
  rewrite Hrun in Hchecks. exact Hchecks.
Qed.

Lemma run_durations_are_not_negative_witness :
  Forall (fun r => 0 <= TestResult.duration r)
    (State.results
       (snd (runAllTests (Example.healthy Example.config_flags_on 40)
               (State.mk [] [] [])))).
Proof.
  apply (run_durations_are_not_negative
           (Example.healthy Example.config_flags_on 40) [] []).
  intros n m Hnm. cbn [Example.healthy Env.clock]. lia.
Defined.
